(** * OrmosBot: the crawl stage and the stats stage, embedded and verified

    The development follows the two entry points of the repository:

    - [src/ormosbot/update_module_data.py]: [scryfall_query],
      [fetch_scryfall_stats], [update_data_module], [lua_from_mapping];
    - [src/ormosbot/setstatsrendered.py]: [process_page],
      [register_page_queries], [dump_queries_to_file], [load_revision_cache],
      [dump_revision_cache], [current_revision_record] and [main].

    Python values are modelled as follows.  A [str] is a [string] holding the
    UTF-8 bytes of the text, so that byte-wise comparison is code point
    comparison.  An [int] is a [Z].  A [dict] with string keys is an
    association list in insertion order ([pydict]); a [set] of strings is a
    [gset string].  Values that travel through Python's [json] module are
    terms of [json]; floating point numbers are outside the model.
    Exceptions are the constructors of [exn], and code that raises, logs,
    reads or writes files runs in the monad [py].  Records sent to a logger at
    level info, warning or error are kept in order; debug records are not
    modelled.

    Three assumptions are built into the definitions, and the statements
    that depend on them say so.  A text that is written to a file has a
    UTF-8 form: [write_text] always succeeds, where the codec of the file
    refuses half a surrogate pair; the statements on what a later run reads
    back ask for a [storable] state.  [Json.loads] reads a text and has no
    limit on the nesting or on the digits of a number; [Json.load] reads
    the bytes of a file, decodes them, and leaves the model where these
    limits would be met.  An answer of the search service whose status is
    ok has a body that is a JSON object whose [total_cards], when present,
    is an integer: [Response] holds that number instead of the body, and
    the exception that [response.json()] raises on another body is not
    modelled. *)

From Stdlib Require Import ZArith List Ascii String Lia.
From Stdlib Require Import DecimalString DecimalFacts DecimalPos DecimalZ.
From stdpp Require Import base gmap sets list strings sorting.

Local Open Scope Z_scope.

(** ** Python strings *)

Module Str.

(** [needle in hay]. *)
Fixpoint contains (needle hay : string) : bool :=
  if String.prefix needle hay then true
  else match hay with
       | EmptyString => false
       | String _ hay' => contains needle hay'
       end.

(** [sep.join(parts)]. *)
Definition join (sep : string) (parts : list string) : string :=
  String.concat sep parts.

(** [str(n)] for an integer. *)
Definition of_Z (z : Z) : string := NilZero.string_of_int (Z.to_int z).

(** [str(n)] for a length or a position. *)
Definition of_nat (n : nat) : string := of_Z (Z.of_nat n).

Definition lower_ascii (c : ascii) : ascii :=
  let n := nat_of_ascii c in
  if ((65 <=? n)%nat && (n <=? 90)%nat)%bool then ascii_of_nat (n + 32) else c.

(** [s.lower()]; exact on ASCII text, which is all the sources apply it to
    (the one-letter colour codes). *)
Fixpoint lower (s : string) : string :=
  match s with
  | EmptyString => EmptyString
  | String c s' => String (lower_ascii c) (lower s')
  end.

(** The ASCII characters that [str.strip] removes. *)
Definition is_space (c : ascii) : bool :=
  let n := nat_of_ascii c in
  ((n =? 32)%nat || ((9 <=? n)%nat && (n <=? 13)%nat)
   || ((28 <=? n)%nat && (n <=? 31)%nat))%bool.

Fixpoint lstrip (s : string) : string :=
  match s with
  | EmptyString => EmptyString
  | String c s' => if is_space c then lstrip s' else s
  end.

(** [s.strip()]; exact on ASCII text. *)
Definition strip (s : string) : string :=
  String.rev (lstrip (String.rev (lstrip s))).

(** A byte that goes on with the UTF-8 form of a character. *)
Definition is_continuation (c : ascii) : bool :=
  let n := nat_of_ascii c in ((128 <=? n)%nat && (n <? 192)%nat)%bool.

(** [list(s)]: the characters of the text, each with the bytes of its
    UTF-8 form. *)
Fixpoint code_points (s : string) : list string :=
  match s with
  | EmptyString => []
  | String c s' =>
      let continued :=
        match s' with
        | String d _ => is_continuation d
        | EmptyString => false
        end in
      match code_points s' with
      | chunk :: chunks =>
          if continued then String c chunk :: chunks
          else String c EmptyString :: chunk :: chunks
      | [] => [String c EmptyString]
      end
  end.

End Str.

(** ** Python dictionaries with string keys *)

Definition pydict (A : Type) : Type := list (string * A).

Module Dict.
Section ops.
Context {A : Type}.

(** [d.get(k)], with [None] for a missing key. *)
Fixpoint get (k : string) (d : pydict A) : option A :=
  match d with
  | [] => None
  | (k', v) :: d' => if String.eqb k k' then Some v else get k d'
  end.

(** [k in d]. *)
Definition mem (k : string) (d : pydict A) : bool :=
  match get k d with Some _ => true | None => false end.

(** [d[k] = v]: an existing key keeps its position, a new key goes last. *)
Fixpoint set (k : string) (v : A) (d : pydict A) : pydict A :=
  match d with
  | [] => [(k, v)]
  | (k', v') :: d' =>
      if String.eqb k k' then (k', v) :: d' else (k', v') :: set k v d'
  end.

(** [d.keys()], in insertion order. *)
Definition keys (d : pydict A) : list string := map fst d.

(** [dict(pairs)]: a later pair with the same key replaces the value. *)
Definition of_pairs (pairs : list (string * A)) : pydict A :=
  fold_left (fun d kv => set (fst kv) (snd kv) d) pairs [].

(** The keys of a Python dictionary are pairwise distinct. *)
Definition wf (d : pydict A) : Prop := NoDup (keys d).

End ops.
End Dict.

(** ** Exceptions, the outside world and the monad of effects *)

Inductive exn : Type :=
| TimeoutError (msg : string)   (* pywikibot.exceptions.TimeoutError *)
| JSONDecodeError               (* json.JSONDecodeError *)
| AttributeError
| TypeError
| OtherError (name : string)    (* anything else a collaborator raises *)
| NotModelled (what : string).  (* the run leaves what the model covers *)

Inductive log_record : Type :=
| LogInfo (msg : string)
| LogWarning (msg : string)
| LogError (msg : string).

(** What a run does to the outside, in order: a record sent to the logger, a
    request for the rendered content of a wiki page, a file opened for
    writing and filled with a text. *)
Inductive event : Type :=
| EvLog (r : log_record)
| EvFetch (page_title : string)
| EvWrite (path : string) (content : string).

Record world : Type := mkWorld {
  files : gmap string string;   (* path -> text of the file *)
  trace : list event
}.

Inductive outcome (A : Type) : Type :=
| Return (a : A)
| Raise (e : exn).
Arguments Return {A} a.
Arguments Raise {A} e.

Definition py (A : Type) : Type := world -> outcome A * world.

Definition ret {A} (a : A) : py A := fun w => (Return a, w).

Definition raise {A} (e : exn) : py A := fun w => (Raise e, w).

Definition bind {A B} (m : py A) (k : A -> py B) : py B :=
  fun w => match m w with
           | (Return a, w') => k a w'
           | (Raise e, w') => (Raise e, w')
           end.

Notation "x <- m ;; k" := (bind m (fun x => k))
  (at level 100, m at next level, right associativity).
Notation "m ;;; k" := (bind m (fun _ => k))
  (at level 100, right associativity).

(** [try: body except pywikibot.exceptions.TimeoutError as exc: handler]. *)
Definition try_except_timeout {A} (body : py A) (handler : string -> py A)
  : py A :=
  fun w => match body w with
           | (Raise (TimeoutError msg), w') => handler msg w'
           | r => r
           end.

Definition emit (e : event) : py unit :=
  fun w => (Return tt, mkWorld (files w) (trace w ++ [e])).

Definition info (msg : string) : py unit := emit (EvLog (LogInfo msg)).
Definition warning (msg : string) : py unit := emit (EvLog (LogWarning msg)).
Definition error (msg : string) : py unit := emit (EvLog (LogError msg)).

(** [with path.open("w", encoding="utf-8") as f: f.write(content)], for a
    content that has a UTF-8 form; the codec raises [UnicodeEncodeError] on
    any other, which is not modelled. *)
Definition write_text (path content : string) : py unit :=
  fun w => (Return tt,
            mkWorld (<[path := content]> (files w))
                    (trace w ++ [EvWrite path content])).

(** [path.exists()] and the text of the file, in one step. *)
Definition read_text (path : string) : py (option string) :=
  fun w => (Return (files w !! path), w).

(** A [for] loop that threads its state through the rounds. *)
Fixpoint for_each {A S} (body : A -> S -> py S) (l : list A) (s : S) : py S :=
  match l with
  | [] => ret s
  | a :: l' => s' <- body a s ;; for_each body l' s'
  end.

(** ** update_module_data.py *)

Definition COLOR_ORDER : list string := ["c"; "w"; "u"; "b"; "r"; "g"; "m"].

(** What the stats stage reads of a [requests.Response]: the status code,
    the body text, and the [total_cards] member of the decoded body when the
    body has one.  The answers covered are those whose body, when the
    status is ok, is a JSON object whose [total_cards] is an integer or
    absent; on another body [response.json()] or [data.get] raises, which
    is not modelled. *)
Record Response : Type := mkResponse {
  status_code : Z;
  text : string;
  total_cards : option Z
}.

(** [Response.ok]: the status is no client or server error. *)
Definition ok (r : Response) : bool :=
  negb ((400 <=? status_code r) && (status_code r <? 600)).

(** The session as the stats stage sees it: the answer of the search
    endpoint to the value of the [q] parameter. *)
Definition Session : Type := string -> Response.

(** [scryfall_query].  Both branches send the same request, the first with
    the local cache switched off.  The [retry] decorator runs the call again
    when the session raises, which the answers modelled here never do. *)
Definition scryfall_query (session : Session) (query : string) : py Response :=
  info ("Querying Scryfall API with query: " +:+ query) ;;;
  if Str.contains "+" query then ret (session query) else ret (session query).

(** [data.get("total_cards", 0)]. *)
Definition total_cards_or_zero (r : Response) : Z :=
  match total_cards r with Some n => n | None => 0 end.

(** The body of the loop [for color in COLOR_ORDER] of
    [fetch_scryfall_stats], from the [stats] before to the [stats] after. *)
Definition fetch_color (session : Session) (query : string)
    (color : string) (stats : pydict Z) : py (pydict Z) :=
  let full_query := "(" +:+ query +:+ ") id=" +:+ color in
  let no_brackets := query +:+ " id=" +:+ color in
  response <- scryfall_query session full_query ;;
  if ok response then
    ret (Dict.set (Str.lower color) (total_cards_or_zero response) stats)
  else if status_code response =? 404 then
    ret (Dict.set (Str.lower color) 0 stats)
  else if (status_code response =? 400)
          && Str.contains "Display options" (text response) then
    info ("Retrying without brackets for query: " +:+ no_brackets) ;;;
    response <- scryfall_query session no_brackets ;;
    if ok response then
      ret (Dict.set (Str.lower color) (total_cards_or_zero response) stats)
    else if status_code response =? 404 then
      ret (Dict.set (Str.lower color) 0 stats)
    else
      ret stats
  else
    error ("Error fetching stats for query " +:+ full_query +:+ ": "
           +:+ Str.of_Z (status_code response) +:+ " " +:+ text response) ;;;
    ret (Dict.set (Str.lower color) 0 stats).

Definition fetch_scryfall_stats (session : Session) (query : string)
  : py (pydict Z) :=
  for_each (fetch_color session query) COLOR_ORDER [].

(** [{color: str(value) for color, value in stats.items()}]. *)
Definition stats_as_text (stats : pydict Z) : pydict string :=
  map (fun cv => (fst cv, Str.of_Z (snd cv))) stats.

(** [update_data_module]; the progress bar is left out. *)
Definition update_data_module (session : Session) (queries : list string)
  : py (pydict (pydict string)) :=
  for_each
    (fun query results =>
       stats <- fetch_scryfall_stats session query ;;
       ret (Dict.set query (stats_as_text stats) results))
    queries [].

(** [f"{color} = {stats.get(color, '0')}"]. *)
Definition color_chunk (stats : pydict string) (color : string) : string :=
  color +:+ " = "
  +:+ match Dict.get color stats with Some v => v | None => "0" end.

(** The three lines that [lua_from_mapping] appends for one item of [data]. *)
Definition lua_entry (item : string * pydict string) : list string :=
  [ "    ['" +:+ fst item +:+ "'] = {";
    "        " +:+ Str.join ", " (map (color_chunk (snd item)) COLOR_ORDER);
    "    }," ].

Definition lua_from_mapping (data : pydict (pydict string)) : string :=
  Str.join (String "010" "")
    (["-- Auto-generated data. Edit carefully."; "return {"]
       ++ concat (map lua_entry data) ++ ["}"; ""]).

(** ** The lexical structure of a Lua chunk

    A data module is loaded by Lua, whose scanner reads a chunk left to
    right: two hyphens open a comment that runs to the end of the line, a
    quote opens a short literal string that must be closed by the same quote
    before the line ends, a backslash inside it escapes the next character.
    [Lua.scan] follows the scanner through these states and fails where Lua
    reports an unfinished string.  Long brackets are not modelled. *)

Module Lua.

Inductive mode : Type :=
| Code                  (* outside comments and strings *)
| Hyphen                (* one hyphen read *)
| Comment
| Literal (q : ascii)   (* inside a string opened by [q] *)
| Escape (q : ascii).   (* after a backslash inside such a string *)

Definition is_newline (c : ascii) : bool :=
  (Ascii.eqb c "010" || Ascii.eqb c "013")%bool.

Definition is_quote (c : ascii) : bool :=
  (Ascii.eqb c "'" || Ascii.eqb c "034")%bool.

Definition code_step (c : ascii) : mode :=
  if is_quote c then Literal c
  else if Ascii.eqb c "-" then Hyphen
  else Code.

Definition step (m : mode) (c : ascii) : option mode :=
  match m with
  | Code => Some (code_step c)
  | Hyphen => if Ascii.eqb c "-" then Some Comment else Some (code_step c)
  | Comment => if is_newline c then Some Code else Some Comment
  | Literal q =>
      if Ascii.eqb c q then Some Code
      else if Ascii.eqb c "\" then Some (Escape q)
      else if is_newline c then None
      else Some (Literal q)
  | Escape q => Some (Literal q)
  end.

Fixpoint scan (m : mode) (src : string) : option mode :=
  match src with
  | EmptyString => Some m
  | String c src' =>
      match step m c with
      | Some m' => scan m' src'
      | None => None
      end
  end.

(** Every short literal string of the chunk is closed. *)
Definition strings_closed (src : string) : bool :=
  match scan Code src with
  | Some Code | Some Hyphen | Some Comment => true
  | _ => false
  end.

End Lua.

(** ** JSON values and Python's json module *)

Local Set Warnings "-register-all".

Inductive json : Type :=
| JNull
| JBool (b : bool)
| JInt (n : Z)
| JStr (s : string)
| JList (items : list json)
| JDict (members : list (string * json)).

Module Json.

Definition dquote : ascii := "034".
Definition backslash : ascii := "092".
Definition newline : ascii := "010".

(** *** [json.dumps(obj, indent=2, ensure_ascii=False)] *)

Definition hex_digit (n : N) : ascii :=
  if (n <? 10)%N then ascii_of_N (48 + n) else ascii_of_N (87 + n).

(** The replacement of one character inside a string literal: the quote, the
    backslash and the control characters are escaped, all else is kept. *)
Definition escape_char (c : ascii) : string :=
  let n := N_of_ascii c in
  if Ascii.eqb c dquote then String backslash (String dquote "")
  else if Ascii.eqb c backslash then String backslash (String backslash "")
  else if (n =? 10)%N then String backslash "n"
  else if (n =? 13)%N then String backslash "r"
  else if (n =? 9)%N then String backslash "t"
  else if (n =? 8)%N then String backslash "b"
  else if (n =? 12)%N then String backslash "f"
  else if (n <? 32)%N then
    String backslash
      (String "u" (String "0" (String "0"
         (String (hex_digit (n / 16)) (String (hex_digit (n mod 16)) "")))))
  else String c "".

Fixpoint escape (s : string) : string :=
  match s with
  | EmptyString => EmptyString
  | String c s' => escape_char c +:+ escape s'
  end.

Definition encode_basestring (s : string) : string :=
  String dquote (escape s +:+ String dquote "").

Fixpoint indent (level : nat) : string :=
  match level with
  | O => EmptyString
  | S l => String " " (String " " (indent l))
  end.

Definition newline_indent (level : nat) : string :=
  String newline (indent level).

(** The chunks of a non-empty container, joined by the item separator. *)
Fixpoint separated (sep : string) (chunks : list string) : string :=
  match chunks with
  | [] => EmptyString
  | [x] => x
  | x :: rest => x +:+ sep +:+ separated sep rest
  end.

Fixpoint encode (level : nat) (v : json) : string :=
  match v with
  | JNull => "null"
  | JBool true => "true"
  | JBool false => "false"
  | JInt n => Str.of_Z n
  | JStr s => encode_basestring s
  | JList [] => "[]"
  | JList items =>
      "[" +:+ newline_indent (S level)
      +:+ separated ("," +:+ newline_indent (S level))
            (map (encode (S level)) items)
      +:+ newline_indent level +:+ "]"
  | JDict [] => "{}"
  | JDict members =>
      "{" +:+ newline_indent (S level)
      +:+ separated ("," +:+ newline_indent (S level))
            (map (fun kv => encode_basestring (fst kv) +:+ ": "
                            +:+ encode (S level) (snd kv)) members)
      +:+ newline_indent level +:+ "}"
  end.

Definition dumps (v : json) : string := encode 0 v.

(** *** [json.loads] *)

Definition fail {A} : outcome A := Raise JSONDecodeError.

(** Numbers with a fraction or an exponent, [NaN] and the infinities decode
    to floating point values. *)
Definition float_literal {A} : outcome A := Raise (NotModelled "float").

Definition is_ws (c : ascii) : bool :=
  (Ascii.eqb c " " || Ascii.eqb c "009" || Ascii.eqb c "010"
   || Ascii.eqb c "013")%bool.

Fixpoint skip_ws (s : string) : string :=
  match s with
  | EmptyString => EmptyString
  | String c s' => if is_ws c then skip_ws s' else s
  end.

Definition hex_value (c : ascii) : option N :=
  let n := N_of_ascii c in
  if ((48 <=? n) && (n <=? 57))%N then Some (n - 48)%N
  else if ((97 <=? n) && (n <=? 102))%N then Some (n - 87)%N
  else if ((65 <=? n) && (n <=? 70))%N then Some (n - 55)%N
  else None.

Definition hex4 (a b c d : ascii) : option N :=
  match hex_value a, hex_value b, hex_value c, hex_value d with
  | Some x, Some y, Some z, Some t => Some (((x * 16 + y) * 16 + z) * 16 + t)%N
  | _, _, _, _ => None
  end.

(** [chr(cp)], as UTF-8 bytes; a lone surrogate takes the three byte form. *)
Definition utf8 (cp : N) : string :=
  let byte (n : N) := ascii_of_N n in
  (if cp <? 128 then String (byte cp) ""
   else if cp <? 2048 then
     String (byte (192 + cp / 64)) (String (byte (128 + cp mod 64)) "")
   else if cp <? 65536 then
     String (byte (224 + cp / 4096))
       (String (byte (128 + (cp / 64) mod 64))
          (String (byte (128 + cp mod 64)) ""))
   else
     String (byte (240 + cp / 262144))
       (String (byte (128 + (cp / 4096) mod 64))
          (String (byte (128 + (cp / 64) mod 64))
             (String (byte (128 + cp mod 64)) ""))))%N.

Definition unescape (e : ascii) : option ascii :=
  if Ascii.eqb e dquote then Some dquote
  else if Ascii.eqb e backslash then Some backslash
  else if Ascii.eqb e "/" then Some "/"%char
  else if Ascii.eqb e "b" then Some "008"%char
  else if Ascii.eqb e "f" then Some "012"%char
  else if Ascii.eqb e "n" then Some "010"%char
  else if Ascii.eqb e "r" then Some "013"%char
  else if Ascii.eqb e "t" then Some "009"%char
  else None.

Definition prepend (chunk : string) (r : outcome (string * string))
  : outcome (string * string) :=
  match r with
  | Return (content, rest) => Return (chunk +:+ content, rest)
  | Raise e => Raise e
  end.

Definition is_high_surrogate (u : N) : bool := ((55296 <=? u) && (u <=? 56319))%N.
Definition is_low_surrogate (u : N) : bool := ((56320 <=? u) && (u <=? 57343))%N.

(** [scanstring], from just after the opening quote: the content of the
    literal and the text after its closing quote. *)
Fixpoint scanstring (s : string) : outcome (string * string) :=
  match s with
  | EmptyString => fail
  | String c s1 =>
      if Ascii.eqb c dquote then Return (EmptyString, s1)
      else if Ascii.eqb c backslash then
        match s1 with
        | EmptyString => fail
        | String e s2 =>
            if Ascii.eqb e "u" then
              match s2 with
              | String h1 (String h2 (String h3 (String h4 s3))) =>
                  match hex4 h1 h2 h3 h4 with
                  | None => fail
                  | Some uni =>
                      match s3 with
                      | String b (String u s4) =>
                          if (is_high_surrogate uni && Ascii.eqb b backslash
                              && Ascii.eqb u "u")%bool then
                            match s4 with
                            | String g1 (String g2 (String g3 (String g4 s5))) =>
                                match hex4 g1 g2 g3 g4 with
                                | None => fail
                                | Some uni2 =>
                                    if is_low_surrogate uni2 then
                                      prepend
                                        (utf8 (65536 + (uni - 55296) * 1024
                                               + (uni2 - 56320))%N)
                                        (scanstring s5)
                                    else prepend (utf8 uni) (scanstring s3)
                                end
                            | _ => fail
                            end
                          else prepend (utf8 uni) (scanstring s3)
                      | _ => prepend (utf8 uni) (scanstring s3)
                      end
                  end
              | _ => fail
              end
            else
              match unescape e with
              | Some ch => prepend (String ch "") (scanstring s2)
              | None => fail
              end
        end
      else if (N_of_ascii c <? 32)%N then fail
      else prepend (String c "") (scanstring s1)
  end.

Definition digit_of (c : ascii) : option (Decimal.uint -> Decimal.uint) :=
  if Ascii.eqb c "0" then Some Decimal.D0
  else if Ascii.eqb c "1" then Some Decimal.D1
  else if Ascii.eqb c "2" then Some Decimal.D2
  else if Ascii.eqb c "3" then Some Decimal.D3
  else if Ascii.eqb c "4" then Some Decimal.D4
  else if Ascii.eqb c "5" then Some Decimal.D5
  else if Ascii.eqb c "6" then Some Decimal.D6
  else if Ascii.eqb c "7" then Some Decimal.D7
  else if Ascii.eqb c "8" then Some Decimal.D8
  else if Ascii.eqb c "9" then Some Decimal.D9
  else None.

Definition is_digit (c : ascii) : bool :=
  match digit_of c with Some _ => true | None => false end.

(** The longest run of digits that starts the text, and what follows. *)
Fixpoint scan_digits (s : string) : Decimal.uint * string :=
  match s with
  | EmptyString => (Decimal.Nil, EmptyString)
  | String c s' =>
      match digit_of c with
      | Some d => let '(u, rest) := scan_digits s' in (d u, rest)
      | None => (Decimal.Nil, s)
      end
  end.

(** The integer part of the number pattern: a zero, or a run of digits that
    starts with another digit. *)
Definition scan_natural (s : string) : option (Decimal.uint * string) :=
  match s with
  | EmptyString => None
  | String c s' =>
      if Ascii.eqb c "0" then Some (Decimal.D0 Decimal.Nil, s')
      else if is_digit c then Some (scan_digits s)
      else None
  end.

(** A fraction or an exponent follows the integer part. *)
Definition continues_as_float (rest : string) : bool :=
  match rest with
  | String c (String d rest') =>
      if Ascii.eqb c "." then is_digit d
      else if (Ascii.eqb c "e" || Ascii.eqb c "E")%bool then
        if is_digit d then true
        else if (Ascii.eqb d "+" || Ascii.eqb d "-")%bool then
          match rest' with String d' _ => is_digit d' | EmptyString => false end
        else false
      else false
  | _ => false
  end.

Definition scan_number (s : string) : option (outcome (json * string)) :=
  let '(negative, digits) :=
    match s with
    | String c s' => if Ascii.eqb c "-" then (true, s') else (false, s)
    | EmptyString => (false, s)
    end in
  match scan_natural digits with
  | None => None
  | Some (u, rest) =>
      if continues_as_float rest then Some float_literal
      else Some (Return (JInt (Z.of_int (if negative then Decimal.Neg u
                                         else Decimal.Pos u)), rest))
  end.

(** The text after the prefix [p], when the text starts with [p]. *)
Fixpoint drop_prefix (p s : string) : option string :=
  match p with
  | EmptyString => Some s
  | String a p' =>
      match s with
      | String b s' => if Ascii.eqb a b then drop_prefix p' s' else None
      | EmptyString => None
      end
  end.

(** A value that is no string, object or array: one of the three names, or
    a number. *)
Definition scan_literal (s : string) : outcome (json * string) :=
  match drop_prefix "null" s, drop_prefix "true" s, drop_prefix "false" s with
  | Some rest, _, _ => Return (JNull, rest)
  | _, Some rest, _ => Return (JBool true, rest)
  | _, _, Some rest => Return (JBool false, rest)
  | None, None, None =>
      match scan_number s with
      | Some r => r
      | None =>
          if (String.prefix "NaN" s || String.prefix "Infinity" s
              || String.prefix "-Infinity" s)%bool
          then float_literal else fail
      end
  end.

(** The scanner.  [fuel] bounds the calls still allowed; a text of [n]
    characters needs fewer than [n + 1]. *)
Fixpoint scan_once (fuel : nat) (s : string) : outcome (json * string) :=
  match fuel with
  | O => fail
  | S fuel' =>
      match s with
      | EmptyString => fail
      | String c s' =>
          if Ascii.eqb c dquote then
            match scanstring s' with
            | Return (content, rest) => Return (JStr content, rest)
            | Raise e => Raise e
            end
          else if Ascii.eqb c "{" then
            match skip_ws s' with
            | String c1 s1 =>
                if Ascii.eqb c1 "}" then Return (JDict [], s1)
                else if Ascii.eqb c1 dquote then scan_members fuel' s1 []
                else fail
            | EmptyString => fail
            end
          else if Ascii.eqb c "[" then
            match skip_ws s' with
            | String c1 s1 =>
                if Ascii.eqb c1 "]" then Return (JList [], s1)
                else scan_items fuel' (String c1 s1) []
            | EmptyString => fail
            end
          else scan_literal s
      end
  end

(** The items of an array, from the start of an item; [acc] holds the items
    read so far, last first. *)
with scan_items (fuel : nat) (s : string) (acc : list json)
  : outcome (json * string) :=
  match fuel with
  | O => fail
  | S fuel' =>
      match scan_once fuel' s with
      | Raise e => Raise e
      | Return (v, rest) =>
          match skip_ws rest with
          | String c r1 =>
              if Ascii.eqb c "]" then Return (JList (rev (v :: acc)), r1)
              else if Ascii.eqb c "," then scan_items fuel' (skip_ws r1) (v :: acc)
              else fail
          | EmptyString => fail
          end
      end
  end

(** The members of an object, from just after the opening quote of a key. *)
with scan_members (fuel : nat) (s : string) (acc : list (string * json))
  : outcome (json * string) :=
  match fuel with
  | O => fail
  | S fuel' =>
      match scanstring s with
      | Raise e => Raise e
      | Return (key, rest) =>
          match skip_ws rest with
          | String c r1 =>
              if Ascii.eqb c ":" then
                match scan_once fuel' (skip_ws r1) with
                | Raise e => Raise e
                | Return (v, rest') =>
                    match skip_ws rest' with
                    | String c2 r2 =>
                        if Ascii.eqb c2 "}" then
                          Return (JDict (Dict.of_pairs (rev ((key, v) :: acc))), r2)
                        else if Ascii.eqb c2 "," then
                          match skip_ws r2 with
                          | String c3 r3 =>
                              if Ascii.eqb c3 dquote
                              then scan_members fuel' r3 ((key, v) :: acc)
                              else fail
                          | EmptyString => fail
                          end
                        else fail
                    | EmptyString => fail
                    end
                end
              else fail
          | EmptyString => fail
          end
      end
  end.

(** [json.loads(s)]: one value, with white space around it and nothing
    else.  The text is given as its UTF-8 bytes; the limits of the
    interpreter on nesting and on the digits of a number are not part of
    this function, see [load]. *)
Definition loads (s : string) : outcome json :=
  match scan_once (S (String.length s)) (skip_ws s) with
  | Raise e => Raise e
  | Return (v, rest) =>
      match skip_ws rest with
      | EmptyString => Return v
      | String _ _ => fail
      end
  end.

(** *** [json.load] on a file opened with [encoding="utf-8"] *)

(** The bytes that may follow in the UTF-8 form of a character once its
    first byte is read, as ranges: the codec takes the shortest form of a
    code point only, no surrogate and nothing above U+10FFFF. *)
Definition utf8_expected (c : ascii) : option (list (N * N)) :=
  let n := N_of_ascii c in
  (if n <? 128 then Some []
   else if n <? 194 then None
   else if n <? 224 then Some [(128, 191)]
   else if n =? 224 then Some [(160, 191); (128, 191)]
   else if n =? 237 then Some [(128, 159); (128, 191)]
   else if n <? 240 then Some [(128, 191); (128, 191)]
   else if n =? 240 then Some [(144, 191); (128, 191); (128, 191)]
   else if n <? 244 then Some [(128, 191); (128, 191); (128, 191)]
   else if n =? 244 then Some [(128, 143); (128, 191); (128, 191)]
   else None)%N.

Definition utf8_step (expected : list (N * N)) (c : ascii)
  : option (list (N * N)) :=
  match expected with
  | [] => utf8_expected c
  | (lo, hi) :: rest =>
      if ((lo <=? N_of_ascii c) && (N_of_ascii c <=? hi))%N then Some rest
      else None
  end.

Fixpoint utf8_run (expected : list (N * N)) (bytes : string)
  : option (list (N * N)) :=
  match bytes with
  | EmptyString => Some expected
  | String c bytes' =>
      match utf8_step expected c with
      | Some expected' => utf8_run expected' bytes'
      | None => None
      end
  end.

(** The bytes are the UTF-8 form of a text: [f.read()] decodes them. *)
Definition utf8_valid (bytes : string) : bool :=
  match utf8_run [] bytes with
  | Some [] => true
  | _ => false
  end.

(** An integer that [int] and [str] convert: it has at most 4300 digits. *)
Definition small_int (n : Z) : bool := Z.abs n <? 10 ^ 4300.

(** The nesting that the scanner reaches before the recursion limit of the
    interpreter stops it, whatever the call stack at the time. *)
Definition covered_nesting : nat := 100.

(** The decoded value is one that the model stands for: its texts have a
    UTF-8 form (an escape of half a surrogate pair decodes to a text that
    has none), its integers have at most 4300 digits and its containers
    are nested at most [depth] deep. *)
Fixpoint within (depth : nat) (v : json) {struct v} : bool :=
  match v with
  | JNull | JBool _ => true
  | JInt n => small_int n
  | JStr s => utf8_valid s
  | JList items =>
      match depth with
      | O => false
      | S depth' => forallb (within depth') items
      end
  | JDict members =>
      match depth with
      | O => false
      | S depth' =>
          forallb (fun kv => (utf8_valid (fst kv) && within depth' (snd kv))%bool)
                  members
      end
  end.

(** The longest run of digits of the text, [run] digits being read. *)
Fixpoint digit_run (run : nat) (s : string) : nat :=
  match s with
  | EmptyString => run
  | String c s' =>
      if is_digit c then digit_run (S run) s'
      else Nat.max run (digit_run 0 s')
  end.

(** Where the reading is: outside a string, inside one, or after a
    backslash inside one. *)
Inductive place : Type := Outside | Inside | Escaped.

(** The deepest nesting of brackets outside strings that the text reaches
    when it is read from left to right, [depth] brackets being open. *)
Fixpoint nesting (reading : place) (depth : nat) (s : string) : nat :=
  match s with
  | EmptyString => depth
  | String c s' =>
      match reading with
      | Outside =>
          if Ascii.eqb c dquote then nesting Inside depth s'
          else if (Ascii.eqb c "[" || Ascii.eqb c "{")%bool
               then Nat.max depth (nesting Outside (S depth) s')
          else if (Ascii.eqb c "]" || Ascii.eqb c "}")%bool
               then Nat.max depth (nesting Outside (Nat.pred depth) s')
          else nesting Outside depth s'
      | Inside =>
          if Ascii.eqb c dquote then nesting Outside depth s'
          else if Ascii.eqb c backslash then nesting Escaped depth s'
          else nesting Inside depth s'
      | Escaped => nesting Inside depth s'
      end
  end.

(** The scanner meets no limit of the interpreter on the text, wherever it
    stops: no number has more than 4300 digits and the brackets are never
    nested beyond what is covered. *)
Definition unlimited (text : string) : bool :=
  ((digit_run 0 text <=? 4300)%nat
   && (nesting Outside 0 text <=? covered_nesting)%nat)%bool.

(** [json.load(f)]: the file is read and decoded, which raises
    [UnicodeDecodeError] on bytes that are no UTF-8, and the text goes to
    [json.loads].  Where the scanner would meet the digit limit of [int]
    or the recursion limit, and where the value holds half a surrogate
    pair, the run leaves the model. *)
Definition load (bytes : string) : outcome json :=
  if utf8_valid bytes then
    match loads bytes with
    | Return v =>
        if within covered_nesting v then Return v
        else Raise (NotModelled "a value beyond the limits of the loader")
    | Raise e =>
        if unlimited bytes then Raise e
        else Raise (NotModelled "a text beyond the limits of the loader")
    end
  else Raise (OtherError "UnicodeDecodeError").

(** Every object of the value has pairwise distinct keys, as every Python
    dictionary has. *)
Fixpoint wfb (v : json) : bool :=
  match v with
  | JList items => forallb wfb items
  | JDict members =>
      (bool_decide (NoDup (map fst members))
       && forallb (fun kv => wfb (snd kv)) members)%bool
  | _ => true
  end.

Definition wf (v : json) : Prop := wfb v = true.

(** The text that follows a value in what the encoder writes does not go on
    like a number: it is empty or starts with a character that is no digit,
    no point and no exponent mark. *)
Definition delimited (rest : string) : bool :=
  match rest with
  | EmptyString => true
  | String c _ =>
      negb (is_digit c || Ascii.eqb c "." || Ascii.eqb c "e"
            || Ascii.eqb c "E")
  end.

(** A character that can start a value: no white space, no closing
    bracket. *)
Definition opens_value (c : ascii) : bool :=
  (negb (is_ws c) && negb (Ascii.eqb c "]"))%bool.

(** The text of one member of an object. *)
Definition member_text (level : nat) (kv : string * json) : string :=
  encode_basestring (fst kv) +:+ ": " +:+ encode level (snd kv).

(** The calls of the scanner that a value needs. *)
Fixpoint size (v : json) : nat :=
  match v with
  | JList items => S (fold_right (fun x n => S (size x + n)) O items)
  | JDict members =>
      S (fold_right (fun kv n => S (size (snd kv) + n)) O members)
  | _ => 1
  end.

(** The scanner reads the value back from its text, whatever the level of
    indentation, the delimited text that follows and the fuel beyond the
    size of the value. *)
Definition reads_back (v : json) : Prop :=
  forall (level : nat) (rest : string) (fuel : nat),
    delimited rest = true ->
    (size v < fuel)%nat ->
    scan_once fuel (encode level v +:+ rest) = Return (v, rest).

End Json.

(** ** Decoded values under Python's dynamic operations *)

Module Py.

(** [bool(v)]. *)
Definition truthy (v : json) : bool :=
  match v with
  | JNull => false
  | JBool b => b
  | JInt n => negb (n =? 0)
  | JStr s => negb (String.eqb s "")
  | JList items => negb (Nat.eqb (length items) 0)
  | JDict members => negb (Nat.eqb (length members) 0)
  end.

(** [v.get(k)]: only a dictionary has the method. *)
Definition get (v : json) (k : string) : py json :=
  match v with
  | JDict members => ret (default JNull (Dict.get k members))
  | _ => raise AttributeError
  end.

(** [v == n] for an integer [n]; [True] and [False] compare as 1 and 0. *)
Definition eq_int (v : json) (n : Z) : bool :=
  match v with
  | JInt m => m =? n
  | JBool b => (if b then 1 else 0) =? n
  | _ => false
  end.

Definition as_str (v : json) : option string :=
  match v with JStr s => Some s | _ => None end.

(** What [for search in v] yields for a decoded value, where every element
    is then used as a key of the registry: the elements of a list, the
    characters of a string, the keys of an object.  A number, a boolean and
    [None] cannot be iterated, and a list or an object cannot be a key:
    both make Python raise [TypeError].  A list whose elements are numbers,
    booleans or [None] beside strings gives the registry keys that are no
    strings, which the model does not follow. *)
Definition iterate (v : json) : outcome (list string) :=
  match v with
  | JList items =>
      if existsb (fun item => match item with
                              | JList _ | JDict _ => true
                              | _ => false
                              end) items
      then Raise TypeError
      else match mapM as_str items with
           | Some l => Return l
           | None => Raise (NotModelled "a registry key that is no string")
           end
  | JStr s => Return (Str.code_points s)
  | JDict members => Return (Dict.keys members)
  | JNull | JBool _ | JInt _ => Raise TypeError
  end.

Definition iter_strs (v : json) : py (list string) :=
  match iterate v with
  | Return l => ret l
  | Raise e => raise e
  end.

(** [sorted(xs)] on strings. *)
Definition sorted (xs : list string) : list string := merge_sort String.le xs.

(** [enumerate(xs)]. *)
Definition enumerate {A} (xs : list A) : list (nat * A) :=
  combine (seq 0 (length xs)) xs.

End Py.

(** ** setstatsrendered.py *)

Definition TEMPLATES_TO_CHECK : list string :=
  ["Template:Scryfall stats"; "Template:Scryfall count"].

(** A rendered page as the extractor reads it through BeautifulSoup: the
    [href] of every [a] element that has one, in document order. *)
Definition html : Type := list string.

(** A page handle of the wiki client. *)
Record Page : Type := mkPage {
  title : string;                    (* page.title() *)
  latest_revision_id : Z;            (* page.latest_revision_id *)
  latest_revision : option string;   (* the ISO timestamp of
                                        page.latest_revision, when there is
                                        such a revision *)
  parsed_page : exn + html           (* what page.get_parsed_page() raises
                                        or returns *)
}.

Definition get_parsed_page (page : Page) : py html :=
  emit (EvFetch (title page)) ;;;
  match parsed_page page with
  | inl e => raise e
  | inr doc => ret doc
  end.

(** The mutable locals of [main]. *)
Record crawl_state : Type := mkState {
  seen_pages : gset string;
  queries : pydict (list string);
  revision_cache : pydict json
}.

Section setstatsrendered.

(** The library functions the module calls. *)
Variable urlparse_query : string -> option string.
                                  (* urlparse(url).query, [None] where
                                     urlparse raises ValueError *)
Variable parse_qs : string -> pydict (string * list string).
                                  (* parse_qs(qs): under each name its first
                                     value and the later ones *)
Variable with_suffix : string -> string -> string.   (* Path.with_suffix *)
Variable json_load : string -> outcome json.   (* json.load on the text *)

(** The body of the loop over the links of [process_page]. *)
Definition process_link (url : string) (page_queries : gset string)
  : py (gset string) :=
  if Str.contains "scryfall.com/search?q=" url then
    match urlparse_query url with
    | None => raise (OtherError "ValueError")
    | Some query =>
        let query_params := parse_qs query in
        match Dict.get "q" query_params with
        | Some (search, _) =>
            if Dict.mem "utm_source" query_params then ret page_queries
            else if negb (Str.contains ":" search) then
              info ("  Skipping non-colon search link: " +:+ search) ;;;
              ret page_queries
            else
              info ("  Found Scryfall query: " +:+ search) ;;;
              ret ({[search]} ∪ page_queries)
        | None => ret page_queries
        end
    end
  else ret page_queries.

(** [process_page]; its [site] argument is not used. *)
Definition process_page (page : Page) : py (list string) :=
  let page_title := Str.strip (title page) in
  info ("Processing page: " +:+ page_title) ;;;
  parsed_page <- get_parsed_page page ;;
  page_queries <- for_each process_link parsed_page ∅ ;;
  ret (Py.sorted (elements page_queries)).

(** [queries.setdefault(search, []).append(page_title)] for every search. *)
Definition register_page_queries (page_title : string)
    (page_queries : list string) (queries : pydict (list string))
  : pydict (list string) :=
  fold_left
    (fun queries search =>
       Dict.set search (default [] (Dict.get search queries) ++ [page_title])
                queries)
    page_queries queries.

Definition dump_queries_to_file (queries : pydict (list string))
    (output_file : string) : py unit :=
  let sorted_queries := Py.sorted (Dict.keys queries) in
  write_text output_file (Json.dumps (JList (map JStr sorted_queries))) ;;;
  info ("Dumped " +:+ Str.of_nat (length sorted_queries) +:+ " queries to "
        +:+ output_file) ;;;
  write_text (with_suffix output_file ".map")
    (Json.dumps (JDict (map (fun kv => (fst kv, JList (map JStr (snd kv))))
                            queries))).

Definition load_revision_cache (path : string) : py (pydict json) :=
  content <- read_text path ;;
  match content with
  | None => ret []
  | Some content =>
      match json_load content with
      | Return (JDict data) => ret data
      | Return _ => ret []
      | Raise JSONDecodeError =>
          warning ("Failed to parse revision cache at " +:+ path
                   +:+ "; rebuilding") ;;;
          ret []
      | Raise e => raise e
      end
  end.

Definition dump_revision_cache (cache : pydict json) (path : string)
  : py unit :=
  write_text path (Json.dumps (JDict cache)).

Definition current_revision_record (page : Page) (rev_id : option Z)
    (page_queries : option (list string)) : json :=
  let timestamp :=
    match latest_revision page with
    | Some iso => JStr iso
    | None => JNull
    end in
  let rev_id :=
    match rev_id with
    | Some r => r
    | None => latest_revision_id page
    end in
  let record := [("rev_id", JInt rev_id); ("timestamp", timestamp)] in
  match page_queries with
  | Some qs => JDict (Dict.set "queries" (JList (map JStr qs)) record)
  | None => JDict record
  end.

(** The part of the loop body that consults the cache: [Some] holds the
    registry after the cached queries were registered (the loop goes on to
    the next page), [None] says that the page has to be processed. *)
Definition consult_cache (page_title : string) (latest_rev_id : Z)
    (st : crawl_state) : py (option (pydict (list string))) :=
  let cached_revision :=
    default JNull (Dict.get page_title (revision_cache st)) in
  same_revision <-
    (if Py.truthy cached_revision then
       rev_id <- Py.get cached_revision "rev_id" ;;
       ret (Py.eq_int rev_id latest_rev_id)
     else ret false) ;;
  if same_revision : bool then
    cached_queries <- Py.get cached_revision "queries" ;;
    match cached_queries with
    | JNull =>
        info ("  Cache missing queries for " +:+ page_title
              +:+ "; reprocessing") ;;;
        ret None
    | _ =>
        info ("  Skipping unchanged page: " +:+ page_title +:+ " (rev "
              +:+ Str.of_Z latest_rev_id +:+ ")") ;;;
        cached <- Py.iter_strs cached_queries ;;
        ret (Some (register_page_queries page_title cached (queries st)))
    end
  else ret None.

(** The [try] block of the loop body. *)
Definition extract_and_record (output_file revision_cache_path : string)
    (idx : nat) (page : Page) (st : crawl_state) : py crawl_state :=
  let page_title := title page in
  page_queries <- process_page page ;;
  let queries' := register_page_queries page_title page_queries (queries st) in
  let revision_cache' :=
    Dict.set page_title
      (current_revision_record page (Some (latest_revision_id page))
                               (Some page_queries))
      (revision_cache st) in
  (if ((idx + 1) mod 100 =? 0)%nat then
     info ("Processed " +:+ Str.of_nat (idx + 1) +:+ " pages...") ;;;
     info ("  Current queries: " +:+ Str.of_nat (length queries')) ;;;
     dump_queries_to_file queries' output_file ;;;
     dump_revision_cache revision_cache' revision_cache_path
   else ret tt) ;;;
  ret (mkState (seen_pages st) queries' revision_cache').

(** The [except] block of the loop body: the error is logged and the loop
    goes on to the next page with the state it had before the [try]. *)
Definition skip_after_timeout (page_title : string) (st : crawl_state)
    (exc : string) : py crawl_state :=
  error ("  TimeoutError processing " +:+ page_title +:+ ": " +:+ exc) ;;;
  ret st.

(** The state once the page is put into [seen_pages]. *)
Definition mark_seen (page_title : string) (st : crawl_state) : crawl_state :=
  mkState ({[page_title]} ∪ seen_pages st) (queries st) (revision_cache st).

(** One round of [for idx, page in enumerate(scryfall_generator)]. *)
Definition visit (output_file revision_cache_path : string)
    (item : nat * Page) (st : crawl_state) : py crawl_state :=
  let '(idx, page) := item in
  let page_title := title page in
  if bool_decide (page_title ∈ seen_pages st) then ret st
  else
    let st := mark_seen page_title st in
    cached <- consult_cache page_title (latest_revision_id page) st ;;
    match cached with
    | Some queries' =>
        ret (mkState (seen_pages st) queries' (revision_cache st))
    | None =>
        try_except_timeout
          (extract_and_record output_file revision_cache_path idx page st)
          (skip_after_timeout page_title st)
    end.

(** One round of [for template_title in TEMPLATES_TO_CHECK]; [site] lists
    the pages that transclude a template, in the order the generator yields
    them. *)
Definition crawl_template (site : string -> list Page)
    (output_file revision_cache_path : string)
    (template_title : string) (st : crawl_state) : py crawl_state :=
  info ("Processing template: " +:+ template_title) ;;;
  for_each (visit output_file revision_cache_path)
           (Py.enumerate (site template_title)) st.

(** [main], from the loading of the revision cache on. *)
Definition main (site : string -> list Page)
    (output_file revision_cache_path : string) : py unit :=
  loaded <- load_revision_cache revision_cache_path ;;
  st <- for_each (crawl_template site output_file revision_cache_path)
                 TEMPLATES_TO_CHECK (mkState ∅ [] loaded) ;;
  dump_queries_to_file (queries st) output_file ;;;
  dump_revision_cache (revision_cache st) revision_cache_path.

End setstatsrendered.

(** ** The library functions on plain inputs

    Reference versions of the functions that the crawl stage takes from
    [urllib.parse] and [pathlib].  They follow the libraries on ASCII input:
    URLs whose escapes decode to ASCII, paths with [/] as separator.  The
    theorems about the crawl stage hold for any functions in their place;
    these serve to run it on examples. *)

Module Lib.

Fixpoint before (c : ascii) (s : string) : string :=
  match s with
  | EmptyString => EmptyString
  | String a s' => if Ascii.eqb a c then EmptyString else String a (before c s')
  end.

Fixpoint after (c : ascii) (s : string) : option string :=
  match s with
  | EmptyString => None
  | String a s' => if Ascii.eqb a c then Some s' else after c s'
  end.

(** [s.split(c)]. *)
Fixpoint split (c : ascii) (s : string) : list string :=
  match s with
  | EmptyString => [EmptyString]
  | String a s' =>
      if Ascii.eqb a c then EmptyString :: split c s'
      else match split c s' with
           | piece :: pieces => String a piece :: pieces
           | [] => [String a EmptyString]
           end
  end.

Fixpoint remove_tab_newline (s : string) : string :=
  match s with
  | EmptyString => EmptyString
  | String a s' =>
      if (Ascii.eqb a "009" || Ascii.eqb a "010" || Ascii.eqb a "013")%bool
      then remove_tab_newline s' else String a (remove_tab_newline s')
  end.

Definition is_letter (c : ascii) : bool :=
  let n := nat_of_ascii c in
  (((97 <=? n)%nat && (n <=? 122)%nat)
   || ((65 <=? n)%nat && (n <=? 90)%nat))%bool.

Definition is_scheme_char (c : ascii) : bool :=
  let n := nat_of_ascii c in
  (is_letter c || ((48 <=? n)%nat && (n <=? 57)%nat)
   || Ascii.eqb c "+" || Ascii.eqb c "-" || Ascii.eqb c ".")%bool.

Fixpoint all_scheme_chars (s : string) : bool :=
  match s with
  | EmptyString => true
  | String c s' => (is_scheme_char c && all_scheme_chars s')%bool
  end.

(** The URL without its scheme: what follows the first colon, when a
    letter and then letters, digits, [+], [-] and [.] come before it. *)
Definition without_scheme (url : string) : string :=
  match after ":" url, before ":" url with
  | Some rest, String c scheme =>
      if (is_letter c && all_scheme_chars scheme)%bool then rest else url
  | _, _ => url
  end.

(** The network location: what follows two slashes, up to the next slash,
    question mark or hash. *)
Fixpoint netloc_of (s : string) : string :=
  match s with
  | EmptyString => EmptyString
  | String c s' =>
      if (Ascii.eqb c "/" || Ascii.eqb c "?" || Ascii.eqb c "#")%bool
      then EmptyString else String c (netloc_of s')
  end.

Definition netloc (url : string) : string :=
  match without_scheme url with
  | String "/" (String "/" rest) => netloc_of rest
  | _ => EmptyString
  end.

(** [urlparse(url).query]: what follows the first question mark of the part
    before the fragment.  A network location with one square bracket and
    not the other makes [urlparse] raise [ValueError]. *)
Definition urlparse_query (url : string) : option string :=
  let url := remove_tab_newline url in
  if xorb (Str.contains "[" (netloc url)) (Str.contains "]" (netloc url))
  then None
  else Some (default EmptyString (after "?" (before "#" url))).

(** [unquote] after [+] was replaced by a space. *)
Fixpoint unquote_plus (s : string) : string :=
  match s with
  | EmptyString => EmptyString
  | String a s' =>
      if Ascii.eqb a "+" then String " " (unquote_plus s')
      else if Ascii.eqb a "%" then
        match s' with
        | String h1 (String h2 s'') =>
            match Json.hex_value h1, Json.hex_value h2 with
            | Some x, Some y =>
                String (ascii_of_N (x * 16 + y)) (unquote_plus s'')
            | _, _ => String a (unquote_plus s')
            end
        | _ => String a (unquote_plus s')
        end
      else String a (unquote_plus s')
  end.

(** [parse_qsl(qs)]: fields without [=] and fields with a blank value are
    dropped. *)
Definition parse_qsl (qs : string) : list (string * string) :=
  omap (fun name_value =>
          match after "=" name_value with
          | Some (String c v) =>
              Some (unquote_plus (before "=" name_value),
                    unquote_plus (String c v))
          | _ => None
          end)
       (split "&" qs).

Definition parse_qs (qs : string) : pydict (string * list string) :=
  fold_left
    (fun parsed_result nv =>
       match Dict.get (fst nv) parsed_result with
       | Some (first, later) =>
           Dict.set (fst nv) (first, later ++ [snd nv]) parsed_result
       | None => Dict.set (fst nv) (snd nv, []) parsed_result
       end)
    (parse_qsl qs) [].

(** The last component of a path. *)
Fixpoint basename (path : string) : string :=
  match path with
  | EmptyString => EmptyString
  | String a p' =>
      if Str.contains "/" p' then basename p'
      else if Ascii.eqb a "/" then p' else path
  end.

(** The name without its last suffix: the text before the last dot, unless
    that dot starts or ends the name. *)
Fixpoint stem (name : string) : string :=
  match name with
  | EmptyString => EmptyString
  | String a n' =>
      if Str.contains "." n' then String a (stem n')
      else if (Ascii.eqb a "." && negb (String.eqb n' ""))%bool
      then EmptyString else name
  end.

(** [path.with_suffix(suffix)]. *)
Definition with_suffix (path suffix : string) : string :=
  let name := basename path in
  let kept :=
    match name with
    | EmptyString => name
    | String a n' => String a (stem n')
    end in
  String.substring 0 (String.length path - String.length name) path
  +:+ kept +:+ suffix.

End Lib.

(** ** What the stats stage records *)

(** The request without brackets was sent for the colour and was answered
    by a status that is neither ok nor 404. *)
Definition fallback_failed (session : Session) (query color : string) : bool :=
  let first := session ("(" +:+ query +:+ ") id=" +:+ color) in
  let second := session (query +:+ " id=" +:+ color) in
  (negb (ok first) && negb (status_code first =? 404)
   && (status_code first =? 400)
   && Str.contains "Display options" (text first)
   && negb (ok second) && negb (status_code second =? 404))%bool.

(** The count stored for the colour when one is stored. *)
Definition recorded_count (session : Session) (query color : string) : Z :=
  let first := session ("(" +:+ query +:+ ") id=" +:+ color) in
  let second := session (query +:+ " id=" +:+ color) in
  if ok first then total_cards_or_zero first
  else if status_code first =? 404 then 0
  else if ((status_code first =? 400)
           && Str.contains "Display options" (text first))%bool
       then (if ok second then total_cards_or_zero second else 0)
       else 0.

(** ** What a run leaves behind *)

(** The events that a computation started in [w] and ended in [w'] added. *)
Definition new_events (w w' : world) : list event :=
  drop (length (trace w)) (trace w').

Definition is_write (e : event) : bool :=
  match e with EvWrite _ _ => true | _ => false end.

(** The files written, in order. *)
Definition writes (evs : list event) : list event := filter is_write evs.

(** The texts written to one path, in order. *)
Definition written_to (path : string) (evs : list event) : list string :=
  omap (fun e => match e with
                 | EvWrite p content =>
                     if String.eqb p path then Some content else None
                 | _ => None
                 end) evs.

(** The rendered content of the page was requested. *)
Definition fetched (page_title : string) (evs : list event) : bool :=
  existsb (fun e => match e with
                    | EvFetch t => String.eqb t page_title
                    | _ => false
                    end) evs.

(** The number of content requests between two writes of [path], at most. *)
Fixpoint longest_unflushed (path : string) (evs : list event) (pending : nat)
  : nat :=
  match evs with
  | [] => pending
  | EvFetch _ :: evs' => longest_unflushed path evs' (S pending)
  | EvWrite p _ :: evs' =>
      if String.eqb p path then Nat.max pending (longest_unflushed path evs' 0)
      else longest_unflushed path evs' pending
  | EvLog _ :: evs' => longest_unflushed path evs' pending
  end.

Section observations.

Variable urlparse_query : string -> option string.
Variable parse_qs : string -> pydict (string * list string).
Variable with_suffix : string -> string -> string.

(** The search that one link contributes to [page_queries], if any. *)
Definition candidate (url : string) : option string :=
  if Str.contains "scryfall.com/search?q=" url then
    match urlparse_query url with
    | Some query =>
        let query_params := parse_qs query in
        match Dict.get "q" query_params with
        | Some (search, _) =>
            if Dict.mem "utm_source" query_params then None
            else if Str.contains ":" search then Some search else None
        | None => None
        end
    | None => None
    end
  else None.

(** The records that [process_link] sends to the logger for one link. *)
Definition link_log (url : string) : list event :=
  if Str.contains "scryfall.com/search?q=" url then
    match urlparse_query url with
    | Some query =>
        let query_params := parse_qs query in
        match Dict.get "q" query_params with
        | Some (search, _) =>
            if Dict.mem "utm_source" query_params then []
            else if Str.contains ":" search
                 then [EvLog (LogInfo ("  Found Scryfall query: " +:+ search))]
                 else [EvLog (LogInfo ("  Skipping non-colon search link: "
                                       +:+ search))]
        | None => []
        end
    | None => []
    end
  else [].

(** [urlparse] raises on the link. *)
Definition bad_link (url : string) : bool :=
  (Str.contains "scryfall.com/search?q=" url
   && match urlparse_query url with Some _ => false | None => true end)%bool.

(** [urlparse] accepts every link of the document that it is called on. *)
Definition links_parse (doc : html) : bool :=
  forallb (fun url => negb (bad_link url)) doc.

(** The links that come before the first one on which [urlparse] raises. *)
Fixpoint parsed_prefix (doc : html) : html :=
  match doc with
  | [] => []
  | url :: doc' => if bad_link url then [] else url :: parsed_prefix doc'
  end.

(** The set that the loop over the links builds. *)
Definition collect (doc : html) (acc : gset string) : gset string :=
  fold_left (fun acc url => match candidate url with
                            | Some search => {[search]} ∪ acc
                            | None => acc
                            end) doc acc.

(** The value of [process_page] on a page whose rendered content is [doc]. *)
Definition page_queries_of (doc : html) : list string :=
  Py.sorted (elements (collect doc ∅)).

(** The events of the flush
    [dump_queries_to_file(queries, output_file);
     dump_revision_cache(revision_cache, revision_cache_path)]. *)
Definition flush_events (output_file revision_cache_path : string)
    (st : crawl_state) : list event :=
  [ EvWrite output_file
      (Json.dumps (JList (map JStr (Py.sorted (Dict.keys (queries st))))));
    EvLog (LogInfo ("Dumped "
                    +:+ Str.of_nat (length (Py.sorted (Dict.keys (queries st))))
                    +:+ " queries to " +:+ output_file));
    EvWrite (with_suffix output_file ".map")
      (Json.dumps (JDict (map (fun kv => (fst kv, JList (map JStr (snd kv))))
                              (queries st))));
    EvWrite revision_cache_path (Json.dumps (JDict (revision_cache st))) ].

(** The files after that flush. *)
Definition flushed_files (output_file revision_cache_path : string)
    (st : crawl_state) (fs : gmap string string) : gmap string string :=
  <[revision_cache_path := Json.dumps (JDict (revision_cache st))]>
    (<[with_suffix output_file ".map" :=
         Json.dumps (JDict (map (fun kv => (fst kv, JList (map JStr (snd kv))))
                                (queries st)))]>
       (<[output_file :=
            Json.dumps (JList (map JStr (Py.sorted (Dict.keys (queries st)))))]>
          fs)).

(** The position [idx] of a page in the listing of its template calls for a
    checkpoint. *)
Definition checkpoint_due (idx : nat) : bool := ((idx + 1) mod 100 =? 0)%nat.

(** The events of the checkpoint that ends the [try] block. *)
Definition checkpoint_events (output_file revision_cache_path : string)
    (idx : nat) (st : crawl_state) : list event :=
  if checkpoint_due idx then
    [ EvLog (LogInfo ("Processed " +:+ Str.of_nat (idx + 1) +:+ " pages..."));
      EvLog (LogInfo ("  Current queries: "
                      +:+ Str.of_nat (length (queries st)))) ]
    ++ flush_events output_file revision_cache_path st
  else [].

(** The record that a successful extraction stores for the page. *)
Definition fresh_record (page : Page) (doc : html) : json :=
  current_revision_record page (Some (latest_revision_id page))
                          (Some (page_queries_of doc)).

(** The state that a successful extraction of the page leaves. *)
Definition processed_state (page : Page) (doc : html) (st : crawl_state)
  : crawl_state :=
  mkState (seen_pages st)
    (register_page_queries (title page) (page_queries_of doc) (queries st))
    (Dict.set (title page) (fresh_record page doc) (revision_cache st)).

(** The page was processed to the end in the round from [w] to [w']: its
    content was requested and the request returned a document. *)
Definition extraction_succeeded (page : Page) (w w' : world) : bool :=
  (fetched (title page) (new_events w w')
   && match parsed_page page with inr _ => true | inl _ => false end)%bool.

(** The part of [main] that comes before the last two statements. *)
Definition crawl (json_load : string -> outcome json)
    (site : string -> list Page) (output_file revision_cache_path : string)
  : py crawl_state :=
  loaded <- load_revision_cache json_load revision_cache_path ;;
  for_each (crawl_template urlparse_query parse_qs with_suffix site
                           output_file revision_cache_path)
           TEMPLATES_TO_CHECK (mkState ∅ [] loaded).

End observations.

Definition is_log (e : event) : bool :=
  match e with EvLog _ => true | _ => false end.


(** A computation is quiet when all it does to the world is to log. *)
Definition quiet {A} (m : py A) : Prop :=
  forall w, exists res logs,
    m w = (res, mkWorld (files w) (trace w ++ logs))
    /\ forallb is_log logs = true.

(** The cache does not let the page be skipped: there is no entry, or its
    revision differs, or it has no queries. *)
Definition stale (t : string) (r : Z) (st : crawl_state) : Prop :=
  Dict.get t (revision_cache st) = None
  \/ (exists members,
        Dict.get t (revision_cache st) = Some (JDict members)
        /\ Py.eq_int (default JNull (Dict.get "rev_id" members)) r = false)
  \/ (exists members,
        Dict.get t (revision_cache st) = Some (JDict members)
        /\ default JNull (Dict.get "queries" members) = JNull).

(** ** Concrete inputs *)

Definition empty_world : world := mkWorld ∅ [].

(** An upstream that rejects the bracketed colourless request of [t:x] as a
    display option problem, fails on the request without brackets, and finds
    three cards for every other request. *)
Definition fallback_fails : Session := fun q =>
  if String.eqb q "(t:x) id=c" then
    mkResponse 400 "Display options are not supported here" None
  else if String.eqb q "t:x id=c" then mkResponse 500 "Internal error" None
  else mkResponse 200 "" (Some 3).

(** A stats table whose one query holds an apostrophe. *)
Definition apostrophe_table : pydict (pydict string) :=
  [("o:can't",
    [("c", "0"); ("w", "4"); ("u", "1"); ("b", "9"); ("r", "2"); ("g", "0");
     ("m", "3")])].

Definition plain_table : pydict (pydict string) :=
  [("t:dragon", [("c", "0"); ("w", "4"); ("u", "1"); ("b", "9"); ("r", "2")])].

Definition cache_path : string := "scryfall_revision_cache.json".
Definition queries_path : string := "scryfall_queries.json".

(** A cache of one page, the text that [dump_revision_cache] writes for it,
    and that text cut off after forty characters. *)
Definition one_page_cache : pydict json :=
  [("Dragon",
    JDict [("rev_id", JInt 42); ("timestamp", JStr "2024-05-01T10:00:00");
           ("queries", JList [JStr "a:b"])])].

Definition truncated_text : string :=
  String.substring 0 40 (Json.dumps (JDict one_page_cache)).

Definition world_with (path content : string) : world :=
  mkWorld {[ path := content ]} [].

(** A cache of one page whose title starts with a letter that takes two
    bytes, the text that [dump_revision_cache] writes for it, and that text
    cut off before and inside that letter. *)
Definition aether_title : string := String "195" (String "134" "ther Vial").

Definition aether_cache : pydict json :=
  [(aether_title,
    JDict [("rev_id", JInt 7); ("timestamp", JNull);
           ("queries", JList [JStr "t:artifact"])])].

Definition cut_before_letter : string :=
  String.substring 0 5 (Json.dumps (JDict aether_cache)).

Definition cut_inside_letter : string :=
  String.substring 0 6 (Json.dumps (JDict aether_cache)).

(** A rendered page with the same search link twice, a link that holds a
    tracking parameter, a link whose search has no colon, and a link that
    gives [q] twice. *)
Definition sample_doc : html :=
  [ "https://scryfall.com/search?q=t%3Acreature";
    "https://scryfall.com/search?q=t%3Acreature";
    "https://scryfall.com/search?q=o%3Aflying&utm_source=mediawiki";
    "https://scryfall.com/search?q=lightning+bolt";
    "https://scryfall.com/search?q=c%3Ar&q=c%3Ag";
    "https://example.org/wiki/Dragon" ].

Definition sample_page : Page :=
  mkPage "Dragon" 42 (Some "2024-05-01T10:00:00") (inr sample_doc).


(** A page with a search link and then a link whose host opens a square
    bracket that nothing closes. *)
Definition bracket_doc : html :=
  [ "https://scryfall.com/search?q=t%3Aelf";
    "http://[scryfall.com/search?q=a%3Ab" ].

Definition bracket_page : Page :=
  mkPage "Elf" 7 (Some "2024-05-02T08:00:00") (inr bracket_doc).

(** A page whose search link names the tracking parameter without a
    value. *)
Definition blank_utm_page : Page :=
  mkPage "Bolt" 9 None
    (inr ["https://scryfall.com/search?q=a%3Ab&utm_source="]).

Definition fresh_state : crawl_state := mkState ∅ [] [].

(** The state at the start of a run that loaded [one_page_cache]. *)
Definition cached_state : crawl_state := mkState ∅ [] one_page_cache.

(** The state at the start of a run that loaded a cache in which the
    queries of the page are a text, not a list. *)
Definition text_queries_state : crawl_state :=
  mkState ∅ []
    [("Dragon", JDict [("rev_id", JInt 42); ("queries", JStr "a:a")])].

(** The same with a number in the place of the queries. *)
Definition number_queries_state : crawl_state :=
  mkState ∅ []
    [("Dragon", JDict [("rev_id", JInt 42); ("queries", JInt 5)])].

(** A page whose content request times out. *)
Definition timeout_page : Page :=
  mkPage "Goblin" 7 None (inl (TimeoutError "timed out")).

(** The page of [one_page_cache] after one more edit. *)
Definition edited_page : Page :=
  mkPage "Dragon" 43 (Some "2024-06-01T09:30:00") (inr sample_doc).

(** [n] pages without links, never seen before. *)
Definition numbered_pages (prefix : string) (n : nat) : list Page :=
  map (fun i => mkPage (prefix +:+ Str.of_nat i) 1 None (inr []))
      (seq 0 n).

(** A wiki on which sixty pages transclude the first template and sixty
    other pages the second. *)
Definition two_listings (template_title : string) : list Page :=
  if String.eqb template_title "Template:Scryfall stats"
  then numbered_pages "Stats page " 60
  else numbered_pages "Count page " 60.

Definition long_run : outcome unit * world :=
  main Lib.urlparse_query Lib.parse_qs Lib.with_suffix Json.loads
       two_listings queries_path cache_path empty_world.

Definition is_error_record (e : event) : bool :=
  match e with EvLog (LogError _) => true | _ => false end.

(** A registry that already knows one search, and the queries of a page
    that holds that search twice and a new one. *)
Definition small_registry : pydict (list string) := [("t:elf", ["Elf"])].
Definition repeated_queries : list string := ["t:elf"; "c:g"; "t:elf"].

(** A wiki on which one page transcludes both templates. *)
Definition one_page_site (template_title : string) : list Page :=
  [sample_page].

(** A world that holds the revision cache of an earlier run and a file that
    is none of the crawl's. *)
Definition later_world : world :=
  mkWorld (<["notes.txt" := "keep"]>
             {[ cache_path := Json.dumps (JDict one_page_cache) ]}) [].

(** The page of [one_page_cache] under another title. *)
Definition renamed_page : Page :=
  mkPage "Wyvern" 42 (Some "2024-05-01T10:00:00") (inr sample_doc).

Definition renamed_site (template_title : string) : list Page :=
  [renamed_page].

(** The state in which the crawl of [renamed_site] returns when it starts
    in [later_world]. *)
Definition renamed_run_state : crawl_state :=
  mkState ({["Wyvern"]} ∪ ∅)
    [("c:r", ["Wyvern"]); ("t:creature", ["Wyvern"])]
    (Dict.set "Wyvern"
       (fresh_record Lib.urlparse_query Lib.parse_qs renamed_page sample_doc)
       one_page_cache).

(** The state at the start of a run that loaded what an earlier run had
    recorded for [sample_page]. *)
Definition recorded_state : crawl_state :=
  mkState ∅ []
    [("Dragon",
      fresh_record Lib.urlparse_query Lib.parse_qs sample_page sample_doc)].

(** A cache edited by hand in which the page holds a query twice. *)
Definition doubled_state : crawl_state :=
  mkState ∅ []
    [("Dragon",
      JDict [("rev_id", JInt 42); ("queries", JList [JStr "a:b"; JStr "a:b"])])].

(** ** What a whole run does *)

(** The number of requests for the rendered content of the page. *)
Fixpoint fetch_count (page_title : string) (evs : list event) : nat :=
  match evs with
  | [] => O
  | EvFetch t :: evs' =>
      ((if String.eqb t page_title then 1 else 0) + fetch_count page_title evs')%nat
  | _ :: evs' => fetch_count page_title evs'
  end.

(** The paths of the files written, in order. *)
Definition written_paths (evs : list event) : list string :=
  omap (fun e => match e with EvWrite p _ => Some p | _ => None end) evs.

(** The titles of a listing, as [main] reads them off the pages. *)
Definition titles (items : list (nat * Page)) : list string :=
  map (fun item => title (snd item)) items.

(** The three files of a crawl. *)
Definition crawl_files (with_suffix : string -> string -> string)
    (output_file revision_cache_path : string) : list string :=
  [output_file; with_suffix output_file ".map"; revision_cache_path].

(** From [w] to [w'] the run has gone on as a crawl does: it has added
    events to the trace; it has requested no page twice, none of the pages
    in [seen], and only pages that [marked] holds; it has written to the
    files in [paths] and has left every other file as it was. *)
Definition proceeds (paths : list string) (seen : gset string)
    (marked : string -> Prop) (w w' : world) : Prop :=
  exists evs,
    trace w' = trace w ++ evs
    /\ (forall t, (fetch_count t evs <= 1)%nat)
    /\ (forall t, t ∈ seen -> fetch_count t evs = O)
    /\ (forall t, (0 < fetch_count t evs)%nat -> marked t)
    /\ (forall p, p ∈ written_paths evs -> p ∈ paths)
    /\ (forall p, p ∉ paths -> files w' !! p = files w !! p).

(** From the state [s] to the state [s'] the pages seen have grown, the
    cache has kept its entries in their order, an entry differs only for a
    page that was marked as seen in between, and cache and registry are
    still dictionaries. *)
Definition grows (s s' : crawl_state) : Prop :=
  seen_pages s ⊆ seen_pages s'
  /\ (exists added,
        Dict.keys (revision_cache s') = Dict.keys (revision_cache s) ++ added)
  /\ (forall t,
        Dict.get t (revision_cache s') = Dict.get t (revision_cache s)
        \/ (t ∈ seen_pages s' /\ t ∉ seen_pages s))
  /\ (Json.wf (JDict (revision_cache s)) -> Json.wf (JDict (revision_cache s')))
  /\ (Dict.wf (queries s) -> Dict.wf (queries s')).

(** What a part of the crawl that was started in [s] and [w] has left. *)
Definition advanced (paths : list string) (s : crawl_state) (w : world)
    (r : outcome crawl_state * world) : Prop :=
  match r with
  | (Return s', w') =>
      grows s s' /\ proceeds paths (seen_pages s) (fun t => t ∈ seen_pages s') w w'
  | (Raise _, w') => proceeds paths (seen_pages s) (fun _ => True) w w'
  end.

(** What the iteration of the queries of the record yields holds nothing
    twice.  A record whose queries cannot be iterated is let through, since
    no run gets past it; a record whose queries the model does not follow
    is not. *)
Definition distinct_queries (record : json) : bool :=
  match record with
  | JDict members =>
      match default JNull (Dict.get "queries" members) with
      | JNull => true
      | cached_queries =>
          match Py.iterate cached_queries with
          | Return cached => bool_decide (NoDup cached)
          | Raise TypeError => true
          | Raise _ => false
          end
      end
  | _ => true
  end.

Definition cache_distinct (cache : pydict json) : Prop :=
  Forall (fun kv => distinct_queries (snd kv) = true) cache.

(** The registry lists under every search pages that the run has seen,
    each of them once. *)
Definition registry_sound (seen : gset string)
    (registry : pydict (list string)) : Prop :=
  forall search pages,
    Dict.get search registry = Some pages ->
    NoDup pages /\ forall t, t ∈ pages -> t ∈ seen.

Definition state_sound (st : crawl_state) : Prop :=
  registry_sound (seen_pages st) (queries st)
  /\ cache_distinct (revision_cache st).

(** ** What can be written and read again *)

(** Every text of the value has a UTF-8 form: it holds no half of a
    surrogate pair, which a [\u] escape of a cache file can bring in and
    which the codec of a file opened with [encoding="utf-8"] refuses. *)
Fixpoint encodable (v : json) : bool :=
  match v with
  | JStr s => Json.utf8_valid s
  | JList items => forallb encodable items
  | JDict members =>
      forallb (fun kv => (Json.utf8_valid (fst kv) && encodable (snd kv))%bool)
              members
  | _ => true
  end.

Definition encodable_registry (registry : pydict (list string)) : bool :=
  forallb (fun kv => (Json.utf8_valid (fst kv)
                      && forallb Json.utf8_valid (snd kv))%bool)
          registry.

(** The registry and the cache of the state are within what the encoder
    writes and the loader reads back: texts with a UTF-8 form, integers of
    at most 4300 digits, a nesting that the loader covers. *)
Definition storable (st : crawl_state) : bool :=
  (Json.within Json.covered_nesting (JDict (revision_cache st))
   && encodable_registry (queries st))%bool.

(** The bytes are the UTF-8 forms of whole characters. *)
Definition whole (s : string) : Prop := Json.utf8_run [] s = Some [].

(** The bytes that the codec still expects are continuation bytes. *)
Definition pending (st : list (N * N)) : Prop :=
  Forall (fun r => (128 <= fst r)%N) st.

(** ** update_module_data.py: the input of [main] *)

(** The part of [main] that reads the input file:
    [queries = set(json.load(f))], the record of their number, and
    [sorted(queries)], the argument of [update_data_module].  A missing
    file makes [open] raise.  The input that the crawl stage writes is a
    list of strings; the set of any other decoded value is left out of the
    model. *)
Definition load_queries (json_load : string -> outcome json)
    (input_file : string) : py (list string) :=
  content <- read_text input_file ;;
  match content with
  | None => raise (OtherError "FileNotFoundError")
  | Some content =>
      match json_load content with
      | Raise e => raise e
      | Return (JList items) =>
          match mapM Py.as_str items with
          | Some found =>
              let queries : gset string := list_to_set found in
              info ("Loaded " +:+ Str.of_nat (length (elements queries))
                    +:+ " queries from " +:+ input_file) ;;;
              ret (Py.sorted (elements queries))
          | None => raise (NotModelled "set of values that are no strings")
          end
      | Return _ => raise (NotModelled "set of a value that is no list")
      end
  end.

(** ** site.py *)

(** [str(value)] for a decoded value that is no container. *)
Definition str_of_scalar (v : json) : option string :=
  match v with
  | JStr s => Some s
  | JInt n => Some (Str.of_Z n)
  | JBool true => Some "True"
  | JBool false => Some "False"
  | JNull => Some "None"
  | JList _ | JDict _ => None
  end.

(** [load_headers].  A missing file makes [read_text] raise
    [FileNotFoundError], which is turned into a [RuntimeError]; what
    [json.loads] raises is passed on; [data.get] exists on objects only.
    The keys of a decoded object are strings already.  The text that [str]
    gives for a list or an object is left out of the model. *)
Definition load_headers (json_loads : string -> outcome json)
    (config_path : string) : py (pydict string) :=
  content <- read_text config_path ;;
  match content with
  | None => raise (OtherError "RuntimeError")
  | Some content =>
      match json_loads content with
      | Raise e => raise e
      | Return data =>
          headers <- Py.get data "headers" ;;
          match headers with
          | JDict members =>
              match mapM (fun kv => option_map (pair (fst kv))
                                               (str_of_scalar (snd kv)))
                         members with
              | Some result => ret result
              | None => raise (NotModelled "str of a container")
              end
          | _ => raise (OtherError "RuntimeError")
          end
      end
  end.

(** The headers of a configuration, as JSON. *)
Definition headers_object (headers : pydict string) : json :=
  JDict (map (fun kv => (fst kv, JStr (snd kv))) headers).

Definition sample_config : pydict json :=
  [("comment", JNull);
   ("headers",
    headers_object [("User-Agent", "OrmosBot/1.0"); ("X-Key", "s3cret")])].

(** A configuration as an operator writes it by hand, on one line and with
    spaces at will. *)
Definition quoted (s : string) : string :=
  String "034" s +:+ String "034" "".

Definition written_config : string :=
  "{" +:+ quoted "retries" +:+ ":3,   " +:+ quoted "headers" +:+ " : {"
  +:+ quoted "User-Agent" +:+ ":" +:+ quoted "OrmosBot/1.0" +:+ " ,"
  +:+ quoted "X-Key" +:+ ": " +:+ quoted "s3cret" +:+ "},"
  +:+ quoted "comment" +:+ ":null }".

(** ** What the stats stage renders *)

(** The mapping that [fetch_scryfall_stats] returns for the query: the
    colours in their order, each with its count unless its fallback request
    failed. *)
Definition recorded_stats (session : Session) (query : string) : pydict Z :=
  fold_left
    (fun stats color =>
       if fallback_failed session query color then stats
       else Dict.set (Str.lower color) (recorded_count session query color)
                     stats)
    COLOR_ORDER [].

(** The entry of the query in the table of [update_data_module]. *)
Definition rendered_stats (session : Session) (query : string)
  : string * pydict string :=
  (query, stats_as_text (recorded_stats session query)).

(** The query can stand between single quotes in a Lua chunk as it is: it
    holds no single quote, no backslash and no line break. *)
Fixpoint plain_query (q : string) : bool :=
  match q with
  | EmptyString => true
  | String c q' =>
      (negb (Ascii.eqb c "'" || Ascii.eqb c "\" || Lua.is_newline c)
       && plain_query q')%bool
  end.

(** The text holds no quote of either kind. *)
Fixpoint quote_free (s : string) : bool :=
  match s with
  | EmptyString => true
  | String c s' => (negb (Lua.is_quote c) && quote_free s')%bool
  end.

(** The scanner is outside every string. *)
Definition calm (m : Lua.mode) : bool :=
  match m with
  | Lua.Code | Lua.Hyphen | Lua.Comment => true
  | _ => false
  end.

(** Read from the start of a line, the text ends outside every string. *)
Definition line_closed (line : string) : Prop :=
  exists m, Lua.scan Lua.Code line = Some m /\ calm m = true.

(** The colour fields of a table entry hold no quotes. *)
Definition quiet_values (stats : pydict string) : Prop :=
  forall color, quote_free (default "0" (Dict.get color stats)) = true.

(** ** update_module_data.py: the switch template *)

Section switch.

(** The library functions [switch_from_mapping] calls. *)
Variable casefold : string -> string.        (* str.casefold *)
Variable int_of_str : string -> option Z.    (* int(s), [None] where it
                                                raises ValueError *)

(** The loop [for color in COLOR_ORDER] of [switch_from_mapping]. *)
Fixpoint color_values (stats : pydict string) (colors : list string)
  : outcome (list Z) :=
  match colors with
  | [] => Return []
  | color :: colors' =>
      match int_of_str match Dict.get color stats with
                       | Some v => v
                       | None => "0"
                       end with
      | Some value =>
          match color_values stats colors' with
          | Return values => Return (value :: values)
          | Raise e => Raise e
          end
      | None => Raise (OtherError "ValueError")
      end
  end.

(** The line that [switch_from_mapping] appends for one item of [data]. *)
Definition switch_line (item : string * pydict string) : outcome string :=
  match color_values (snd item) COLOR_ORDER with
  | Return values =>
      let total := fold_left Z.add values 0 in
      Return (" | " +:+ casefold (fst item) +:+ " = "
              +:+ Str.join "," (map Str.of_Z values ++ [Str.of_Z total]))
  | Raise e => Raise e
  end.

Fixpoint switch_lines (data : pydict (pydict string)) : outcome (list string) :=
  match data with
  | [] => Return []
  | item :: data' =>
      match switch_line item with
      | Return line =>
          match switch_lines data' with
          | Return lines => Return (line :: lines)
          | Raise e => Raise e
          end
      | Raise e => Raise e
      end
  end.

Definition switch_from_mapping (data : pydict (pydict string))
  : outcome string :=
  match switch_lines data with
  | Return lines =>
      Return (Str.join (String "010" "")
                (["<noinclude>Auto-generated data. Edit carefully.</noinclude>";
                  "{{#switch:{{lc:{{{query|}}}}}"]
                   ++ lines ++ [" | default = "; "}}"]))
  | Raise e => Raise e
  end.

End switch.

(** The seven counts of the query in the order of the colours, with zero
    for a colour that [fetch_scryfall_stats] has not stored. *)
Definition switch_counts (session : Session) (query : string) : list Z :=
  map (fun color => default 0 (Dict.get color (recorded_stats session query)))
      COLOR_ORDER.

(** The switch line of the query. *)
Definition counts_line (casefold : string -> string) (session : Session)
    (query : string) : string :=
  " | " +:+ casefold query +:+ " = "
  +:+ Str.join ","
        (map Str.of_Z (switch_counts session query
                       ++ [fold_left Z.add (switch_counts session query) 0])).

(** [int(s)] on the decimal texts that [str] gives for an integer. *)
Definition decimal_int (s : string) : option Z :=
  match Json.scan_number s with
  | Some (Return (JInt n, EmptyString)) => Some n
  | _ => None
  end.

(** * Properties *)

(** ** Dictionaries *)

Lemma string_eqb_refl (k : string) : String.eqb k k = true.
Proof. apply String.eqb_refl. Qed.

Lemma string_eqb_ne (k k' : string) : k <> k' -> String.eqb k k' = false.
Proof. intros H. apply String.eqb_neq. exact H. Qed.

Lemma dict_get_set_eq {A} (k : string) (v : A) (d : pydict A) :
  Dict.get k (Dict.set k v d) = Some v.
Proof.
  induction d as [|[k' v'] d IH]; simpl.
  - now rewrite string_eqb_refl.
  - destruct (String.eqb k k') eqn:E; simpl; rewrite E; [reflexivity | exact IH].
Qed.

Lemma dict_get_set_ne {A} (k k' : string) (v : A) (d : pydict A) :
  k <> k' -> Dict.get k' (Dict.set k v d) = Dict.get k' d.
Proof.
  intros Hne. induction d as [|[k0 v0] d IH]; simpl.
  - rewrite string_eqb_ne; [reflexivity | congruence].
  - destruct (String.eqb k k0) eqn:E; simpl.
    + apply String.eqb_eq in E. subst k0.
      rewrite string_eqb_ne; [reflexivity | congruence].
    + destruct (String.eqb k' k0); [reflexivity | exact IH].
Qed.

Lemma dict_get_None_keys {A} (k : string) (d : pydict A) :
  Dict.get k d = None <-> ~ In k (Dict.keys d).
Proof.
  induction d as [|[k' v'] d IH]; simpl.
  - tauto.
  - destruct (String.eqb k k') eqn:E.
    + apply String.eqb_eq in E. subst. split; [discriminate | tauto].
    + apply String.eqb_neq in E. rewrite IH. split; [intros H [H'|H']|]; try tauto.
      congruence.
Qed.

Lemma dict_set_fresh {A} (k : string) (v : A) (d : pydict A) :
  Dict.get k d = None -> Dict.set k v d = d ++ [(k, v)].
Proof.
  induction d as [|[k' v'] d IH]; simpl; [reflexivity|].
  destruct (String.eqb k k'); [discriminate|].
  intros H. now rewrite IH.
Qed.

Lemma dict_keys_set {A} (k : string) (v : A) (d : pydict A) :
  Dict.keys (Dict.set k v d)
  = if Dict.mem k d then Dict.keys d else Dict.keys d ++ [k].
Proof.
  unfold Dict.mem. induction d as [|[k' v'] d IH]; simpl; [reflexivity|].
  destruct (String.eqb k k') eqn:E; simpl; [reflexivity|].
  rewrite IH. now destruct (Dict.get k d).
Qed.

Lemma dict_wf_set {A} (k : string) (v : A) (d : pydict A) :
  Dict.wf d -> Dict.wf (Dict.set k v d).
Proof.
  unfold Dict.wf. rewrite dict_keys_set. unfold Dict.mem.
  destruct (Dict.get k d) eqn:E; [tauto|].
  intros H. apply NoDup_app. split; [exact H|]. split.
  - intros x Hx Hk. apply list_elem_of_In in Hx.
    apply list_elem_of_singleton in Hk. subst x.
    now apply dict_get_None_keys in E.
  - apply NoDup_singleton.
Qed.

(** [dict(pairs)] gives the pairs back when their keys are distinct. *)
Lemma dict_of_pairs_distinct {A} (pairs : list (string * A)) :
  NoDup (map fst pairs) -> Dict.of_pairs pairs = pairs.
Proof.
  unfold Dict.of_pairs.
  assert (G : forall d : pydict A, NoDup (map fst (d ++ pairs)) ->
          fold_left (fun d kv => Dict.set (fst kv) (snd kv) d) pairs d
          = d ++ pairs).
  { induction pairs as [|[k v] ps IH]; intros d Hd; simpl.
    - now rewrite app_nil_r.
    - rewrite dict_set_fresh.
      + rewrite IH; rewrite <- app_assoc; [reflexivity | exact Hd].
      + apply dict_get_None_keys. unfold Dict.keys.
        rewrite map_app in Hd. apply NoDup_app in Hd as (_ & Hd & _).
        intros Hin. apply (Hd k); [now apply list_elem_of_In | simpl; left]. }
  intros H. apply (G []). exact H.
Qed.

(** ** The stats stage *)

(** One round of the loop stores the count of the colour, unless the
    fallback request failed: then it leaves [stats] as it was. *)
Lemma fetch_color_stats (session : Session) (query color : string)
    (stats : pydict Z) (w : world) :
  fst (fetch_color session query color stats w)
  = Return (if fallback_failed session query color then stats
            else Dict.set (Str.lower color)
                          (recorded_count session query color) stats).
Proof.
  unfold fetch_color, fallback_failed, recorded_count, scryfall_query, bind,
    info, error, emit, ret.
  cbn [fst snd].
  destruct (Str.contains "+" _); cbn [fst snd];
    destruct (ok (session _)); cbn [negb andb]; try reflexivity;
    destruct (status_code (session _) =? 404); cbn [negb andb];
      try reflexivity;
    destruct (status_code (session _) =? 400); cbn [negb andb];
      try reflexivity;
    destruct (Str.contains "Display options" _); cbn [negb andb];
      try reflexivity;
    destruct (Str.contains "+" _); cbn [fst snd];
    destruct (ok (session _)); cbn [negb andb]; try reflexivity;
    destruct (status_code (session _) =? 404); reflexivity.
Qed.

Lemma fetch_colors_stats (session : Session) (query : string)
    (colors : list string) (stats : pydict Z) (w : world) :
  fst (for_each (fetch_color session query) colors stats w)
  = Return (fold_left
              (fun stats color =>
                 if fallback_failed session query color then stats
                 else Dict.set (Str.lower color)
                               (recorded_count session query color) stats)
              colors stats).
Proof.
  revert stats w. induction colors as [|color colors IH]; intros stats w;
    [reflexivity|].
  cbn [for_each fold_left]. unfold bind.
  pose proof (fetch_color_stats session query color stats w) as Hstep.
  destruct (fetch_color session query color stats w) as [[stats'|e] w'];
    cbn [fst] in Hstep; [|discriminate].
  injection Hstep as ->. apply IH.
Qed.

(** The mapping that [fetch_scryfall_stats] returns holds a category exactly
    when the fallback request for it did not fail, and then with the count
    that the answers give. *)
Lemma fetch_scryfall_stats_keys (session : Session) (query color : string)
    (w : world) :
  In color COLOR_ORDER ->
  exists stats,
    fst (fetch_scryfall_stats session query w) = Return stats
    /\ Dict.get color stats
       = if fallback_failed session query color then None
         else Some (recorded_count session query color).
Proof.
  intros Hcolor. eexists. split; [apply fetch_colors_stats|].
  cbn [COLOR_ORDER fold_left]. cbn [In COLOR_ORDER] in Hcolor.
  destruct Hcolor as [<-|[<-|[<-|[<-|[<-|[<-|[<-|[]]]]]]]];
    destruct (fallback_failed session query "c"),
             (fallback_failed session query "w"),
             (fallback_failed session query "u"),
             (fallback_failed session query "b"),
             (fallback_failed session query "r"),
             (fallback_failed session query "g"),
             (fallback_failed session query "m");
    reflexivity.
Qed.

(** C1: when the request of a category is answered 400 with a display
    options rejection and the request without brackets then fails with
    neither an ok status nor 404, [fetch_scryfall_stats] records no count
    for that category and logs no error: for the query [t:x] against
    [fallback_fails] the returned mapping has the six other keys and lacks
    [c], and the log holds three info records for [c] and no error record. *)
Theorem fetch_scryfall_stats_drops_category_after_failed_fallback :
  fetch_scryfall_stats fallback_fails "t:x" empty_world
  = (Return [("w", 3); ("u", 3); ("b", 3); ("r", 3); ("g", 3); ("m", 3)],
     mkWorld ∅
       (map (fun msg => EvLog (LogInfo msg))
          [ "Querying Scryfall API with query: (t:x) id=c";
            "Retrying without brackets for query: t:x id=c";
            "Querying Scryfall API with query: t:x id=c";
            "Querying Scryfall API with query: (t:x) id=w";
            "Querying Scryfall API with query: (t:x) id=u";
            "Querying Scryfall API with query: (t:x) id=b";
            "Querying Scryfall API with query: (t:x) id=r";
            "Querying Scryfall API with query: (t:x) id=g";
            "Querying Scryfall API with query: (t:x) id=m" ]))
  /\ Dict.get "c" [("w", 3); ("u", 3); ("b", 3); ("r", 3); ("g", 3); ("m", 3)]
     = None.
Proof. split; reflexivity. Qed.

(** The marker comment opens every rendered module. *)
Lemma lua_from_mapping_starts_with_marker (data : pydict (pydict string)) :
  String.prefix "-- Auto-generated data. Edit carefully."
                (lua_from_mapping data) = true.
Proof. reflexivity. Qed.

(** A table of plain queries renders to text whose strings are closed. *)
Example lua_from_mapping_plain_table :
  lua_from_mapping plain_table
  = Str.join (String "010" "")
      [ "-- Auto-generated data. Edit carefully.";
        "return {";
        "    ['t:dragon'] = {";
        "        c = 0, w = 4, u = 1, b = 9, r = 2, g = 0, m = 0";
        "    },";
        "}";
        "" ]
  /\ Lua.strings_closed (lua_from_mapping plain_table) = true.
Proof. split; reflexivity. Qed.

(** C6: the query is copied between the quotes of the key without
    escaping, so a query that holds an apostrophe ends the key early: for
    the table [apostrophe_table] the third quote of the key line opens a
    string that no quote closes before the end of the line, where the
    scanner stops, and the text is no Lua chunk. *)
Theorem lua_from_mapping_apostrophe_breaks_module :
  lua_from_mapping apostrophe_table
  = Str.join (String "010" "")
      [ "-- Auto-generated data. Edit carefully.";
        "return {";
        "    ['o:can't'] = {";
        "        c = 0, w = 4, u = 1, b = 9, r = 2, g = 0, m = 3";
        "    },";
        "}";
        "" ]
  /\ Lua.scan Lua.Code "    ['o:can't'" = Some (Lua.Literal "'")
  /\ Lua.scan Lua.Code (lua_from_mapping apostrophe_table) = None
  /\ Lua.strings_closed (lua_from_mapping apostrophe_table) = false.
Proof. repeat split; reflexivity. Qed.

(** ** Loading the revision cache *)

(** [load_revision_cache] returns the empty mapping when the file is
    missing, and when reading the file raises [JSONDecodeError]; in the
    first case nothing else happens, in the second one warning is logged. *)
Lemma load_revision_cache_missing_or_malformed
    (json_load : string -> outcome json) (path : string) (w : world) :
  (files w !! path = None ->
   load_revision_cache json_load path w = (Return [], w))
  /\ (forall content,
        files w !! path = Some content ->
        json_load content = Raise JSONDecodeError ->
        load_revision_cache json_load path w
        = (Return [],
           mkWorld (files w)
             (trace w ++ [EvLog (LogWarning
                ("Failed to parse revision cache at " +:+ path
                 +:+ "; rebuilding"))]))).
Proof.
  split.
  - intros Hnone. unfold load_revision_cache, bind, read_text, ret.
    now rewrite Hnone.
  - intros content Hsome Hbad.
    unfold load_revision_cache, bind, read_text, ret.
    rewrite Hsome, Hbad. reflexivity.
Qed.

(** A cache file cut off in the middle of an entry no longer parses. *)
Example truncated_text_is_malformed :
  Json.loads truncated_text = Raise JSONDecodeError.
Proof. vm_compute. reflexivity. Qed.

Lemma load_revision_cache_missing_or_malformed_witness :
  load_revision_cache Json.loads cache_path empty_world
  = (Return [], empty_world)
  /\ load_revision_cache Json.loads cache_path
       (world_with cache_path truncated_text)
     = (Return [],
        mkWorld {[ cache_path := truncated_text ]}
          [EvLog (LogWarning
             "Failed to parse revision cache at scryfall_revision_cache.json; rebuilding")]).
Proof.
  split.
  - apply (proj1 (load_revision_cache_missing_or_malformed
                    Json.loads cache_path empty_world)).
    reflexivity.
  - apply (proj2 (load_revision_cache_missing_or_malformed
                    Json.loads cache_path
                    (world_with cache_path truncated_text))
             truncated_text).
    + vm_compute. reflexivity.
    + vm_compute. reflexivity.
Defined.

(** C7: a cache file that was cut off is rebuilt from empty only when the
    cut leaves a text: the file that [dump_revision_cache] writes for
    [aether_cache] is read back as that cache; cut off before the first
    letter of the title it gives the empty mapping after one warning; cut
    off inside that letter, which takes two bytes, it makes the reading of
    the file raise [UnicodeDecodeError], which [load_revision_cache] does
    not catch: no mapping is returned and no warning is logged. *)
Theorem load_revision_cache_raises_on_cut_character :
  load_revision_cache Json.load cache_path
    (world_with cache_path (Json.dumps (JDict aether_cache)))
  = (Return aether_cache,
     world_with cache_path (Json.dumps (JDict aether_cache)))
  /\ load_revision_cache Json.load cache_path
       (world_with cache_path cut_before_letter)
     = (Return [],
        mkWorld {[ cache_path := cut_before_letter ]}
          [EvLog (LogWarning
             "Failed to parse revision cache at scryfall_revision_cache.json; rebuilding")])
  /\ load_revision_cache Json.load cache_path
       (world_with cache_path cut_inside_letter)
     = (Raise (OtherError "UnicodeDecodeError"),
        world_with cache_path cut_inside_letter).
Proof. vm_compute. repeat split. Qed.

(** C10: when the file exists and its text parses as JSON to a value that
    is no object, [load_revision_cache] returns the empty mapping, raises
    nothing and logs nothing: the world is left as it was. *)
Theorem load_revision_cache_not_an_object
    (json_load : string -> outcome json) (path : string) (w : world)
    (content : string) (v : json) :
  files w !! path = Some content ->
  json_load content = Return v ->
  (forall data, v <> JDict data) ->
  load_revision_cache json_load path w = (Return [], w).
Proof.
  intros Hsome Hload Hnot.
  unfold load_revision_cache, bind, read_text, ret.
  rewrite Hsome, Hload.
  destruct v; try reflexivity.
  now destruct (Hnot members).
Qed.

Lemma load_revision_cache_not_an_object_witness :
  load_revision_cache Json.loads cache_path (world_with cache_path "[1, 2]")
  = (Return [], world_with cache_path "[1, 2]").
Proof.
  apply (load_revision_cache_not_an_object Json.loads cache_path
           (world_with cache_path "[1, 2]") "[1, 2]"
           (JList [JInt 1; JInt 2])).
  - vm_compute. reflexivity.
  - vm_compute. reflexivity.
  - intros data H. discriminate H.
Defined.

(** A top-level object is returned as it is. *)
Lemma load_revision_cache_object
    (json_load : string -> outcome json) (path : string) (w : world)
    (content : string) (data : pydict json) :
  files w !! path = Some content ->
  json_load content = Return (JDict data) ->
  load_revision_cache json_load path w = (Return data, w).
Proof.
  intros Hsome Hload.
  unfold load_revision_cache, bind, read_text, ret.
  now rewrite Hsome, Hload.
Qed.

(** ** The monad *)

Lemma world_eta (w : world) : mkWorld (files w) (trace w) = w.
Proof. now destruct w. Qed.

Lemma trace_app_nil (w : world) : mkWorld (files w) (trace w ++ []) = w.
Proof. rewrite app_nil_r. apply world_eta. Qed.

Lemma new_events_app (w : world) (fs : gmap string string) (evs : list event) :
  new_events w (mkWorld fs (trace w ++ evs)) = evs.
Proof. unfold new_events. simpl. apply drop_app_length. Qed.

Lemma new_events_same (w : world) : new_events w w = [].
Proof. unfold new_events. apply drop_all. Qed.

Lemma for_each_ext {A S} (f g : A -> S -> py S) (l : list A) :
  (forall a s w, f a s w = g a s w) ->
  forall s w, for_each f l s w = for_each g l s w.
Proof.
  intros Hfg. induction l as [|a l IH]; intros s w; simpl; [reflexivity|].
  unfold bind. rewrite Hfg. destruct (g a s w) as [[s'|e] w']; auto.
Qed.

(** ** The extractor *)



Section extractor.

Variable urlparse_query : string -> option string.
Variable parse_qs : string -> pydict (string * list string).

Local Abbreviation candidate := (candidate urlparse_query parse_qs).
Local Abbreviation link_log := (link_log urlparse_query parse_qs).
Local Abbreviation collect := (collect urlparse_query parse_qs).
Local Abbreviation is_bad := (bad_link urlparse_query).
Local Abbreviation all_parse := (links_parse urlparse_query).
Local Abbreviation good_prefix := (parsed_prefix urlparse_query).
Local Abbreviation scan_link := (process_link urlparse_query parse_qs).
Local Abbreviation scan_page := (process_page urlparse_query parse_qs).

Lemma process_link_spec (url : string) (acc : gset string) (w : world) :
  is_bad url = false ->
  scan_link url acc w
  = (Return (match candidate url with
             | Some search => {[search]} ∪ acc
             | None => acc
             end),
     mkWorld (files w) (trace w ++ link_log url)).
Proof.
  unfold process_link, candidate, link_log, bad_link.
  destruct (Str.contains "scryfall.com/search?q=" url);
    [|now rewrite trace_app_nil].
  destruct (urlparse_query url) as [query|]; [intros _ | discriminate].
  destruct (Dict.get "q" (parse_qs query)) as [[search later]|];
    [|now rewrite trace_app_nil].
  destruct (Dict.mem "utm_source" (parse_qs query));
    [now rewrite trace_app_nil|].
  destruct (Str.contains ":" search); reflexivity.
Qed.

Lemma process_link_bad (url : string) (acc : gset string) (w : world) :
  is_bad url = true ->
  scan_link url acc w = (Raise (OtherError "ValueError"), w).
Proof.
  unfold process_link, bad_link.
  destruct (Str.contains "scryfall.com/search?q=" url); [|discriminate].
  destruct (urlparse_query url); [discriminate | reflexivity].
Qed.

Lemma for_each_process_link (doc : html) (acc : gset string) (w : world) :
  all_parse doc = true ->
  for_each scan_link doc acc w
  = (Return (collect doc acc),
     mkWorld (files w) (trace w ++ flat_map link_log doc)).
Proof.
  revert acc w. induction doc as [|url doc IH]; intros acc w Hdoc; simpl.
  - unfold ret. now rewrite trace_app_nil.
  - cbn [links_parse forallb] in Hdoc.
    apply andb_true_iff in Hdoc as [Hurl Hdoc].
    apply negb_true_iff in Hurl.
    unfold bind. rewrite (process_link_spec _ _ _ Hurl), (IH _ _ Hdoc). simpl.
    now rewrite <- app_assoc.
Qed.

Lemma for_each_process_link_bad (doc : html) (acc : gset string) (w : world) :
  all_parse doc = false ->
  for_each scan_link doc acc w
  = (Raise (OtherError "ValueError"),
     mkWorld (files w) (trace w ++ flat_map link_log (good_prefix doc))).
Proof.
  revert acc w. induction doc as [|url doc IH]; intros acc w Hdoc;
    [discriminate|].
  cbn [links_parse forallb] in Hdoc. cbn [for_each parsed_prefix].
  unfold bind. destruct (is_bad url) eqn:Hurl.
  - rewrite (process_link_bad _ _ _ Hurl). cbn [flat_map].
    now rewrite trace_app_nil.
  - cbn [negb andb] in Hdoc.
    rewrite (process_link_spec _ _ _ Hurl), (IH _ _ Hdoc). cbn [files trace].
    cbn [flat_map]. now rewrite <- app_assoc.
Qed.

Lemma process_page_spec (page : Page) (doc : html) (w : world) :
  parsed_page page = inr doc ->
  all_parse doc = true ->
  scan_page page w
  = (Return (page_queries_of urlparse_query parse_qs doc),
     mkWorld (files w)
       (trace w
        ++ [EvLog (LogInfo ("Processing page: " +:+ Str.strip (title page)));
            EvFetch (title page)]
        ++ flat_map link_log doc)).
Proof.
  intros Hdoc Hlinks.
  unfold process_page, get_parsed_page, bind, info, emit, ret. simpl.
  rewrite Hdoc. simpl.
  rewrite (for_each_process_link _ _ _ Hlinks). simpl.
  unfold page_queries_of. now rewrite <- !app_assoc.
Qed.

Lemma process_page_bad_link (page : Page) (doc : html) (w : world) :
  parsed_page page = inr doc ->
  all_parse doc = false ->
  scan_page page w
  = (Raise (OtherError "ValueError"),
     mkWorld (files w)
       (trace w
        ++ [EvLog (LogInfo ("Processing page: " +:+ Str.strip (title page)));
            EvFetch (title page)]
        ++ flat_map link_log (good_prefix doc))).
Proof.
  intros Hdoc Hlinks.
  unfold process_page, get_parsed_page, bind, info, emit, ret. simpl.
  rewrite Hdoc. simpl.
  rewrite (for_each_process_link_bad _ _ _ Hlinks). simpl.
  now rewrite <- !app_assoc.
Qed.

Lemma process_page_raises (page : Page) (e : exn) (w : world) :
  parsed_page page = inl e ->
  scan_page page w
  = (Raise e,
     mkWorld (files w)
       (trace w
        ++ [EvLog (LogInfo ("Processing page: " +:+ Str.strip (title page)));
            EvFetch (title page)])).
Proof.
  intros Hdoc.
  unfold process_page, get_parsed_page, bind, info, emit, ret, raise. simpl.
  rewrite Hdoc. simpl. now rewrite <- !app_assoc.
Qed.

Lemma elem_of_collect (doc : html) (acc : gset string) (s : string) :
  s ∈ collect doc acc
  <-> s ∈ acc \/ exists url, url ∈ doc /\ candidate url = Some s.
Proof.
  unfold collect. revert acc.
  induction doc as [|url doc IH]; intros acc; simpl.
  - split; [auto | intros [H|(url & H & _)]; [exact H | inversion H]].
  - rewrite IH. split.
    + intros [H|(u & Hu & Hc)].
      * destruct (candidate url) as [search|] eqn:E; [|now left].
        apply elem_of_union in H. destruct H as [H1|H1]; [|now left].
        apply elem_of_singleton in H1. subst. right. exists url.
        split; [left | exact E].
      * right. exists u. split; [now right | exact Hc].
    + intros [H|(u & Hu & Hc)].
      * left. destruct (candidate url); [apply elem_of_union; now right | exact H].
      * apply elem_of_cons in Hu as [->|Hu].
        -- left. rewrite Hc. apply elem_of_union. left. now apply elem_of_singleton.
        -- right. exists u. auto.
Qed.

Lemma candidate_Some (url s : string) :
  candidate url = Some s
  <-> Str.contains "scryfall.com/search?q=" url = true
      /\ exists query later,
           urlparse_query url = Some query
           /\ Dict.get "q" (parse_qs query) = Some (s, later)
           /\ Dict.mem "utm_source" (parse_qs query) = false
           /\ Str.contains ":" s = true.
Proof.
  unfold candidate.
  destruct (Str.contains "scryfall.com/search?q=" url);
    [|split; [discriminate | intros (H & _); discriminate]].
  destruct (urlparse_query url) as [query|];
    [|split; [discriminate | intros (_ & q & l & H & _); discriminate]].
  destruct (Dict.get "q" (parse_qs query)) as [[search later]|] eqn:Hq.
  - destruct (Dict.mem "utm_source" (parse_qs query)) eqn:Hu.
    + split; [discriminate|].
      intros (_ & q & l & [= <-] & _ & H & _). congruence.
    + destruct (Str.contains ":" search) eqn:E.
      * split.
        -- intros [= <-]. split; [reflexivity|]. exists query, later. auto.
        -- intros (_ & q & l & [= <-] & Hq' & _). congruence.
      * split; [discriminate|].
        intros (_ & q & l & [= <-] & Hq' & _ & Hc). congruence.
  - split; [discriminate|].
    intros (_ & q & l & [= <-] & Hq' & _). congruence.
Qed.

Lemma links_parse_true (doc : html) :
  all_parse doc = true
  <-> forall url, url ∈ doc ->
                  Str.contains "scryfall.com/search?q=" url = true ->
                  exists query, urlparse_query url = Some query.
Proof.
  unfold links_parse. rewrite forallb_forall. unfold bad_link. split.
  - intros H url Hin Hsig. specialize (H url (proj1 (list_elem_of_In _ _) Hin)).
    rewrite Hsig in H. destruct (urlparse_query url) as [query|];
      [now exists query | discriminate].
  - intros H url Hin. apply list_elem_of_In in Hin.
    destruct (Str.contains "scryfall.com/search?q=" url) eqn:Hsig;
      [|reflexivity].
    destruct (H url Hin Hsig) as (query & ->). reflexivity.
Qed.

Lemma links_parse_false (doc : html) :
  all_parse doc = false
  <-> exists url, url ∈ doc
                  /\ Str.contains "scryfall.com/search?q=" url = true
                  /\ urlparse_query url = None.
Proof.
  split.
  - intros H. induction doc as [|url doc IH]; [discriminate|].
    cbn [links_parse forallb] in H.
    destruct (is_bad url) eqn:Hbad.
    + exists url. unfold bad_link in Hbad.
      apply andb_true_iff in Hbad as [Hsig Hnone].
      split; [apply list_elem_of_here|]. split; [exact Hsig|].
      now destruct (urlparse_query url).
    + destruct (IH H) as (u & Hin & Hu). exists u.
      split; [now apply list_elem_of_further | exact Hu].
  - intros (url & Hin & Hsig & Hnone).
    destruct (all_parse doc) eqn:E; [|reflexivity].
    destruct (proj1 (links_parse_true doc) E url Hin Hsig) as (query & Hq).
    congruence.
Qed.

Lemma sorted_properties (xs : list string) :
  NoDup xs ->
  StronglySorted String.le (Py.sorted xs)
  /\ NoDup (Py.sorted xs)
  /\ forall s, s ∈ Py.sorted xs <-> s ∈ xs.
Proof.
  intros Hnd. unfold Py.sorted. split; [|split].
  - apply StronglySorted_merge_sort; apply _.
  - now rewrite merge_sort_Permutation.
  - intros s. now rewrite merge_sort_Permutation.
Qed.

(** C5, as the code has it: on a page whose rendered content arrives and
    whose links with the search signature are all accepted by [urlparse],
    [process_page] returns a list that is sorted, has no duplicates, and
    holds exactly the first [q] values that [parse_qs] reports for the
    links with the search signature for which it reports no [utm_source]
    and whose value contains a colon; it writes no file.  When [urlparse]
    raises on one of the links with the signature, [process_page] raises
    that [ValueError] and returns no list. *)
Theorem process_page_sorted_distinct_queries
    (page : Page) (doc : html) (w : world) :
  parsed_page page = inr doc ->
  ((forall url, url ∈ doc ->
                Str.contains "scryfall.com/search?q=" url = true ->
                exists query, urlparse_query url = Some query) ->
   exists (found : list string) (w' : world),
     scan_page page w = (Return found, w')
     /\ files w' = files w
     /\ StronglySorted String.le found
     /\ NoDup found
     /\ forall s,
          s ∈ found
          <-> exists url query later,
                url ∈ doc
                /\ Str.contains "scryfall.com/search?q=" url = true
                /\ urlparse_query url = Some query
                /\ Dict.get "q" (parse_qs query) = Some (s, later)
                /\ Dict.mem "utm_source" (parse_qs query) = false
                /\ Str.contains ":" s = true)
  /\ ((exists url, url ∈ doc
                   /\ Str.contains "scryfall.com/search?q=" url = true
                   /\ urlparse_query url = None) ->
      exists w' : world,
        scan_page page w = (Raise (OtherError "ValueError"), w')
        /\ files w' = files w).
Proof.
  intros Hdoc. split.
  - intros Hlinks. apply links_parse_true in Hlinks.
    eexists. eexists.
    split; [apply process_page_spec; [exact Hdoc | exact Hlinks]|].
    split; [reflexivity|].
    unfold page_queries_of.
    destruct (sorted_properties (elements (collect doc ∅))) as (Hs & Hn & Hm).
    { apply NoDup_elements. }
    split; [exact Hs|]. split; [exact Hn|].
    intros s. rewrite Hm, elem_of_elements, elem_of_collect. split.
    + intros [H|(url & Hu & Hc)]; [now apply not_elem_of_empty in H|].
      apply candidate_Some in Hc as (H1 & query & later & H2 & H3 & H4 & H5).
      exists url, query, later. auto 7.
    + intros (url & query & later & Hu & H1 & H2 & H3 & H4 & H5).
      right. exists url. split; [exact Hu|]. apply candidate_Some.
      split; [exact H1|]. exists query, later. auto.
  - intros Hbad. apply links_parse_false in Hbad.
    eexists. split; [apply process_page_bad_link; [exact Hdoc | exact Hbad]|].
    reflexivity.
Qed.


End extractor.

Example process_page_sample :
  fst (process_page Lib.urlparse_query Lib.parse_qs sample_page empty_world)
  = Return ["c:r"; "t:creature"].
Proof. vm_compute. reflexivity. Qed.

Lemma process_page_sorted_distinct_queries_witness :
  (exists (found : list string) (w' : world),
     process_page Lib.urlparse_query Lib.parse_qs sample_page empty_world
     = (Return found, w')
     /\ files w' = files empty_world
     /\ StronglySorted String.le found
     /\ NoDup found
     /\ forall s,
          s ∈ found
          <-> exists url query later,
                url ∈ sample_doc
                /\ Str.contains "scryfall.com/search?q=" url = true
                /\ Lib.urlparse_query url = Some query
                /\ Dict.get "q" (Lib.parse_qs query) = Some (s, later)
                /\ Dict.mem "utm_source" (Lib.parse_qs query) = false
                /\ Str.contains ":" s = true)
  /\ (exists w' : world,
        process_page Lib.urlparse_query Lib.parse_qs bracket_page empty_world
        = (Raise (OtherError "ValueError"), w')
        /\ files w' = files empty_world).
Proof.
  split.
  - apply (proj1 (process_page_sorted_distinct_queries
                    Lib.urlparse_query Lib.parse_qs sample_page sample_doc
                    empty_world eq_refl)).
    apply links_parse_true. vm_compute. reflexivity.
  - apply (proj2 (process_page_sorted_distinct_queries
                    Lib.urlparse_query Lib.parse_qs bracket_page bracket_doc
                    empty_world eq_refl)).
    apply links_parse_false. vm_compute. reflexivity.
Defined.

(** C5 fails on the code as the specification has it: on a page that holds
    a link with the search signature whose host opens a square bracket and
    does not close it, [urlparse] raises and [process_page] returns no
    list; and a link that names [utm_source] without a value is not
    excluded, since [parse_qs] drops parameters without a value. *)
Lemma process_page_raises_on_unparsable_link :
  fst (process_page Lib.urlparse_query Lib.parse_qs bracket_page empty_world)
  = Raise (OtherError "ValueError")
  /\ fst (process_page Lib.urlparse_query Lib.parse_qs blank_utm_page
                       empty_world)
     = Return ["a:b"].
Proof. vm_compute. split; reflexivity. Qed.


(** ** Computations that only log *)

Lemma writes_app (xs ys : list event) :
  writes (xs ++ ys) = writes xs ++ writes ys.
Proof. unfold writes. apply filter_app. Qed.

Lemma fetched_app (t : string) (xs ys : list event) :
  fetched t (xs ++ ys) = (fetched t xs || fetched t ys)%bool.
Proof. unfold fetched. apply existsb_app. Qed.

Lemma only_logs_writes (evs : list event) :
  forallb is_log evs = true -> writes evs = [].
Proof.
  induction evs as [|[r|t|p c] evs IH]; simpl; try discriminate; auto.
Qed.

Lemma only_logs_fetched (t : string) (evs : list event) :
  forallb is_log evs = true -> fetched t evs = false.
Proof.
  induction evs as [|[r|t'|p c] evs IH]; simpl; try discriminate; auto.
Qed.

Lemma link_logs_only_logs uq pq (doc : html) :
  forallb is_log (flat_map (link_log uq pq) doc) = true.
Proof.
  induction doc as [|url doc IH]; simpl; [reflexivity|].
  rewrite forallb_app, IH, andb_true_r. unfold link_log.
  repeat match goal with
         | |- context [if ?b then _ else _] => destruct b
         | |- context [match ?x with Some _ => _ | None => _ end] => destruct x
         | |- context [let '(_, _) := ?p in _] => destruct p
         end; reflexivity.
Qed.

Lemma quiet_ret {A} (a : A) : quiet (ret a).
Proof.
  intros w. exists (Return a), []. split; [|reflexivity].
  unfold ret. now rewrite trace_app_nil.
Qed.

Lemma quiet_raise {A} (e : exn) : quiet (@raise A e).
Proof.
  intros w. exists (Raise e), []. split; [|reflexivity].
  unfold raise. now rewrite trace_app_nil.
Qed.

Lemma quiet_info (msg : string) : quiet (info msg).
Proof. intros w. exists (Return tt), [EvLog (LogInfo msg)]. now split. Qed.

Lemma quiet_bind {A B} (m : py A) (k : A -> py B) :
  quiet m -> (forall a, quiet (k a)) -> quiet (bind m k).
Proof.
  intros Hm Hk w. destruct (Hm w) as (res & logs & Hrun & Hlogs).
  unfold bind. rewrite Hrun. destruct res as [a|e].
  - destruct (Hk a (mkWorld (files w) (trace w ++ logs)))
      as (res' & logs' & Hrun' & Hlogs').
    exists res', (logs ++ logs'). rewrite Hrun'. simpl.
    rewrite <- app_assoc, forallb_app, Hlogs, Hlogs'. now split.
  - exists (Raise e), logs. now split.
Qed.

Lemma mapM_as_str (qs : list string) :
  mapM Py.as_str (map JStr qs) = Some qs.
Proof.
  induction qs as [|q qs IH]; simpl; [reflexivity|]. now rewrite IH.
Qed.

(** ** The crawl controller *)

Section controller.

Variable urlparse_query : string -> option string.
Variable parse_qs : string -> pydict (string * list string).
Variable with_suffix : string -> string -> string.
Variables output_file revision_cache_path : string.

Local Abbreviation link_log := (link_log urlparse_query parse_qs).
Local Abbreviation all_parse := (links_parse urlparse_query).
Local Abbreviation good_prefix := (parsed_prefix urlparse_query).
Local Abbreviation page_queries_of := (page_queries_of urlparse_query parse_qs).
Local Abbreviation fresh_record := (fresh_record urlparse_query parse_qs).
Local Abbreviation processed_state :=
  (processed_state urlparse_query parse_qs).
Local Abbreviation flush_events :=
  (flush_events with_suffix output_file revision_cache_path).
Local Abbreviation flushed_files :=
  (flushed_files with_suffix output_file revision_cache_path).
Local Abbreviation checkpoint_events :=
  (checkpoint_events with_suffix output_file revision_cache_path).
Local Abbreviation extract :=
  (extract_and_record urlparse_query parse_qs with_suffix
                      output_file revision_cache_path).
Local Abbreviation round :=
  (visit urlparse_query parse_qs with_suffix output_file revision_cache_path).

Local Abbreviation processing page :=
  [EvLog (LogInfo ("Processing page: " +:+ Str.strip (title page)));
   EvFetch (title page)].

Lemma consult_cache_quiet (t : string) (r : Z) (st : crawl_state) :
  quiet (consult_cache t r st).
Proof.
  unfold consult_cache.
  apply quiet_bind.
  - destruct (Py.truthy _); [|apply quiet_ret].
    apply quiet_bind; [|intros; apply quiet_ret].
    unfold Py.get. destruct (default JNull _);
      try apply quiet_raise; apply quiet_ret.
  - intros [|]; [|apply quiet_ret].
    apply quiet_bind.
    + unfold Py.get. destruct (default JNull _);
        try apply quiet_raise; apply quiet_ret.
    + intros cached.
      assert (G : forall msg,
                quiet (info msg ;;;
                       (cached' <- Py.iter_strs cached ;;
                        ret (Some (register_page_queries t cached'
                                                         (queries st)))))).
      { intros msg. apply quiet_bind; [apply quiet_info|]. intros _.
        apply quiet_bind; [|intros; apply quiet_ret].
        unfold Py.iter_strs.
        destruct (Py.iterate cached); [apply quiet_ret | apply quiet_raise]. }
      destruct cached; try apply G.
      apply quiet_bind; [apply quiet_info | intros; apply quiet_ret].
Qed.

Lemma iterate_strings (qs : list string) :
  Py.iterate (JList (map JStr qs)) = Return qs.
Proof.
  unfold Py.iterate. rewrite mapM_as_str.
  replace (existsb _ (map JStr qs)) with false; [reflexivity|].
  induction qs as [|q qs IH]; [reflexivity | exact IH].
Qed.

(** The entry of the page holds the revision of the page and a queries
    field that is not [None]: the field is iterated. *)
Lemma consult_cache_matching (t : string) (r : Z) (st : crawl_state)
    (w : world) (members : pydict json) (cached_queries : json) :
  Dict.get t (revision_cache st) = Some (JDict members) ->
  Dict.get "rev_id" members = Some (JInt r) ->
  Dict.get "queries" members = Some cached_queries ->
  cached_queries <> JNull ->
  consult_cache t r st w
  = (match Py.iterate cached_queries with
     | Return cached =>
         Return (Some (register_page_queries t cached (queries st)))
     | Raise e => Raise e
     end,
     mkWorld (files w)
       (trace w ++ [EvLog (LogInfo ("  Skipping unchanged page: " +:+ t
                                    +:+ " (rev " +:+ Str.of_Z r +:+ ")"))])).
Proof.
  intros Hentry Hrev Hqs Hnot. unfold consult_cache. rewrite Hentry. simpl.
  destruct members as [|m members]; [discriminate|].
  unfold bind, ret, Py.get, info, emit. simpl length.
  cbn [Py.truthy negb Nat.eqb].
  rewrite Hrev, Hqs. simpl. rewrite Z.eqb_refl.
  unfold Py.iter_strs, ret, raise.
  destruct cached_queries; try contradiction;
    destruct (Py.iterate _); reflexivity.
Qed.

(** The cache lets the page be skipped. *)
Lemma consult_cache_hit (t : string) (r : Z) (st : crawl_state) (w : world)
    (members : pydict json) (qs : list string) :
  Dict.get t (revision_cache st) = Some (JDict members) ->
  Dict.get "rev_id" members = Some (JInt r) ->
  Dict.get "queries" members = Some (JList (map JStr qs)) ->
  consult_cache t r st w
  = (Return (Some (register_page_queries t qs (queries st))),
     mkWorld (files w)
       (trace w ++ [EvLog (LogInfo ("  Skipping unchanged page: " +:+ t
                                    +:+ " (rev " +:+ Str.of_Z r +:+ ")"))])).
Proof.
  intros Hentry Hrev Hqs.
  rewrite (consult_cache_matching t r st w members (JList (map JStr qs))
             Hentry Hrev Hqs); [|discriminate].
  now rewrite iterate_strings.
Qed.

Lemma consult_cache_stale (t : string) (r : Z) (st : crawl_state) (w : world) :
  stale t r st ->
  exists logs,
    consult_cache t r st w = (Return None, mkWorld (files w) (trace w ++ logs))
    /\ (logs = []
        \/ logs = [EvLog (LogInfo ("  Cache missing queries for " +:+ t
                                   +:+ "; reprocessing"))]).
Proof.
  intros [Hnone|[(members & Hentry & Hrev)|(members & Hentry & Hqs)]];
    unfold consult_cache.
  - rewrite Hnone. simpl. exists []. rewrite trace_app_nil. now split; [|left].
  - rewrite Hentry. simpl. unfold bind, ret, Py.get.
    destruct (negb _); [rewrite Hrev|];
      exists []; rewrite trace_app_nil; now split; [|left].
  - rewrite Hentry. simpl. unfold bind, ret, Py.get.
    destruct (negb _);
      [|exists []; rewrite trace_app_nil; now split; [|left]].
    destruct (Py.eq_int _ r);
      [|exists []; rewrite trace_app_nil; now split; [|left]].
    rewrite Hqs. eexists. split; [reflexivity | now right].
Qed.

Lemma flush_spec (st : crawl_state) (w : world) :
  (dump_queries_to_file with_suffix (queries st) output_file ;;;
   dump_revision_cache (revision_cache st) revision_cache_path) w
  = (Return tt, mkWorld (flushed_files st (files w))
                        (trace w ++ flush_events st)).
Proof.
  unfold dump_queries_to_file, dump_revision_cache, bind, write_text, info,
    emit. simpl. now rewrite <- !app_assoc.
Qed.

Lemma extract_returns (idx : nat) (page : Page) (doc : html)
    (st : crawl_state) (w : world) :
  parsed_page page = inr doc ->
  all_parse doc = true ->
  extract idx page st w
  = (Return (processed_state page doc st),
     mkWorld (if checkpoint_due idx
              then flushed_files (processed_state page doc st) (files w)
              else files w)
       (trace w ++ processing page ++ flat_map link_log doc
        ++ checkpoint_events idx (processed_state page doc st))).
Proof.
  intros Hdoc Hlinks. unfold extract_and_record, bind.
  rewrite (process_page_spec _ _ _ _ _ Hdoc Hlinks).
  unfold checkpoint_events, checkpoint_due.
  destruct ((idx + 1) mod 100 =? 0)%nat.
  - unfold info, emit, ret. simpl.
    unfold flushed_files, flush_events, processed_state. simpl.
    rewrite <- ?app_assoc. reflexivity.
  - unfold ret. simpl. rewrite app_nil_r, <- ?app_assoc. reflexivity.
Qed.

Lemma extract_raises (idx : nat) (page : Page) (e : exn)
    (st : crawl_state) (w : world) :
  parsed_page page = inl e ->
  extract idx page st w
  = (Raise e, mkWorld (files w) (trace w ++ processing page)).
Proof.
  intros Hdoc. unfold extract_and_record, bind.
  now rewrite (process_page_raises _ _ _ _ _ Hdoc).
Qed.

Lemma extract_bad_link (idx : nat) (page : Page) (doc : html)
    (st : crawl_state) (w : world) :
  parsed_page page = inr doc ->
  all_parse doc = false ->
  extract idx page st w
  = (Raise (OtherError "ValueError"),
     mkWorld (files w)
       (trace w ++ processing page ++ flat_map link_log (good_prefix doc))).
Proof.
  intros Hdoc Hlinks. unfold extract_and_record, bind.
  now rewrite (process_page_bad_link _ _ _ _ _ Hdoc Hlinks).
Qed.

Lemma visit_seen (idx : nat) (page : Page) (st : crawl_state) (w : world) :
  title page ∈ seen_pages st -> round (idx, page) st w = (Return st, w).
Proof. intros H. unfold visit. now rewrite bool_decide_eq_true_2. Qed.

Lemma visit_fresh (idx : nat) (page : Page) (st : crawl_state) (w : world) :
  title page ∉ seen_pages st ->
  round (idx, page) st w
  = match consult_cache (title page) (latest_revision_id page)
                        (mark_seen (title page) st) w with
    | (Return (Some queries'), w1) =>
        (Return (mkState ({[title page]} ∪ seen_pages st) queries'
                         (revision_cache st)), w1)
    | (Return None, w1) =>
        try_except_timeout
          (extract idx page (mark_seen (title page) st))
          (skip_after_timeout (title page) (mark_seen (title page) st)) w1
    | (Raise e, w1) => (Raise e, w1)
    end.
Proof.
  intros H. unfold visit. rewrite bool_decide_eq_false_2 by exact H.
  unfold bind.
  destruct (consult_cache _ _ _ w) as [[[q|]|e] w1]; reflexivity.
Qed.

(** What the [try] statement does, by what the content request gives. *)
Lemma try_extract (idx : nat) (page : Page) (st : crawl_state) (w : world) :
  try_except_timeout (extract idx page st)
                     (skip_after_timeout (title page) st) w
  = match parsed_page page with
    | inr doc =>
        if all_parse doc then
          (Return (processed_state page doc st),
           mkWorld (if checkpoint_due idx
                    then flushed_files (processed_state page doc st) (files w)
                    else files w)
             (trace w ++ processing page ++ flat_map link_log doc
              ++ checkpoint_events idx (processed_state page doc st)))
        else
          (Raise (OtherError "ValueError"),
           mkWorld (files w)
             (trace w ++ processing page
              ++ flat_map link_log (good_prefix doc)))
    | inl (TimeoutError msg) =>
        (Return st,
         mkWorld (files w)
           (trace w ++ processing page
            ++ [EvLog (LogError ("  TimeoutError processing " +:+ title page
                                 +:+ ": " +:+ msg))]))
    | inl e => (Raise e, mkWorld (files w) (trace w ++ processing page))
    end.
Proof.
  unfold try_except_timeout.
  destruct (parsed_page page) as [e|doc] eqn:Hdoc.
  - rewrite (extract_raises _ _ _ _ _ Hdoc).
    destruct e; try reflexivity.
    unfold skip_after_timeout, bind, error, emit, ret. simpl.
    now rewrite <- !app_assoc.
  - destruct (all_parse doc) eqn:Hlinks.
    + now rewrite (extract_returns _ _ _ _ _ Hdoc Hlinks).
    + now rewrite (extract_bad_link _ _ _ _ _ Hdoc Hlinks).
Qed.

Lemma new_events_app2 (w : world) (fs : gmap string string)
    (xs ys : list event) :
  new_events w (mkWorld fs ((trace w ++ xs) ++ ys)) = xs ++ ys.
Proof. rewrite <- app_assoc. apply new_events_app. Qed.

Lemma fetched_processing (t : string) (r : log_record) (evs : list event) :
  fetched t (EvLog r :: EvFetch t :: evs) = true.
Proof. simpl. now rewrite String.eqb_refl. Qed.

Lemma writes_processing (t : string) (r : log_record) (evs : list event) :
  writes (EvLog r :: EvFetch t :: evs) = writes evs.
Proof. reflexivity. Qed.

(** The two ways in which a round of the loop ends without raising: the
    page was not extracted, the cache is as before and no file was written;
    or the page was extracted, the state is the processed one and the files
    written are those of the checkpoint, if one was due. *)
Lemma visit_outcomes (idx : nat) (page : Page) (st st' : crawl_state)
    (w w' : world) :
  round (idx, page) st w = (Return st', w') ->
  (extraction_succeeded page w w' = false
   /\ revision_cache st' = revision_cache st
   /\ writes (new_events w w') = [])
  \/ (exists doc,
        parsed_page page = inr doc
        /\ extraction_succeeded page w w' = true
        /\ st' = processed_state page doc (mark_seen (title page) st)
        /\ writes (new_events w w')
           = if checkpoint_due idx then writes (flush_events st') else []).
Proof.
  intros Hrun. unfold extraction_succeeded.
  destruct (decide (title page ∈ seen_pages st)) as [Hseen|Hfresh].
  - rewrite (visit_seen _ _ _ _ Hseen) in Hrun. injection Hrun as <- <-.
    left. rewrite new_events_same. now repeat split.
  - rewrite (visit_fresh _ _ _ _ Hfresh) in Hrun.
    destruct (consult_cache_quiet (title page) (latest_revision_id page)
                (mark_seen (title page) st) w) as (res & logs & Hc & Hlogs).
    rewrite Hc in Hrun. destruct res as [[q|]|e]; [| |discriminate].
    + injection Hrun as <- <-. left. rewrite new_events_app.
      rewrite (only_logs_fetched _ _ Hlogs), (only_logs_writes _ Hlogs).
      now repeat split.
    + rewrite try_extract in Hrun. simpl files in Hrun. simpl trace in Hrun.
      destruct (parsed_page page) as [e|doc].
      * left. rewrite andb_false_r.
        destruct e; try discriminate. injection Hrun as <- <-.
        rewrite new_events_app2, writes_app, (only_logs_writes _ Hlogs).
        now repeat split.
      * destruct (all_parse doc); [|discriminate].
        right. exists doc. injection Hrun as <- <-.
        rewrite new_events_app2, fetched_app, writes_app. cbn [app].
        rewrite fetched_processing, orb_true_r, writes_processing.
        rewrite writes_app, (only_logs_writes _ Hlogs).
        rewrite (only_logs_writes _ (link_logs_only_logs _ _ doc)).
        repeat split.
        unfold checkpoint_events.
        destruct (checkpoint_due idx); reflexivity.
Qed.

(** C3: a round of the loop that ends without raising has stored the fresh
    record of the page in the revision cache if the content of the page was
    requested and arrived, and has left the cache as it was if not.  When
    the page has to be processed and the request raises a [TimeoutError],
    the error is logged, the cache and the registry stay as they were, and
    the loop goes on with the pages that follow. *)
Theorem visit_updates_cache_iff_extracted :
  (forall idx page st w st' w',
     round (idx, page) st w = (Return st', w') ->
     (forall doc,
        parsed_page page = inr doc ->
        extraction_succeeded page w w' = true ->
        revision_cache st'
        = Dict.set (title page) (fresh_record page doc) (revision_cache st))
     /\ (extraction_succeeded page w w' = false ->
         revision_cache st' = revision_cache st))
  /\ (forall idx page rest st w w1 msg,
        title page ∉ seen_pages st ->
        consult_cache (title page) (latest_revision_id page)
                      (mark_seen (title page) st) w = (Return None, w1) ->
        parsed_page page = inl (TimeoutError msg) ->
        for_each round ((idx, page) :: rest) st w
        = for_each round rest
            (mkState ({[title page]} ∪ seen_pages st) (queries st)
                     (revision_cache st))
            (mkWorld (files w1)
               (trace w1
                ++ [EvLog (LogInfo ("Processing page: "
                                    +:+ Str.strip (title page)));
                    EvFetch (title page);
                    EvLog (LogError ("  TimeoutError processing "
                                     +:+ title page +:+ ": " +:+ msg))]))).
Proof.
  split.
  - intros idx page st w st' w' Hrun.
    destruct (visit_outcomes _ _ _ _ _ _ Hrun)
      as [(Hno & Hcache & _)|(doc & Hdoc & Hyes & Hst & _)].
    + split; [|intros _; exact Hcache]. intros doc _ Hyes. congruence.
    + split; [|intros Hno; congruence].
      intros doc' Hdoc' _. rewrite Hdoc in Hdoc'. injection Hdoc' as <-.
      now rewrite Hst.
  - intros idx page rest st w w1 msg Hfresh Hconsult Htimeout.
    cbn [for_each]. unfold bind at 1.
    rewrite (visit_fresh _ _ _ _ Hfresh), Hconsult, try_extract, Htimeout.
    reflexivity.
Qed.

(** C4, as the code has it.  A page that is met for the first time in the
    run and whose cache entry holds the latest revision id of the page and
    a queries field that is not [None] is not fetched: the round logs that
    the page is skipped and registers under the title of the page what the
    iteration of the field yields.  For a list of strings that is the list,
    so that the cached queries are registered; for a string it is its
    characters, for an object its keys; a number or a boolean, and a list
    that holds a list or an object, make the round raise [TypeError] once
    the skip is logged.  A page whose entry is missing, holds another
    revision id or holds no queries goes through the [try] statement, which
    requests its content; when the content arrives and [urlparse] accepts
    its links, the round registers the queries that [process_page] returns
    and stores the record of the revision with them. *)
Theorem visit_skips_unchanged_page :
  (forall idx page st w members qs,
     title page ∉ seen_pages st ->
     Dict.get (title page) (revision_cache st) = Some (JDict members) ->
     Dict.get "rev_id" members = Some (JInt (latest_revision_id page)) ->
     Dict.get "queries" members = Some (JList (map JStr qs)) ->
     round (idx, page) st w
     = (Return (mkState ({[title page]} ∪ seen_pages st)
                  (register_page_queries (title page) qs (queries st))
                  (revision_cache st)),
        mkWorld (files w)
          (trace w
           ++ [EvLog (LogInfo ("  Skipping unchanged page: " +:+ title page
                               +:+ " (rev "
                               +:+ Str.of_Z (latest_revision_id page)
                               +:+ ")"))])))
  /\ (forall idx page st w members cached_queries,
        title page ∉ seen_pages st ->
        Dict.get (title page) (revision_cache st) = Some (JDict members) ->
        Dict.get "rev_id" members = Some (JInt (latest_revision_id page)) ->
        Dict.get "queries" members = Some cached_queries ->
        cached_queries <> JNull ->
        round (idx, page) st w
        = (match Py.iterate cached_queries with
           | Return cached =>
               Return (mkState ({[title page]} ∪ seen_pages st)
                         (register_page_queries (title page) cached
                                                (queries st))
                         (revision_cache st))
           | Raise e => Raise e
           end,
           mkWorld (files w)
             (trace w
              ++ [EvLog (LogInfo ("  Skipping unchanged page: " +:+ title page
                                  +:+ " (rev "
                                  +:+ Str.of_Z (latest_revision_id page)
                                  +:+ ")"))])))
  /\ ((forall qs, Py.iterate (JList (map JStr qs)) = Return qs)
      /\ (forall s, Py.iterate (JStr s) = Return (Str.code_points s))
      /\ (forall members, Py.iterate (JDict members)
                          = Return (Dict.keys members))
      /\ (forall n, Py.iterate (JInt n) = Raise TypeError)
      /\ (forall b, Py.iterate (JBool b) = Raise TypeError)
      /\ (forall before inner after,
            Py.iterate (JList (before ++ JList inner :: after))
            = Raise TypeError)
      /\ (forall before inner after,
            Py.iterate (JList (before ++ JDict inner :: after))
            = Raise TypeError))
  /\ (forall idx page st w,
        title page ∉ seen_pages st ->
        stale (title page) (latest_revision_id page) st ->
        exists logs,
          (logs = []
           \/ logs = [EvLog (LogInfo ("  Cache missing queries for "
                                      +:+ title page +:+ "; reprocessing"))])
          /\ round (idx, page) st w
             = try_except_timeout
                 (extract idx page (mark_seen (title page) st))
                 (skip_after_timeout (title page) (mark_seen (title page) st))
                 (mkWorld (files w) (trace w ++ logs))
          /\ fetched (title page) (new_events w (snd (round (idx, page) st w)))
             = true)
  /\ (forall idx page st w doc,
        title page ∉ seen_pages st ->
        stale (title page) (latest_revision_id page) st ->
        parsed_page page = inr doc ->
        (forall url, url ∈ doc ->
                     Str.contains "scryfall.com/search?q=" url = true ->
                     exists query, urlparse_query url = Some query) ->
        fst (round (idx, page) st w)
        = Return (mkState ({[title page]} ∪ seen_pages st)
                    (register_page_queries (title page) (page_queries_of doc)
                                           (queries st))
                    (Dict.set (title page)
                       (current_revision_record page
                          (Some (latest_revision_id page))
                          (Some (page_queries_of doc)))
                       (revision_cache st)))
        /\ forall w0,
             fst (process_page urlparse_query parse_qs page w0)
             = Return (page_queries_of doc)).
Proof.
  split; [|split; [|split; [|split]]].
  - intros idx page st w members qs Hfresh Hentry Hrev Hqs.
    rewrite (visit_fresh _ _ _ _ Hfresh).
    now rewrite (consult_cache_hit _ _ (mark_seen (title page) st) w
                   members qs Hentry Hrev Hqs).
  - intros idx page st w members cached_queries Hfresh Hentry Hrev Hqs Hnot.
    rewrite (visit_fresh _ _ _ _ Hfresh).
    rewrite (consult_cache_matching _ _ (mark_seen (title page) st) w
               members cached_queries Hentry Hrev Hqs Hnot).
    now destruct (Py.iterate cached_queries).
  - split; [exact iterate_strings|]. repeat split.
    + intros before inner after. unfold Py.iterate.
      now rewrite existsb_app; cbn [existsb]; rewrite orb_true_r.
    + intros before inner after. unfold Py.iterate.
      now rewrite existsb_app; cbn [existsb]; rewrite orb_true_r.
  - intros idx page st w Hfresh Hstale.
    destruct (consult_cache_stale (title page) (latest_revision_id page)
                (mark_seen (title page) st) w Hstale) as (logs & Hc & Hlogs).
    exists logs. split; [exact Hlogs|].
    rewrite (visit_fresh _ _ _ _ Hfresh), Hc. split; [reflexivity|].
    rewrite try_extract. simpl files. simpl trace.
    destruct (parsed_page page) as [[]|doc]; [| | | | | |destruct (all_parse doc)];
      simpl snd;
      rewrite new_events_app2, fetched_app; cbn [app];
      rewrite fetched_processing; apply orb_true_r.
  - intros idx page st w doc Hfresh Hstale Hdoc Hlinks.
    apply links_parse_true in Hlinks.
    destruct (consult_cache_stale (title page) (latest_revision_id page)
                (mark_seen (title page) st) w Hstale) as (logs & Hc & _).
    split.
    + rewrite (visit_fresh _ _ _ _ Hfresh), Hc, try_extract, Hdoc, Hlinks.
      reflexivity.
    + intros w0. now rewrite (process_page_spec _ _ _ _ _ Hdoc Hlinks).
Qed.

(** C2, as the code has it: a round of the loop writes files only when its
    page was extracted and the position of the page in the listing of its
    template, counted from one, is a multiple of 100, and then it writes
    the registry and the cache as they are after the round; the iteration
    over a template writes nothing of its own, at its end or elsewhere; and
    [main], once the crawl has returned, ends with one flush of the
    registry and the cache. *)
Theorem checkpoint_by_position_and_final_flush :
  (forall idx page st w st' w',
     round (idx, page) st w = (Return st', w') ->
     writes (new_events w w')
     = if (extraction_succeeded page w w' && checkpoint_due idx)%bool
       then writes (flush_events st') else [])
  /\ (forall site template st w,
        crawl_template urlparse_query parse_qs with_suffix site output_file
                       revision_cache_path template st w
        = for_each round (Py.enumerate (site template)) st
            (mkWorld (files w)
               (trace w ++ [EvLog (LogInfo ("Processing template: "
                                            +:+ template))])))
  /\ (forall json_load site w,
        main urlparse_query parse_qs with_suffix json_load site output_file
             revision_cache_path w
        = match crawl urlparse_query parse_qs with_suffix json_load site
                      output_file revision_cache_path w with
          | (Return st, w2) =>
              (Return tt,
               mkWorld (flushed_files st (files w2))
                       (trace w2 ++ flush_events st))
          | (Raise e, w2) => (Raise e, w2)
          end).
Proof.
  split; [|split].
  - intros idx page st w st' w' Hrun.
    destruct (visit_outcomes _ _ _ _ _ _ Hrun)
      as [(Hno & _ & Hw)|(doc & _ & Hyes & _ & Hw)].
    + now rewrite Hno, Hw.
    + now rewrite Hyes, Hw.
  - reflexivity.
  - intros json_load site w. unfold main, crawl, bind.
    destruct (load_revision_cache json_load revision_cache_path w)
      as [[loaded|e] w1]; [|reflexivity].
    destruct (for_each _ TEMPLATES_TO_CHECK _ w1) as [[st|e] w2];
      [|reflexivity].
    pose proof (flush_spec st w2) as Hflush. unfold bind in Hflush.
    exact Hflush.
Qed.

End controller.

(** ** The controller on concrete runs *)

Lemma visit_updates_cache_iff_extracted_witness :
  revision_cache (mark_seen "Goblin" fresh_state) = revision_cache fresh_state
  /\ revision_cache
       (processed_state Lib.urlparse_query Lib.parse_qs sample_page sample_doc
                        (mark_seen "Dragon" fresh_state))
     = Dict.set "Dragon"
         (fresh_record Lib.urlparse_query Lib.parse_qs sample_page sample_doc)
         (revision_cache fresh_state)
  /\ for_each (visit Lib.urlparse_query Lib.parse_qs Lib.with_suffix
                     queries_path cache_path)
       [(0%nat, timeout_page); (1%nat, sample_page)] fresh_state empty_world
     = for_each (visit Lib.urlparse_query Lib.parse_qs Lib.with_suffix
                       queries_path cache_path)
         [(1%nat, sample_page)]
         (mkState ({["Goblin"]} ∪ ∅) [] [])
         (mkWorld ∅
            [EvLog (LogInfo "Processing page: Goblin");
             EvFetch "Goblin";
             EvLog (LogError "  TimeoutError processing Goblin: timed out")]).
Proof.
  pose proof (visit_updates_cache_iff_extracted
                Lib.urlparse_query Lib.parse_qs Lib.with_suffix
                queries_path cache_path) as [Hiff Htimeout].
  split; [|split].
  - apply (proj2 (Hiff 0%nat timeout_page fresh_state empty_world
                    (mark_seen "Goblin" fresh_state)
                    (mkWorld ∅
                       [EvLog (LogInfo "Processing page: Goblin");
                        EvFetch "Goblin";
                        EvLog (LogError
                          "  TimeoutError processing Goblin: timed out")])
                    eq_refl)).
    reflexivity.
  - apply (proj1 (Hiff 0%nat sample_page fresh_state empty_world
                    (processed_state Lib.urlparse_query Lib.parse_qs
                       sample_page sample_doc (mark_seen "Dragon" fresh_state))
                    (snd (visit Lib.urlparse_query Lib.parse_qs Lib.with_suffix
                            queries_path cache_path (0%nat, sample_page)
                            fresh_state empty_world))
                    ltac:(vm_compute; reflexivity)) sample_doc eq_refl).
    vm_compute. reflexivity.
  - apply (Htimeout 0%nat timeout_page [(1%nat, sample_page)] fresh_state
             empty_world empty_world "timed out").
    + apply not_elem_of_empty.
    + reflexivity.
    + reflexivity.
Defined.

(** The example of the specification: the cache holds revision 42 of the
    page with the queries [a:b], and the page reports revision 42.  Then
    the same page against a cache whose queries are the text [a:a], and
    the page after one more edit. *)
Lemma visit_skips_unchanged_page_witness :
  visit Lib.urlparse_query Lib.parse_qs Lib.with_suffix queries_path
        cache_path (0%nat, sample_page) cached_state empty_world
  = (Return (mkState ({["Dragon"]} ∪ ∅) [("a:b", ["Dragon"])] one_page_cache),
     mkWorld ∅ [EvLog (LogInfo "  Skipping unchanged page: Dragon (rev 42)")])
  /\ visit Lib.urlparse_query Lib.parse_qs Lib.with_suffix queries_path
           cache_path (0%nat, sample_page) text_queries_state empty_world
     = (Return (mkState ({["Dragon"]} ∪ ∅)
                  (register_page_queries "Dragon" ["a"; ":"; "a"] [])
                  (revision_cache text_queries_state)),
        mkWorld ∅
          [EvLog (LogInfo "  Skipping unchanged page: Dragon (rev 42)")])
  /\ fetched "Dragon"
       (new_events empty_world
          (snd (visit Lib.urlparse_query Lib.parse_qs Lib.with_suffix
                      queries_path cache_path (0%nat, edited_page)
                      cached_state empty_world)))
     = true
  /\ fst (visit Lib.urlparse_query Lib.parse_qs Lib.with_suffix
                queries_path cache_path (0%nat, edited_page)
                cached_state empty_world)
     = Return (mkState ({["Dragon"]} ∪ ∅)
                 (register_page_queries "Dragon"
                    (page_queries_of Lib.urlparse_query Lib.parse_qs
                                     sample_doc) [])
                 (Dict.set "Dragon"
                    (current_revision_record edited_page (Some 43)
                       (Some (page_queries_of Lib.urlparse_query Lib.parse_qs
                                              sample_doc)))
                    one_page_cache)).
Proof.
  pose proof (visit_skips_unchanged_page
                Lib.urlparse_query Lib.parse_qs Lib.with_suffix
                queries_path cache_path)
    as (Hskip & Hany & _ & Hstale & Hextract).
  assert (Hold : stale (title edited_page) (latest_revision_id edited_page)
                       cached_state).
  { right. left.
    exists [("rev_id", JInt 42); ("timestamp", JStr "2024-05-01T10:00:00");
            ("queries", JList [JStr "a:b"])].
    split; reflexivity. }
  split; [|split; [|split]].
  - apply (Hskip 0%nat sample_page cached_state empty_world
             [("rev_id", JInt 42); ("timestamp", JStr "2024-05-01T10:00:00");
              ("queries", JList [JStr "a:b"])]
             ["a:b"]).
    + apply not_elem_of_empty.
    + reflexivity.
    + reflexivity.
    + reflexivity.
  - apply (Hany 0%nat sample_page text_queries_state empty_world
             [("rev_id", JInt 42); ("queries", JStr "a:a")] (JStr "a:a")).
    + apply not_elem_of_empty.
    + reflexivity.
    + reflexivity.
    + reflexivity.
    + discriminate.
  - destruct (Hstale 0%nat edited_page cached_state empty_world)
      as (logs & _ & _ & Hfetched).
    + apply not_elem_of_empty.
    + exact Hold.
    + exact Hfetched.
  - apply (Hextract 0%nat edited_page cached_state empty_world sample_doc).
    + apply not_elem_of_empty.
    + exact Hold.
    + reflexivity.
    + apply links_parse_true. vm_compute. reflexivity.
Defined.

(** C4 fails on the code as the specification has it: a queries field that
    is a text is registered character by character, so that the page is
    listed twice under [a] and the cached queries are not what is
    registered; and a queries field that is a number makes the round raise
    [TypeError]. *)
Lemma cached_text_is_registered_by_character :
  fst (visit Lib.urlparse_query Lib.parse_qs Lib.with_suffix queries_path
             cache_path (0%nat, sample_page) text_queries_state empty_world)
  = Return (mkState ({["Dragon"]} ∪ ∅)
              [("a", ["Dragon"; "Dragon"]); (":", ["Dragon"])]
              (revision_cache text_queries_state))
  /\ fst (visit Lib.urlparse_query Lib.parse_qs Lib.with_suffix queries_path
                cache_path (0%nat, sample_page) number_queries_state
                empty_world)
     = Raise TypeError.
Proof. vm_compute. split; reflexivity. Qed.

Lemma checkpoint_by_position_and_final_flush_witness :
  writes
    (new_events empty_world
       (snd (visit Lib.urlparse_query Lib.parse_qs Lib.with_suffix
                   queries_path cache_path (99%nat, sample_page)
                   fresh_state empty_world)))
  = writes
      (flush_events Lib.with_suffix queries_path cache_path
         (processed_state Lib.urlparse_query Lib.parse_qs sample_page
                          sample_doc (mark_seen "Dragon" fresh_state)))
  /\ writes
       (new_events empty_world
          (snd (visit Lib.urlparse_query Lib.parse_qs Lib.with_suffix
                      queries_path cache_path (100%nat, sample_page)
                      fresh_state empty_world)))
     = [].
Proof.
  pose proof (proj1 (checkpoint_by_position_and_final_flush
                       Lib.urlparse_query Lib.parse_qs Lib.with_suffix
                       queries_path cache_path)) as Hround.
  assert (Hdue :
            visit Lib.urlparse_query Lib.parse_qs Lib.with_suffix
                  queries_path cache_path (99%nat, sample_page)
                  fresh_state empty_world
            = (Return (processed_state Lib.urlparse_query Lib.parse_qs
                         sample_page sample_doc
                         (mark_seen "Dragon" fresh_state)),
               snd (visit Lib.urlparse_query Lib.parse_qs Lib.with_suffix
                          queries_path cache_path (99%nat, sample_page)
                          fresh_state empty_world)))
    by (vm_compute; reflexivity).
  assert (Hnot_due :
            visit Lib.urlparse_query Lib.parse_qs Lib.with_suffix
                  queries_path cache_path (100%nat, sample_page)
                  fresh_state empty_world
            = (Return (processed_state Lib.urlparse_query Lib.parse_qs
                         sample_page sample_doc
                         (mark_seen "Dragon" fresh_state)),
               snd (visit Lib.urlparse_query Lib.parse_qs Lib.with_suffix
                          queries_path cache_path (100%nat, sample_page)
                          fresh_state empty_world)))
    by (vm_compute; reflexivity).
  split.
  - rewrite (Hround _ _ _ _ _ _ Hdue). vm_compute. reflexivity.
  - rewrite (Hround _ _ _ _ _ _ Hnot_due). vm_compute. reflexivity.
Defined.

(** C2 fails on the code: on a wiki where sixty pages transclude each of
    the two templates, all 120 pages are fetched and extracted without an
    error, and the cache file is written once, at the very end; no write
    follows the first template, and 120 extractions precede the only
    flush. *)
Lemma no_flush_before_the_end_of_the_run :
  fst long_run = Return tt
  /\ length (filter is_error_record (trace (snd long_run))) = 0%nat
  /\ longest_unflushed cache_path (trace (snd long_run)) 0 = 120%nat
  /\ length (written_to cache_path (trace (snd long_run))) = 1%nat
  /\ length (written_to queries_path (trace (snd long_run))) = 1%nat.
Proof. vm_compute. repeat split. Qed.

(** ** Strings *)

Lemma str_app_cons (c : ascii) (s t : string) :
  String c s +:+ t = String c (s +:+ t).
Proof. reflexivity. Qed.

Lemma str_app_assoc (s t u : string) : (s +:+ t) +:+ u = s +:+ (t +:+ u).
Proof.
  induction s as [|c s IH]; [reflexivity|].
  rewrite !str_app_cons. now rewrite IH.
Qed.

Lemma str_length_app (s t : string) :
  String.length (s +:+ t) = (String.length s + String.length t)%nat.
Proof.
  induction s as [|c s IH]; [reflexivity|].
  rewrite str_app_cons. simpl. now rewrite IH.
Qed.

Lemma str_app_nil_r (s : string) : s +:+ EmptyString = s.
Proof. induction s as [|c s IH]; [reflexivity|]. rewrite str_app_cons.
  now rewrite IH. Qed.

(** ** Reading back what the encoder wrote *)

Module JsonFacts.
Import Json.

(** *** String literals *)

Lemma scanstring_escape_char (c : ascii) (tail : string) :
  scanstring (escape_char c +:+ tail) = prepend (String c "") (scanstring tail).
Proof.
  destruct c as [[] [] [] [] [] [] [] []]; try reflexivity;
    destruct tail as [|b [|u tail]]; reflexivity.
Qed.

Lemma scanstring_escape (s rest : string) :
  scanstring (escape s +:+ String dquote rest) = Return (s, rest).
Proof.
  induction s as [|c s IH]; [reflexivity|].
  cbn [escape]. rewrite str_app_assoc, scanstring_escape_char, IH.
  reflexivity.
Qed.

Lemma scan_basestring (fuel : nat) (s rest : string) :
  scan_once (S fuel) (encode_basestring s +:+ rest) = Return (JStr s, rest).
Proof.
  unfold encode_basestring. rewrite str_app_cons, str_app_assoc.
  cbn [scan_once]. rewrite Ascii.eqb_refl.
  rewrite str_app_cons. now rewrite scanstring_escape.
Qed.

(** *** Integers *)

Lemma is_digit_cases (c : ascii) :
  is_digit c = true ->
  c = "0"%char \/ c = "1"%char \/ c = "2"%char \/ c = "3"%char
  \/ c = "4"%char \/ c = "5"%char \/ c = "6"%char \/ c = "7"%char
  \/ c = "8"%char \/ c = "9"%char.
Proof.
  unfold is_digit, digit_of.
  repeat match goal with
         | |- context [Ascii.eqb c ?d] =>
             destruct (Ascii.eqb_spec c d); [subst; tauto|]
         end.
  discriminate.
Qed.

Lemma scan_digits_stop (rest : string) :
  delimited rest = true -> scan_digits rest = (Decimal.Nil, rest).
Proof.
  destruct rest as [|c rest]; [reflexivity|]. cbn [delimited scan_digits].
  unfold is_digit. destruct (digit_of c); [discriminate | reflexivity].
Qed.

Lemma scan_digits_uint (d : Decimal.uint) (rest : string) :
  delimited rest = true ->
  scan_digits (NilEmpty.string_of_uint d +:+ rest) = (d, rest).
Proof.
  intros Hrest.
  induction d; cbn [NilEmpty.string_of_uint];
    [now apply scan_digits_stop|..];
    rewrite str_app_cons; cbn [scan_digits]; cbv [digit_of Ascii.eqb Bool.eqb];
    now rewrite IHd.
Qed.

Lemma continues_as_float_delimited (rest : string) :
  delimited rest = true -> continues_as_float rest = false.
Proof.
  destruct rest as [|c [|d rest]]; try reflexivity.
  cbn [delimited continues_as_float].
  destruct (Ascii.eqb c "."), (Ascii.eqb c "e"), (Ascii.eqb c "E");
    rewrite ?orb_true_r; try discriminate; reflexivity.
Qed.

(** The decimal digits of a positive number start with a digit from 1 to 9. *)
Lemma pos_to_uint_head (p : positive) :
  match Pos.to_uint p with
  | Decimal.Nil | Decimal.D0 _ => False
  | _ => True
  end.
Proof.
  pose proof (DecimalPos.Unsigned.to_of (Pos.to_uint p)) as Hnorm.
  rewrite DecimalPos.Unsigned.of_to in Hnorm. cbn [N.to_uint] in Hnorm.
  pose proof (DecimalPos.Unsigned.to_uint_nonzero p) as Hnz.
  pose proof (DecimalFacts.nzhead_nonzero (Pos.to_uint p)) as Hhead.
  unfold Decimal.unorm in Hnorm.
  destruct (Decimal.nzhead (Pos.to_uint p)) eqn:E;
    rewrite Hnorm; try exact I.
  - apply Hnz. now rewrite Hnorm.
  - now apply (Hhead u).
Qed.

Lemma scan_natural_pos (p : positive) (rest : string) :
  delimited rest = true ->
  scan_natural (NilZero.string_of_uint (Pos.to_uint p) +:+ rest)
  = Some (Pos.to_uint p, rest)
  /\ exists c s,
       NilZero.string_of_uint (Pos.to_uint p) = String c s
       /\ is_digit c = true.
Proof.
  intros Hrest. pose proof (pos_to_uint_head p) as Hhead.
  pose proof (scan_digits_uint (Pos.to_uint p) rest Hrest) as Hdigits.
  destruct (Pos.to_uint p) as [|d|d|d|d|d|d|d|d|d|d]; try contradiction;
    cbn [NilZero.string_of_uint NilEmpty.string_of_uint] in *;
    rewrite str_app_cons in *;
    (split; [unfold scan_natural; cbv [Ascii.eqb Bool.eqb is_digit digit_of];
             now rewrite Hdigits
            | eexists; eexists; split; reflexivity]).
Qed.

Lemma scan_number_of_Z (n : Z) (rest : string) :
  delimited rest = true ->
  scan_number (Str.of_Z n +:+ rest) = Some (Return (JInt n, rest)).
Proof.
  intros Hrest. pose proof (continues_as_float_delimited rest Hrest) as Hfloat.
  unfold Str.of_Z. pose proof (DecimalZ.of_to n) as Hn.
  destruct n as [|p|p]; cbn [Z.to_int NilZero.string_of_int] in *.
  - change (scan_number (String "0" rest) = Some (Return (JInt 0, rest))).
    unfold scan_number, scan_natural. cbv [Ascii.eqb Bool.eqb].
    now rewrite Hfloat.
  - destruct (scan_natural_pos p rest Hrest) as (Hnat & c & s & Hs & Hc).
    unfold scan_number. rewrite Hs in *. rewrite str_app_cons in *.
    assert (Hminus : Ascii.eqb c "-" = false).
    { apply is_digit_cases in Hc.
      destruct Hc as [->|[->|[->|[->|[->|[->|[->|[->|[->| ->]]]]]]]]];
        reflexivity. }
    rewrite Hminus, Hnat, Hfloat. now rewrite Hn.
  - destruct (scan_natural_pos p rest Hrest) as (Hnat & _).
    unfold scan_number. rewrite str_app_cons. cbn [Ascii.eqb Bool.eqb].
    rewrite Hnat, Hfloat. now rewrite Hn.
Qed.

(** The first character of a decimal integer. *)
Lemma of_Z_head (n : Z) :
  exists c s, Str.of_Z n = String c s
              /\ (c = "-"%char \/ is_digit c = true).
Proof.
  unfold Str.of_Z. destruct n as [|p|p]; cbn [Z.to_int NilZero.string_of_int].
  - exists "0"%char, EmptyString. split; [reflexivity | now right].
  - destruct (scan_natural_pos p EmptyString eq_refl) as (_ & c & s & Hs & Hc).
    exists c, s. split; [exact Hs | now right].
  - eexists. eexists. split; [reflexivity | now left].
Qed.

Lemma scan_once_number (fuel : nat) (c : ascii) (s : string)
    (r : outcome (json * string)) :
  c = "-"%char \/ is_digit c = true ->
  scan_number (String c s) = Some r ->
  scan_once (S fuel) (String c s) = r.
Proof.
  intros Hc Hnum.
  assert (Hcases : c = "-"%char \/ c = "0"%char \/ c = "1"%char
                   \/ c = "2"%char \/ c = "3"%char \/ c = "4"%char
                   \/ c = "5"%char \/ c = "6"%char \/ c = "7"%char
                   \/ c = "8"%char \/ c = "9"%char).
  { destruct Hc as [Hc|Hc]; [now left | right; now apply is_digit_cases]. }
  destruct Hcases as [->|[->|[->|[->|[->|[->|[->|[->|[->|[->| ->]]]]]]]]]];
    cbn [scan_once]; cbv [Ascii.eqb Bool.eqb dquote];
    unfold scan_literal; cbn [drop_prefix]; cbv [Ascii.eqb Bool.eqb];
    now rewrite Hnum.
Qed.

Lemma scan_integer (fuel : nat) (n : Z) (rest : string) :
  delimited rest = true ->
  scan_once (S fuel) (Str.of_Z n +:+ rest) = Return (JInt n, rest).
Proof.
  intros Hrest. pose proof (scan_number_of_Z n rest Hrest) as Hnum.
  destruct (of_Z_head n) as (c & s & Hs & Hc).
  rewrite Hs in *. rewrite str_app_cons in *.
  now apply scan_once_number.
Qed.

(** *** White space and first characters *)

Lemma skip_ws_indent (level : nat) (rest : string) :
  skip_ws (indent level +:+ rest) = skip_ws rest.
Proof. induction level as [|l IH]; [reflexivity | exact IH]. Qed.

Lemma skip_ws_newline_indent (level : nat) (rest : string) :
  skip_ws (newline_indent level +:+ rest) = skip_ws rest.
Proof. exact (skip_ws_indent level rest). Qed.

Lemma digit_opens_value (c : ascii) :
  c = "-"%char \/ is_digit c = true -> opens_value c = true.
Proof.
  intros [->|Hc]; [reflexivity|].
  apply is_digit_cases in Hc.
  destruct Hc as [->|[->|[->|[->|[->|[->|[->|[->|[->| ->]]]]]]]]];
    reflexivity.
Qed.

Lemma encode_head (level : nat) (v : json) :
  exists c s, encode level v = String c s /\ opens_value c = true.
Proof.
  destruct v as [|[]|n|s|[|x xs]|[|kv kvs]];
    try (eexists; eexists; split; reflexivity).
  destruct (of_Z_head n) as (c & s & Hs & Hc).
  exists c, s. split; [exact Hs | now apply digit_opens_value].
Qed.

Lemma skip_ws_opens (c : ascii) (s : string) :
  opens_value c = true -> skip_ws (String c s) = String c s.
Proof.
  unfold opens_value. cbn [skip_ws]. now destruct (is_ws c).
Qed.

Lemma opens_value_not_bracket (c : ascii) :
  opens_value c = true -> Ascii.eqb c "]" = false.
Proof. unfold opens_value. destruct (Ascii.eqb c "]"); [|reflexivity].
  now rewrite andb_false_r. Qed.

(** *** Induction on values *)

Lemma json_induction (P : json -> Prop) :
  P JNull ->
  (forall b, P (JBool b)) ->
  (forall n, P (JInt n)) ->
  (forall s, P (JStr s)) ->
  (forall items, Forall P items -> P (JList items)) ->
  (forall members, Forall (fun kv => P (snd kv)) members -> P (JDict members)) ->
  forall v, P v.
Proof.
  intros Hnull Hbool Hint Hstr Hlist Hdict.
  fix IH 1. intros [|b|n|s|items|members].
  - exact Hnull.
  - apply Hbool.
  - apply Hint.
  - apply Hstr.
  - apply Hlist. induction items as [|x items IHitems]; constructor.
    + apply IH.
    + exact IHitems.
  - apply Hdict. induction members as [|[k x] members IHmembers]; constructor.
    + apply IH.
    + exact IHmembers.
Qed.

(** *** Arrays *)

Lemma separated_head (sep : string) (c : ascii) (s : string)
    (chunks : list string) (tail : string) :
  exists t, separated sep (String c s :: chunks) +:+ tail = String c t.
Proof.
  destruct chunks as [|y ys]; cbn [separated]; rewrite str_app_cons; eauto.
Qed.

Lemma skip_ws_items (level : nat) (x : json) (xs : list json) (sep tail : string) :
  exists c t,
    separated sep (map (encode level) (x :: xs)) +:+ tail = String c t
    /\ opens_value c = true.
Proof.
  cbn [map]. destruct (encode_head level x) as (c & s & Hs & Hc). rewrite Hs.
  destruct (separated_head sep c s (map (encode level) xs) tail) as (t & Ht).
  exists c, t. now split.
Qed.

Lemma separated_more (sep a b : string) (chunks : list string) (tail : string) :
  separated sep (a :: b :: chunks) +:+ tail
  = a +:+ sep +:+ separated sep (b :: chunks) +:+ tail.
Proof. cbn [separated]. now rewrite !str_app_assoc. Qed.

Lemma scan_items_last (fuel : nat) (s r r1 : string) (v : json)
    (acc : list json) :
  scan_once fuel s = Return (v, r) ->
  skip_ws r = String "]" r1 ->
  scan_items (S fuel) s acc = Return (JList (rev acc ++ [v]), r1).
Proof. intros Hv Hr. cbn [scan_items]. now rewrite Hv, Hr. Qed.

Lemma scan_items_more (fuel : nat) (s r1 : string) (v : json)
    (acc : list json) :
  scan_once fuel s = Return (v, String "," r1) ->
  scan_items (S fuel) s acc = scan_items fuel (skip_ws r1) (v :: acc).
Proof. intros Hv. cbn [scan_items]. now rewrite Hv. Qed.

Lemma scan_items_encoded (items : list json) :
  items <> [] ->
  Forall reads_back items ->
  forall (level : nat) (rest : string) (acc : list json) (fuel : nat),
    delimited rest = true ->
    (fold_right (fun x n => S (size x + n)) O items < fuel)%nat ->
    scan_items fuel
      (separated ("," +:+ newline_indent (S level))
                 (map (encode (S level)) items)
       +:+ newline_indent level +:+ String "]" rest) acc
    = Return (JList (rev acc ++ items), rest).
Proof.
  induction items as [|x items IH]; [contradiction|].
  intros _ Hall level rest acc fuel Hrest Hfuel.
  apply Forall_cons in Hall as [Hx Hitems].
  destruct fuel as [|fuel]; [lia|]. cbn [fold_right] in Hfuel.
  destruct items as [|y ys].
  - cbn [map separated].
    apply (scan_items_last fuel _ (newline_indent level +:+ String "]" rest)).
    + apply Hx; [reflexivity | cbn [fold_right] in Hfuel; lia].
    + now rewrite skip_ws_newline_indent.
  - cbn [map]. rewrite separated_more.
    rewrite (scan_items_more fuel _
               (newline_indent (S level)
                +:+ separated ("," +:+ newline_indent (S level))
                      (map (encode (S level)) (y :: ys))
                +:+ newline_indent level +:+ String "]" rest) x).
    + rewrite skip_ws_newline_indent.
      destruct (skip_ws_items (S level) y ys
                  ("," +:+ newline_indent (S level))
                  (newline_indent level +:+ String "]" rest))
        as (c & t & Ht & Hc).
      rewrite Ht, (skip_ws_opens c t Hc), <- Ht.
      rewrite (IH ltac:(discriminate) Hitems level rest (x :: acc) fuel Hrest
                  ltac:(lia)).
      cbn [rev]. now rewrite <- app_assoc.
    + rewrite str_app_assoc.
      apply Hx; [reflexivity | lia].
Qed.

(** *** Objects *)

Lemma scan_members_last (fuel : nat) (s r r1 r2 r3 key : string) (v : json)
    (acc : list (string * json)) :
  scanstring s = Return (key, r) ->
  skip_ws r = String ":" r1 ->
  scan_once fuel (skip_ws r1) = Return (v, r2) ->
  skip_ws r2 = String "}" r3 ->
  scan_members (S fuel) s acc
  = Return (JDict (Dict.of_pairs (rev acc ++ [(key, v)])), r3).
Proof.
  intros Hkey Hr Hv Hr2. cbn [scan_members]. now rewrite Hkey, Hr, Hv, Hr2.
Qed.

Lemma scan_members_more (fuel : nat) (s r r1 r2 r3 r4 key : string) (v : json)
    (acc : list (string * json)) :
  scanstring s = Return (key, r) ->
  skip_ws r = String ":" r1 ->
  scan_once fuel (skip_ws r1) = Return (v, r2) ->
  skip_ws r2 = String "," r3 ->
  skip_ws r3 = String dquote r4 ->
  scan_members (S fuel) s acc = scan_members fuel r4 ((key, v) :: acc).
Proof.
  intros Hkey Hr Hv Hr2 Hr3. cbn [scan_members].
  now rewrite Hkey, Hr, Hv, Hr2, Hr3.
Qed.

Lemma member_text_shape (level : nat) (k : string) (v : json) (tail : string) :
  member_text level (k, v) +:+ tail
  = String dquote
      (escape k
       +:+ String dquote (String ":" (String " " (encode level v +:+ tail)))).
Proof.
  unfold member_text, encode_basestring. cbn [fst snd].
  rewrite !str_app_assoc, !str_app_cons, !str_app_assoc. reflexivity.
Qed.

Lemma members_head (level : nat) (kv : string * json)
    (kvs : list (string * json)) (sep tail : string) :
  exists t,
    separated sep (map (member_text level) (kv :: kvs)) +:+ tail
    = String dquote t.
Proof.
  cbn [map]. destruct kv as [k v].
  pose proof (member_text_shape level k v EmptyString) as Hshape.
  destruct (member_text level (k, v) +:+ EmptyString) as [|c t] eqn:E;
    [discriminate|].
  injection Hshape as -> _.
  assert (Hm : exists t', member_text level (k, v) = String dquote t').
  { destruct (member_text level (k, v)) as [|c' t']; [discriminate|].
    rewrite str_app_cons in E. injection E as -> _. eauto. }
  destruct Hm as (t' & ->). apply separated_head.
Qed.

Lemma skip_ws_value (level : nat) (v : json) (tail : string) :
  skip_ws (encode level v +:+ tail) = encode level v +:+ tail.
Proof.
  destruct (encode_head level v) as (c & s & -> & Hc).
  rewrite str_app_cons. now apply skip_ws_opens.
Qed.

Lemma scan_members_encoded (members : list (string * json)) :
  members <> [] ->
  Forall (fun kv => reads_back (snd kv)) members ->
  forall (level : nat) (rest : string) (acc : list (string * json))
         (fuel : nat) (t : string),
    delimited rest = true ->
    (fold_right (fun kv n => S (size (snd kv) + n)) O members < fuel)%nat ->
    separated ("," +:+ newline_indent (S level))
              (map (member_text (S level)) members)
    +:+ newline_indent level +:+ String "}" rest
    = String dquote t ->
    scan_members fuel t acc
    = Return (JDict (Dict.of_pairs (rev acc ++ members)), rest).
Proof.
  induction members as [|[k v] members IH]; [contradiction|].
  intros _ Hall level rest acc fuel t Hrest Hfuel Ht.
  apply Forall_cons in Hall as [Hv Hmembers]. cbn [snd] in Hv.
  destruct fuel as [|fuel]; [lia|]. cbn [fold_right snd] in Hfuel.
  destruct members as [|kv kvs].
  - cbn [map separated] in Ht. rewrite member_text_shape in Ht.
    injection Ht as <-.
    eapply scan_members_last.
    + apply scanstring_escape.
    + reflexivity.
    + cbn [skip_ws]. cbv [is_ws Ascii.eqb Bool.eqb orb]. cbn [skip_ws].
      rewrite skip_ws_value. apply Hv; [reflexivity | lia].
    + now rewrite skip_ws_newline_indent.
  - cbn [map] in Ht. rewrite separated_more, member_text_shape in Ht.
    injection Ht as <-.
    destruct (members_head (S level) kv kvs
                ("," +:+ newline_indent (S level))
                (newline_indent level +:+ String "}" rest)) as (t' & Ht').
    etransitivity.
    + eapply (scan_members_more fuel) with (r4 := t').
      * apply scanstring_escape.
      * reflexivity.
      * cbn [skip_ws]. cbv [is_ws Ascii.eqb Bool.eqb orb]. cbn [skip_ws].
        rewrite skip_ws_value. apply Hv; [reflexivity | lia].
      * rewrite str_app_assoc. reflexivity.
      * rewrite skip_ws_newline_indent.
        transitivity (skip_ws (String dquote t')); [|reflexivity].
        f_equal. exact Ht'.
    + rewrite (IH ltac:(discriminate) Hmembers level rest ((k, v) :: acc)
                  fuel t' Hrest ltac:(lia) Ht').
      cbn [rev]. now rewrite <- app_assoc.
Qed.

(** *** Values *)

Lemma encode_list_shape (level : nat) (x : json) (xs : list json)
    (rest : string) :
  encode level (JList (x :: xs)) +:+ rest
  = String "["
      (newline_indent (S level)
       +:+ separated ("," +:+ newline_indent (S level))
             (map (encode (S level)) (x :: xs))
       +:+ newline_indent level +:+ String "]" rest).
Proof.
  change (encode level (JList (x :: xs)))
    with ("[" +:+ newline_indent (S level)
          +:+ separated ("," +:+ newline_indent (S level))
                (map (encode (S level)) (x :: xs))
          +:+ newline_indent level +:+ "]").
  now rewrite !str_app_assoc.
Qed.

Lemma encode_dict_shape (level : nat) (kv : string * json)
    (kvs : list (string * json)) (rest : string) :
  encode level (JDict (kv :: kvs)) +:+ rest
  = String "{"
      (newline_indent (S level)
       +:+ separated ("," +:+ newline_indent (S level))
             (map (member_text (S level)) (kv :: kvs))
       +:+ newline_indent level +:+ String "}" rest).
Proof.
  change (encode level (JDict (kv :: kvs)))
    with ("{" +:+ newline_indent (S level)
          +:+ separated ("," +:+ newline_indent (S level))
                (map (member_text (S level)) (kv :: kvs))
          +:+ newline_indent level +:+ "}").
  now rewrite !str_app_assoc.
Qed.

Lemma forall_wf (items : list json) :
  forallb wfb items = true -> Forall wf items.
Proof. intros H. apply Forall_forall. intros x Hx.
  rewrite forallb_forall in H. apply H. now apply list_elem_of_In. Qed.

Lemma scan_once_array (fuel : nat) (s : string) (c : ascii) (t : string) :
  skip_ws s = String c t ->
  Ascii.eqb c "]" = false ->
  scan_once (S fuel) (String "[" s) = scan_items fuel (String c t) [].
Proof. intros Hs Hc. cbn [scan_once]. rewrite Hs, Hc. reflexivity. Qed.

Lemma scan_once_object (fuel : nat) (s t : string) :
  skip_ws s = String dquote t ->
  scan_once (S fuel) (String "{" s) = scan_members fuel t [].
Proof. intros Hs. cbn [scan_once]. rewrite Hs. reflexivity. Qed.

(** Every value whose objects have distinct keys is read back. *)
Lemma reads_back_all (v : json) : wf v -> reads_back v.
Proof.
  induction v as [|b|n|s|items IH|members IH] using json_induction;
    intros Hwf level rest fuel Hrest Hfuel;
    (destruct fuel as [|fuel]; [cbn in Hfuel; lia|]).
  - reflexivity.
  - destruct b; reflexivity.
  - now apply scan_integer.
  - apply scan_basestring.
  - destruct items as [|x xs]; [reflexivity|].
    rewrite encode_list_shape.
    destruct (skip_ws_items (S level) x xs
                ("," +:+ newline_indent (S level))
                (newline_indent level +:+ String "]" rest))
      as (c & t & Ht & Hc).
    rewrite (scan_once_array fuel _ c t);
      [|rewrite skip_ws_newline_indent, Ht; now apply skip_ws_opens
       |now apply opens_value_not_bracket].
    rewrite <- Ht.
    apply (scan_items_encoded (x :: xs)); [discriminate| |exact Hrest|].
    + apply forall_wf in Hwf. clear -IH Hwf.
      induction IH as [|y ys Hy _ IHys]; constructor.
      * apply Hy. now apply Forall_cons in Hwf as [? _].
      * apply IHys. now apply Forall_cons in Hwf as [_ ?].
    + cbn [size] in Hfuel. lia.
  - destruct members as [|kv kvs]; [reflexivity|].
    rewrite encode_dict_shape.
    destruct (members_head (S level) kv kvs
                ("," +:+ newline_indent (S level))
                (newline_indent level +:+ String "}" rest)) as (t & Ht).
    rewrite (scan_once_object fuel _ t);
      [|now rewrite skip_ws_newline_indent, Ht].
    unfold wf in Hwf. cbn [wfb] in Hwf. apply andb_true_iff in Hwf as [Hkeys Hvals].
    apply bool_decide_eq_true in Hkeys.
    rewrite (scan_members_encoded (kv :: kvs) ltac:(discriminate)) with
      (level := level) (rest := rest); [| |exact Hrest| |exact Ht].
    + cbn [rev app]. now rewrite (dict_of_pairs_distinct _ Hkeys).
    + clear -IH Hvals.
      induction IH as [|y ys Hy _ IHys]; constructor.
      * apply Hy. cbn [forallb] in Hvals.
        now apply andb_true_iff in Hvals as [? _].
      * apply IHys. cbn [forallb] in Hvals.
        now apply andb_true_iff in Hvals as [_ ?].
    + cbn [size] in Hfuel. lia.
Qed.

(** *** The fuel that [loads] provides *)

Lemma separated_length (sep : string) (items : list json) (level : nat) :
  (1 <= String.length sep)%nat ->
  Forall (fun x => forall l, (size x <= String.length (encode l x))%nat)
         items ->
  (fold_right (fun x n => S (size x + n)) O items
   <= String.length (separated sep (map (encode level) items)) + 1)%nat.
Proof.
  intros Hsep Hall. induction Hall as [|x xs Hx _ IH]; [cbn; lia|].
  specialize (Hx level).
  destruct xs as [|y ys]; cbn [map separated fold_right] in *.
  - lia.
  - rewrite !str_length_app. lia.
Qed.

Lemma members_length (sep : string) (members : list (string * json))
    (level : nat) :
  (1 <= String.length sep)%nat ->
  Forall (fun kv => forall l,
            (size (snd kv) <= String.length (encode l (snd kv)))%nat)
         members ->
  (fold_right (fun kv n => S (size (snd kv) + n)) O members
   <= String.length (separated sep (map (member_text level) members)) + 1)%nat.
Proof.
  intros Hsep Hall. induction Hall as [|[k x] xs Hx _ IH]; [cbn; lia|].
  specialize (Hx level). cbn [snd] in Hx.
  assert (Hm : (size x <= String.length (member_text level (k, x)))%nat).
  { unfold member_text. cbn [fst snd]. rewrite !str_length_app. lia. }
  destruct xs as [|y ys]; cbn [map separated fold_right snd] in *.
  - lia.
  - rewrite !str_length_app. lia.
Qed.

Lemma size_le_length (v : json) :
  forall level, (size v <= String.length (encode level v))%nat.
Proof.
  induction v as [|b|n|s|items IH|members IH] using json_induction;
    intros level.
  - cbn. lia.
  - destruct b; cbn; lia.
  - cbn [size encode]. destruct (of_Z_head n) as (c & s & -> & _). cbn. lia.
  - cbn. lia.
  - destruct items as [|x xs]; [cbn; lia|].
    pose proof (str_app_nil_r (encode level (JList (x :: xs)))) as Hnil.
    rewrite encode_list_shape in Hnil. rewrite <- Hnil.
    cbn [size String.length]. rewrite !str_length_app.
    cbn [String.length].
    pose proof (separated_length ("," +:+ newline_indent (S level)) (x :: xs)
                  (S level) ltac:(rewrite str_length_app; cbn; lia) IH).
    lia.
  - destruct members as [|kv kvs]; [cbn; lia|].
    pose proof (str_app_nil_r (encode level (JDict (kv :: kvs)))) as Hnil.
    rewrite encode_dict_shape in Hnil. rewrite <- Hnil.
    cbn [size String.length]. rewrite !str_length_app.
    cbn [String.length].
    pose proof (members_length ("," +:+ newline_indent (S level)) (kv :: kvs)
                  (S level) ltac:(rewrite str_length_app; cbn; lia) IH).
    lia.
Qed.

(** [json.loads] gives back the value that [json.dumps] wrote. *)
Lemma loads_dumps (v : json) : wf v -> loads (dumps v) = Return v.
Proof.
  intros Hwf. unfold loads, dumps.
  pose proof (skip_ws_value 0 v EmptyString) as Hskip.
  rewrite str_app_nil_r in Hskip. rewrite Hskip.
  pose proof (reads_back_all v Hwf 0%nat EmptyString
                (S (String.length (encode 0 v))) eq_refl) as Hread.
  rewrite str_app_nil_r in Hread. rewrite Hread; [reflexivity|].
  pose proof (size_le_length v 0). lia.
Qed.

End JsonFacts.

(** ** Saving and loading the revision cache *)




(** * Further properties *)

(** ** The stats stage: what is stored *)

Lemma fetch_scryfall_stats_keys_witness :
  exists stats,
    fst (fetch_scryfall_stats fallback_fails "t:x" empty_world) = Return stats
    /\ Dict.get "c" stats
       = if fallback_failed fallback_fails "t:x" "c" then None
         else Some (recorded_count fallback_fails "t:x" "c").
Proof.
  apply (fetch_scryfall_stats_keys fallback_fails "t:x" "c" empty_world).
  left. reflexivity.
Defined.

Lemma dict_set_forall {A} (P : A -> Prop) (k : string) (v : A)
    (d : pydict A) :
  P v -> Forall (fun kv => P (snd kv)) d ->
  Forall (fun kv => P (snd kv)) (Dict.set k v d).
Proof.
  intros Hv Hd. induction Hd as [|[k' v'] d Hkv Hd IH]; cbn [Dict.set].
  - now constructor.
  - destruct (String.eqb k k'); constructor; auto.
Qed.

Lemma dict_get_forall {A} (P : A -> Prop) (k : string) (v : A)
    (d : pydict A) :
  Forall (fun kv => P (snd kv)) d -> Dict.get k d = Some v -> P v.
Proof.
  intros Hd. induction Hd as [|[k' v'] d Hkv _ IH]; cbn [Dict.get];
    [discriminate|].
  destruct (String.eqb k k'); [intros [= <-]; exact Hkv | exact IH].
Qed.

Lemma recorded_count_nonnegative (session : Session) (query color : string) :
  (forall q n, total_cards (session q) = Some n -> 0 <= n) ->
  0 <= recorded_count session query color.
Proof.
  intros Hup. unfold recorded_count, total_cards_or_zero.
  repeat match goal with
         | |- context [if ?b then _ else _] => destruct b
         | |- context [match total_cards ?r with _ => _ end] =>
             destruct (total_cards r) eqn:?
         end; try lia; eauto.
Qed.

Lemma fold_counts_nonnegative (session : Session) (query : string)
    (colors : list string) (acc : pydict Z) :
  (forall q m, total_cards (session q) = Some m -> 0 <= m) ->
  Forall (fun kv => 0 <= snd kv) acc ->
  Forall (fun kv => 0 <= snd kv)
    (fold_left
       (fun stats color =>
          if fallback_failed session query color then stats
          else Dict.set (Str.lower color)
                        (recorded_count session query color) stats)
       colors acc).
Proof.
  intros Hup. revert acc.
  induction colors as [|c cs IH]; intros acc Hacc; cbn [fold_left];
    [exact Hacc|].
  apply IH. destruct (fallback_failed session query c); [exact Hacc|].
  apply (dict_set_forall (fun m => 0 <= m)); [|exact Hacc].
  now apply recorded_count_nonnegative.
Qed.

(** When the upstream never reports a negative [total_cards], every count
    in the mapping that [fetch_scryfall_stats] returns is non-negative,
    whatever statuses the requests meet. *)
Theorem fetch_scryfall_stats_counts_nonnegative
    (session : Session) (query : string) (w : world) (stats : pydict Z)
    (color : string) (n : Z) :
  (forall q m, total_cards (session q) = Some m -> 0 <= m) ->
  fst (fetch_scryfall_stats session query w) = Return stats ->
  Dict.get color stats = Some n ->
  0 <= n.
Proof.
  intros Hup Hrun Hget. unfold fetch_scryfall_stats in Hrun.
  rewrite fetch_colors_stats in Hrun.
  injection Hrun as Hstats. subst stats.
  refine (dict_get_forall (fun m => 0 <= m) color n _ _ Hget).
  exact (fold_counts_nonnegative session query COLOR_ORDER [] Hup
           ltac:(constructor)).
Qed.

Lemma fetch_scryfall_stats_counts_nonnegative_witness : 0 <= 3.
Proof.
  apply (fetch_scryfall_stats_counts_nonnegative fallback_fails "t:x"
           empty_world
           [("w", 3); ("u", 3); ("b", 3); ("r", 3); ("g", 3); ("m", 3)]
           "w" 3).
  - intros q m. unfold fallback_fails.
    destruct (String.eqb q "(t:x) id=c"); [discriminate|].
    destruct (String.eqb q "t:x id=c"); [discriminate|].
    intros [= <-]. lia.
  - reflexivity.
  - reflexivity.
Defined.

(** ** The registry *)

Lemma register_lookup
    (page_title : string) (page_queries : list string)
    (registry : pydict (list string)) (search : string) :
  Dict.get search (register_page_queries page_title page_queries registry)
  = if decide (search ∈ page_queries)
    then Some (default [] (Dict.get search registry)
               ++ replicate (count_occ String.string_dec page_queries search)
                            page_title)
    else Dict.get search registry.
Proof.
  unfold register_page_queries. revert registry.
  induction page_queries as [|q qs IH]; intros registry; cbn [fold_left].
  - now rewrite decide_False by apply not_elem_of_nil.
  - rewrite IH. cbn [count_occ].
    destruct (decide (search ∈ q :: qs)) as [Hcons|Hcons];
      destruct (decide (search ∈ qs)) as [Hin|Hout];
      destruct (String.string_dec q search) as [->|Hne].
    + rewrite dict_get_set_eq. cbn [default replicate id].
      now rewrite <- app_assoc.
    + now rewrite (dict_get_set_ne q search) by exact Hne.
    + rewrite dict_get_set_eq. cbn [default id].
      rewrite (proj1 (count_occ_not_In String.string_dec qs search)).
      * reflexivity.
      * intros Hin. apply Hout. now apply list_elem_of_In.
    + apply elem_of_cons in Hcons as [->|Hin]; [now destruct Hne|].
      now destruct Hout.
    + destruct Hcons. apply list_elem_of_here.
    + destruct Hcons. now apply list_elem_of_further.
    + destruct Hcons. apply list_elem_of_here.
    + now rewrite (dict_get_set_ne q search) by exact Hne.
Qed.

(** After [register_page_queries], a search that occurs among the queries
    of the page has the title appended once for each occurrence, after the
    pages it had before; every other search has the pages it had. *)
Theorem register_page_queries_lookup
    (page_title : string) (page_queries : list string)
    (registry : pydict (list string)) (search : string) :
  Dict.get search (register_page_queries page_title page_queries registry)
  = if decide (search ∈ page_queries)
    then Some (default [] (Dict.get search registry)
               ++ replicate (count_occ String.string_dec page_queries search)
                            page_title)
    else Dict.get search registry.
Proof. apply register_lookup. Qed.

Lemma register_page_queries_keys_step (search : string) (pages : list string)
    (registry : pydict (list string)) :
  exists added,
    Dict.keys (Dict.set search pages registry) = Dict.keys registry ++ added
    /\ (forall s, s ∈ added <-> s = search /\ Dict.get s registry = None).
Proof.
  rewrite dict_keys_set. unfold Dict.mem.
  destruct (Dict.get search registry) as [old|] eqn:E.
  - exists []. rewrite app_nil_r. split; [reflexivity|].
    intros s. split; [intros H; now apply not_elem_of_nil in H|].
    intros [-> H]. congruence.
  - exists [search]. split; [reflexivity|].
    intros s. rewrite list_elem_of_singleton. split.
    + now intros ->.
    + now intros [-> _].
Qed.

(** [register_page_queries] keeps the searches of the registry in their
    order and puts the new ones after them; the searches it adds are those
    of the page that the registry did not hold; and the keys stay pairwise
    distinct. *)
Theorem register_page_queries_keys
    (page_title : string) (page_queries : list string)
    (registry : pydict (list string)) :
  Dict.wf registry ->
  Dict.wf (register_page_queries page_title page_queries registry)
  /\ exists added,
       Dict.keys (register_page_queries page_title page_queries registry)
       = Dict.keys registry ++ added
       /\ forall s, s ∈ added
                    <-> s ∈ page_queries /\ Dict.get s registry = None.
Proof.
  unfold register_page_queries. revert registry.
  induction page_queries as [|q qs IH]; intros registry Hwf; cbn [fold_left].
  - split; [exact Hwf|]. exists []. rewrite app_nil_r. split; [reflexivity|].
    intros s. split; [intros H; now apply not_elem_of_nil in H|].
    intros [H _]. now apply not_elem_of_nil in H.
  - set (pages := default [] (Dict.get q registry) ++ [page_title]).
    destruct (IH (Dict.set q pages registry) (dict_wf_set q pages registry Hwf))
      as (Hwf' & added2 & Hkeys2 & Hadded2).
    split; [exact Hwf'|].
    destruct (register_page_queries_keys_step q pages registry)
      as (added1 & Hkeys1 & Hadded1).
    exists (added1 ++ added2). rewrite Hkeys2, Hkeys1, <- app_assoc.
    split; [reflexivity|].
    intros s. rewrite elem_of_app, Hadded1, Hadded2, elem_of_cons. split.
    + intros [[-> Hnone]|[Hin Hnone]]; [now split; [left|]|].
      split; [now right|].
      destruct (String.string_dec q s) as [->|Hne].
      * now rewrite dict_get_set_eq in Hnone.
      * now rewrite (dict_get_set_ne q s) in Hnone by exact Hne.
    + intros [[->|Hin] Hnone]; [now left|].
      destruct (String.string_dec q s) as [->|Hne]; [now left|].
      right. split; [exact Hin|].
      now rewrite (dict_get_set_ne q s) by exact Hne.
Qed.

Lemma register_page_queries_keys_witness :
  Dict.wf (register_page_queries "Forest" repeated_queries small_registry)
  /\ exists added,
       Dict.keys (register_page_queries "Forest" repeated_queries
                                        small_registry)
       = Dict.keys small_registry ++ added
       /\ forall s, s ∈ added
                    <-> s ∈ repeated_queries
                        /\ Dict.get s small_registry = None.
Proof.
  apply (register_page_queries_keys "Forest" repeated_queries small_registry).
  unfold Dict.wf. cbn. apply NoDup_singleton.
Defined.

Example register_page_queries_repeated :
  register_page_queries "Forest" repeated_queries small_registry
  = [("t:elf", ["Elf"; "Forest"; "Forest"]); ("c:g", ["Forest"])].
Proof. reflexivity. Qed.

(** ** The events and files of a run *)

Local Set Warnings "-clear-no-such-hyp".

Lemma fetch_count_app (t : string) (xs ys : list event) :
  fetch_count t (xs ++ ys) = (fetch_count t xs + fetch_count t ys)%nat.
Proof.
  induction xs as [|[r|t'|p c] xs IH]; cbn [app fetch_count]; try exact IH.
  - reflexivity.
  - rewrite IH. apply Nat.add_assoc.
Qed.

Lemma written_paths_app (xs ys : list event) :
  written_paths (xs ++ ys) = written_paths xs ++ written_paths ys.
Proof. unfold written_paths. apply omap_app. Qed.

Lemma only_logs_fetch_count (t : string) (evs : list event) :
  forallb is_log evs = true -> fetch_count t evs = O.
Proof.
  induction evs as [|[r|t'|p c] evs IH]; simpl; try discriminate; auto.
Qed.

Lemma only_logs_written_paths (evs : list event) :
  forallb is_log evs = true -> written_paths evs = [].
Proof.
  induction evs as [|[r|t'|p c] evs IH]; simpl; try discriminate; auto.
Qed.

Lemma proceeds_logs (paths : list string) (seen : gset string)
    (marked : string -> Prop) (w : world) (logs : list event) :
  forallb is_log logs = true ->
  proceeds paths seen marked w (mkWorld (files w) (trace w ++ logs)).
Proof.
  intros Hlogs. exists logs. cbn [trace files].
  rewrite (only_logs_written_paths _ Hlogs).
  repeat split; intros t; rewrite ?(only_logs_fetch_count t _ Hlogs);
    try lia; try reflexivity.
  intros H. now apply not_elem_of_nil in H.
Qed.

Lemma proceeds_refl (paths : list string) (seen : gset string)
    (marked : string -> Prop) (w : world) :
  proceeds paths seen marked w w.
Proof.
  rewrite <- (trace_app_nil w) at 2. now apply proceeds_logs.
Qed.

Lemma proceeds_trans (paths : list string) (seen seen1 : gset string)
    (marked1 marked2 marked : string -> Prop) (w w1 w2 : world) :
  seen ⊆ seen1 ->
  (forall t, marked1 t -> t ∈ seen1) ->
  (forall t, marked1 t -> marked t) ->
  (forall t, marked2 t -> marked t) ->
  proceeds paths seen marked1 w w1 ->
  proceeds paths seen1 marked2 w1 w2 ->
  proceeds paths seen marked w w2.
Proof.
  intros Hsub Hin H1 H2 (evs1 & Ht1 & Hone1 & Hseen1 & Hmark1 & Hw1 & Hf1)
         (evs2 & Ht2 & Hone2 & Hseen2 & Hmark2 & Hw2 & Hf2).
  exists (evs1 ++ evs2). rewrite Ht2, Ht1, <- app_assoc.
  split; [reflexivity|].
  assert (Hex : forall t, (0 < fetch_count t evs1)%nat ->
                          fetch_count t evs2 = O).
  { intros t Hpos. apply Hseen2, Hin, Hmark1, Hpos. }
  repeat split.
  - intros t. rewrite fetch_count_app.
    destruct (fetch_count t evs1) as [|n] eqn:E.
    + apply Hone2.
    + rewrite (Hex t) by lia. specialize (Hone1 t). lia.
  - intros t Ht. rewrite fetch_count_app, (Hseen1 t Ht).
    apply Hseen2, Hsub, Ht.
  - intros t. rewrite fetch_count_app. intros Hpos.
    destruct (fetch_count t evs1) as [|n] eqn:E.
    + apply H2, Hmark2. exact Hpos.
    + apply H1, Hmark1. lia.
  - intros p. rewrite written_paths_app, elem_of_app.
    intros [Hp|Hp]; [now apply Hw1 | now apply Hw2].
  - intros p Hp. now rewrite (Hf2 p Hp), (Hf1 p Hp).
Qed.

Lemma proceeds_weaken (paths : list string) (seen : gset string)
    (marked marked' : string -> Prop) (w w' : world) :
  (forall t, marked t -> marked' t) ->
  proceeds paths seen marked w w' -> proceeds paths seen marked' w w'.
Proof.
  intros Hm (evs & Ht & Hone & Hseen & Hmark & Hw & Hf).
  exists evs. repeat split; auto.
Qed.

Lemma grows_refl (s : crawl_state) : grows s s.
Proof.
  repeat split; auto.
  exists []. now rewrite app_nil_r.
Qed.

Lemma grows_trans (s s1 s2 : crawl_state) :
  grows s s1 -> grows s1 s2 -> grows s s2.
Proof.
  intros (Hs1 & (a1 & Hk1) & He1 & Hc1 & Hq1)
         (Hs2 & (a2 & Hk2) & He2 & Hc2 & Hq2).
  repeat split; auto.
  - set_solver.
  - exists (a1 ++ a2). now rewrite Hk2, Hk1, app_assoc.
  - intros t. destruct (He1 t) as [E1|[Hin1 Hout1]],
                       (He2 t) as [E2|[Hin2 Hout2]].
    + left. congruence.
    + right. split; [exact Hin2|]. set_solver.
    + right. split; [|exact Hout1]. set_solver.
    + right. split; [exact Hin2 | exact Hout1].
Qed.

(** A loop whose rounds go on as a crawl does goes on as a crawl does. *)
Lemma for_each_advanced {A} (paths : list string)
    (body : A -> crawl_state -> py crawl_state) :
  (forall a s w, advanced paths s w (body a s w)) ->
  forall l s w, advanced paths s w (for_each body l s w).
Proof.
  intros Hbody. induction l as [|a l IH]; intros s w; cbn [for_each].
  - split; [apply grows_refl | apply proceeds_refl].
  - unfold bind. specialize (Hbody a s w).
    destruct (body a s w) as [[s1|e] w1]; [|exact Hbody].
    destruct Hbody as [Hg1 Hp1]. specialize (IH s1 w1).
    destruct (for_each body l s1 w1) as [[s2|e] w2].
    + destruct IH as [Hg2 Hp2]. split; [now apply (grows_trans s s1 s2)|].
      apply (proceeds_trans paths (seen_pages s) (seen_pages s1)
               (fun t => t ∈ seen_pages s1) (fun t => t ∈ seen_pages s2)
               _ w w1 w2); auto.
      * apply Hg1.
      * intros t Ht. destruct Hg2 as [Hsub _]. set_solver.
    + apply (proceeds_trans paths (seen_pages s) (seen_pages s1)
               (fun t => t ∈ seen_pages s1) (fun _ => True)
               _ w w1 w2); auto.
      apply Hg1.
Qed.

Lemma register_page_queries_wf (page_title : string)
    (page_queries : list string) (registry : pydict (list string)) :
  Dict.wf registry ->
  Dict.wf (register_page_queries page_title page_queries registry).
Proof.
  unfold register_page_queries. revert registry.
  induction page_queries as [|q qs IH]; intros registry Hwf; cbn [fold_left];
    [exact Hwf|].
  apply IH. now apply dict_wf_set.
Qed.

Lemma consult_cache_registers (t : string) (r : Z) (st : crawl_state)
    (w w1 : world) (registry : pydict (list string)) :
  consult_cache t r st w = (Return (Some registry), w1) ->
  exists cached, registry = register_page_queries t cached (queries st).
Proof.
  unfold consult_cache, bind, ret, raise, info, emit, Py.get, Py.iter_strs.
  intros H.
  repeat match type of H with
         | context [match ?x with _ => _ end] =>
             destruct x; try discriminate; cbn in H
         end;
    try discriminate;
    injection H as <- _; eexists; reflexivity.
Qed.

Lemma json_wf_dict (members : pydict json) :
  Json.wf (JDict members)
  <-> Dict.wf members /\ Forall (fun kv => Json.wf (snd kv)) members.
Proof.
  unfold Json.wf, Dict.wf, Dict.keys. cbn [Json.wfb].
  rewrite andb_true_iff, bool_decide_eq_true, forallb_forall, Forall_forall.
  split; intros [H1 H2]; (split; [exact H1|]); intros kv Hkv; apply H2;
    now apply list_elem_of_In.
Qed.

Lemma json_wf_set (k : string) (v : json) (d : pydict json) :
  Json.wf (JDict d) -> Json.wf v -> Json.wf (JDict (Dict.set k v d)).
Proof.
  rewrite !json_wf_dict. intros [Hd Hall] Hv. split.
  - now apply dict_wf_set.
  - now apply dict_set_forall.
Qed.

Lemma json_wf_strings (qs : list string) : Json.wf (JList (map JStr qs)).
Proof.
  unfold Json.wf. cbn [Json.wfb]. apply forallb_forall.
  intros x Hx. apply in_map_iff in Hx as (q & <- & _). reflexivity.
Qed.

Lemma current_revision_record_wf (page : Page) (rev_id : option Z)
    (page_queries : option (list string)) :
  Json.wf (current_revision_record page rev_id page_queries).
Proof.
  unfold current_revision_record.
  destruct page_queries as [qs|].
  - apply json_wf_set; [|apply json_wf_strings].
    destruct (latest_revision page); reflexivity.
  - destruct (latest_revision page); reflexivity.
Qed.

Section run.

Variable urlparse_query : string -> option string.
Variable parse_qs : string -> pydict (string * list string).
Variable with_suffix : string -> string -> string.
Variables output_file revision_cache_path : string.

Local Abbreviation paths :=
  (crawl_files with_suffix output_file revision_cache_path).
Local Abbreviation a_round :=
  (visit urlparse_query parse_qs with_suffix output_file revision_cache_path).
Local Abbreviation a_template site :=
  (crawl_template urlparse_query parse_qs with_suffix site output_file
                  revision_cache_path).

Lemma flushed_files_frame (st : crawl_state) (fs : gmap string string)
    (p : string) :
  p ∉ paths ->
  flushed_files with_suffix output_file revision_cache_path st fs !! p
  = fs !! p.
Proof.
  intros Hp. unfold flushed_files, crawl_files in *.
  rewrite !lookup_insert_ne; [reflexivity| | |]; intros <-; apply Hp;
    set_solver.
Qed.

Lemma checkpoint_events_summary (idx : nat) (st : crawl_state) (t : string) :
  fetch_count t
    (checkpoint_events with_suffix output_file revision_cache_path idx st) = O
  /\ forall p,
       p ∈ written_paths
             (checkpoint_events with_suffix output_file revision_cache_path
                                idx st) ->
       p ∈ paths.
Proof.
  unfold checkpoint_events. destruct (checkpoint_due idx).
  - split; [reflexivity|]. intros p Hp. exact Hp.
  - split; [reflexivity|]. intros p Hp. now apply not_elem_of_nil in Hp.
Qed.

(** The events of a round that went into the [try] statement: the two
    events of the content request between records of the log, and then the
    events of a checkpoint or none. *)
Lemma proceeds_processing (seen : gset string) (marked : string -> Prop)
    (page : Page) (w : world) (fs : gmap string string)
    (logs logs' tail : list event) :
  title page ∉ seen ->
  marked (title page) ->
  forallb is_log logs = true ->
  forallb is_log logs' = true ->
  (forall t, fetch_count t tail = O) ->
  (forall p, p ∈ written_paths tail -> p ∈ paths) ->
  (forall p, p ∉ paths -> fs !! p = files w !! p) ->
  proceeds paths seen marked w
    (mkWorld fs
       ((trace w ++ logs)
        ++ [EvLog (LogInfo ("Processing page: " +:+ Str.strip (title page)));
            EvFetch (title page)] ++ logs' ++ tail)).
Proof.
  intros Hfresh Hmarked Hlogs Hlogs' Htail Hpaths Hfiles.
  eexists. cbn [trace files]. rewrite <- app_assoc.
  split; [reflexivity|].
  assert (Hcount : forall t,
            fetch_count t
              (logs ++ [EvLog (LogInfo ("Processing page: "
                                        +:+ Str.strip (title page)));
                        EvFetch (title page)] ++ logs' ++ tail)
            = if String.eqb (title page) t then 1%nat else O).
  { intros t. rewrite fetch_count_app, (only_logs_fetch_count t _ Hlogs).
    cbn [app fetch_count].
    rewrite fetch_count_app, (only_logs_fetch_count t _ Hlogs'), Htail.
    destruct (String.eqb (title page) t); reflexivity. }
  repeat split.
  - intros t. rewrite Hcount. destruct (String.eqb _ _); lia.
  - intros t Ht. rewrite Hcount.
    destruct (String.eqb (title page) t) eqn:E; [|reflexivity].
    apply String.eqb_eq in E. subst t. contradiction.
  - intros t. rewrite Hcount.
    destruct (String.eqb (title page) t) eqn:E; [|lia].
    apply String.eqb_eq in E. now subst t.
  - intros p. rewrite written_paths_app, (only_logs_written_paths _ Hlogs).
    cbn [app written_paths omap].
    change (p ∈ written_paths (logs' ++ tail) -> p ∈ paths).
    rewrite written_paths_app, (only_logs_written_paths _ Hlogs').
    apply Hpaths.
  - exact Hfiles.
Qed.

(** A round of the loop over the pages goes on as a crawl does. *)
Lemma visit_advanced (item : nat * Page) (s : crawl_state) (w : world) :
  advanced paths s w (a_round item s w).
Proof.
  destruct item as [idx page].
  destruct (decide (title page ∈ seen_pages s)) as [Hseen|Hfresh].
  - rewrite (visit_seen _ _ _ _ _ _ _ _ _ Hseen).
    split; [apply grows_refl | apply proceeds_refl].
  - rewrite (visit_fresh _ _ _ _ _ _ _ _ _ Hfresh).
    destruct (consult_cache_quiet (title page) (latest_revision_id page)
                (mark_seen (title page) s) w) as (res & logs & Hc & Hlogs).
    rewrite Hc. destruct res as [[registry|]|e].
    + destruct (consult_cache_registers _ _ _ _ _ _ Hc) as (cached & ->).
      split.
      * repeat split; cbn [seen_pages revision_cache queries mark_seen]; auto.
        -- set_solver.
        -- exists []. now rewrite app_nil_r.
        -- now apply register_page_queries_wf.
      * now apply proceeds_logs.
    + rewrite try_extract. cbn [files trace].
      destruct (parsed_page page) as [e|doc].
      * destruct e;
          try (apply (proceeds_processing _ _ page w (files w) logs [] []);
               auto; intros p Hp; now apply not_elem_of_nil in Hp).
        split.
        -- repeat split; cbn [seen_pages revision_cache queries mark_seen];
             auto.
           ++ set_solver.
           ++ exists []. now rewrite app_nil_r.
        -- apply (proceeds_processing _ _ page w (files w) logs
                    [EvLog (LogError ("  TimeoutError processing "
                                      +:+ title page +:+ ": " +:+ msg))] []);
             auto.
           ++ cbn [seen_pages mark_seen]. set_solver.
           ++ intros p Hp. now apply not_elem_of_nil in Hp.
      * destruct (links_parse urlparse_query doc).
        2:{ cbn [advanced].
            rewrite <- (app_nil_r (flat_map (link_log urlparse_query parse_qs)
                                     (parsed_prefix urlparse_query doc))).
            apply (proceeds_processing _ _ page w (files w) logs
                     (flat_map (link_log urlparse_query parse_qs)
                               (parsed_prefix urlparse_query doc)) []);
              auto.
            - apply link_logs_only_logs.
            - intros p Hp. now apply not_elem_of_nil in Hp. }
        split.
        -- repeat split;
             cbn [seen_pages revision_cache queries mark_seen processed_state].
           ++ set_solver.
           ++ rewrite dict_keys_set. destruct (Dict.mem _ _).
              ** exists []. now rewrite app_nil_r.
              ** eexists. reflexivity.
           ++ intros t. destruct (String.string_dec (title page) t) as [<-|Hne].
              ** right. split; [set_solver | exact Hfresh].
              ** left. now apply dict_get_set_ne.
           ++ intros Hwf. apply json_wf_set; [exact Hwf|].
              apply current_revision_record_wf.
           ++ now apply register_page_queries_wf.
        -- apply (proceeds_processing _ _ page w _ logs
                    (flat_map (link_log urlparse_query parse_qs) doc));
             auto.
           ++ cbn [seen_pages processed_state mark_seen]. set_solver.
           ++ apply link_logs_only_logs.
           ++ intros t. apply checkpoint_events_summary.
           ++ intros p. apply checkpoint_events_summary. exact "".
           ++ intros p Hp. destruct (checkpoint_due idx); [|reflexivity].
              now apply flushed_files_frame.
    + now apply proceeds_logs.
Qed.

Lemma advanced_after_logs (s : crawl_state) (w : world) (logs : list event)
    (r : outcome crawl_state * world) :
  forallb is_log logs = true ->
  advanced paths s (mkWorld (files w) (trace w ++ logs)) r ->
  advanced paths s w r.
Proof.
  intros Hlogs. destruct r as [[s'|e] w']; cbn [advanced].
  - intros [Hg Hp]. split; [exact Hg|].
    apply (proceeds_trans paths (seen_pages s) (seen_pages s)
             (fun _ => False) (fun t => t ∈ seen_pages s') _ w
             (mkWorld (files w) (trace w ++ logs)) w');
      auto; try tauto.
    now apply proceeds_logs.
  - intros Hp.
    apply (proceeds_trans paths (seen_pages s) (seen_pages s)
             (fun _ => False) (fun _ => True) _ w
             (mkWorld (files w) (trace w ++ logs)) w');
      auto; try tauto.
    now apply proceeds_logs.
Qed.

Lemma crawl_template_advanced (site : string -> list Page)
    (template_title : string) (s : crawl_state) (w : world) :
  advanced paths s w (a_template site template_title s w).
Proof.
  unfold crawl_template, bind, info, emit.
  apply (advanced_after_logs s w
           [EvLog (LogInfo ("Processing template: " +:+ template_title))]);
    [reflexivity|].
  apply for_each_advanced. apply visit_advanced.
Qed.

Lemma load_revision_cache_quiet (json_load : string -> outcome json)
    (path : string) :
  quiet (load_revision_cache json_load path).
Proof.
  unfold load_revision_cache. apply quiet_bind.
  - intros w. exists (Return (files w !! path)), [].
    split; [|reflexivity]. unfold read_text. now rewrite trace_app_nil.
  - intros [content|]; [|apply quiet_ret].
    destruct (json_load content) as [[]|[]];
      try apply quiet_ret; try apply quiet_raise.
    apply quiet_bind; [|intros; apply quiet_ret].
    intros w. eexists (Return tt), [_]. now split.
Qed.

(** [main] is the crawl followed by one flush. *)
Lemma main_after_crawl (json_load : string -> outcome json)
    (site : string -> list Page) (w : world) :
  main urlparse_query parse_qs with_suffix json_load site output_file
       revision_cache_path w
  = match crawl urlparse_query parse_qs with_suffix json_load site
                output_file revision_cache_path w with
    | (Return st, w2) =>
        (Return tt,
         mkWorld (flushed_files with_suffix output_file revision_cache_path
                                st (files w2))
                 (trace w2
                  ++ flush_events with_suffix output_file revision_cache_path
                                  st))
    | (Raise e, w2) => (Raise e, w2)
    end.
Proof.
  unfold main, crawl, bind.
  destruct (load_revision_cache json_load revision_cache_path w)
    as [[loaded|e] w1]; [|reflexivity].
  destruct (for_each _ TEMPLATES_TO_CHECK _ w1) as [[st|e] w2];
    [|reflexivity].
  pose proof (flush_spec with_suffix output_file revision_cache_path st w2)
    as Hflush.
  unfold bind in Hflush. exact Hflush.
Qed.

(** The crawl from the loaded cache on. *)
Lemma crawl_advanced (json_load : string -> outcome json)
    (site : string -> list Page) (w : world) :
  exists (res : outcome (pydict json)) (logs : list event),
    load_revision_cache json_load revision_cache_path w
    = (res, mkWorld (files w) (trace w ++ logs))
    /\ forallb is_log logs = true
    /\ match res with
       | Return loaded =>
           crawl urlparse_query parse_qs with_suffix json_load site
                 output_file revision_cache_path w
           = for_each (a_template site) TEMPLATES_TO_CHECK
                      (mkState ∅ [] loaded)
                      (mkWorld (files w) (trace w ++ logs))
           /\ advanced paths (mkState ∅ [] loaded) w
                (crawl urlparse_query parse_qs with_suffix json_load site
                       output_file revision_cache_path w)
       | Raise e =>
           crawl urlparse_query parse_qs with_suffix json_load site
                 output_file revision_cache_path w
           = (Raise e, mkWorld (files w) (trace w ++ logs))
       end.
Proof.
  destruct (load_revision_cache_quiet json_load revision_cache_path w)
    as (res & logs & Hload & Hlogs).
  exists res, logs. split; [exact Hload|]. split; [exact Hlogs|].
  unfold crawl, bind. rewrite Hload. destruct res as [loaded|e];
    [|reflexivity].
  split; [reflexivity|].
  apply (advanced_after_logs _ w logs); [exact Hlogs|].
  apply for_each_advanced. intros template s w'.
  apply crawl_template_advanced.
Qed.

Lemma flush_proceeds (seen : gset string) (st : crawl_state) (w : world) :
  proceeds paths seen (fun _ => False) w
    (mkWorld (flushed_files with_suffix output_file revision_cache_path st
                            (files w))
             (trace w
              ++ flush_events with_suffix output_file revision_cache_path st)).
Proof.
  eexists. split; [reflexivity|]. cbn [files].
  split; [|split; [|split; [|split]]].
  - intros t. cbn. lia.
  - intros t _. reflexivity.
  - intros t. cbn. lia.
  - intros p Hp. exact Hp.
  - intros p Hp. now apply flushed_files_frame.
Qed.

(** A run of [main], however it ends, has gone on as a crawl does. *)
Lemma main_proceeds (json_load : string -> outcome json)
    (site : string -> list Page) (w : world) :
  proceeds paths ∅ (fun _ => True) w
    (snd (main urlparse_query parse_qs with_suffix json_load site output_file
               revision_cache_path w)).
Proof.
  rewrite main_after_crawl.
  destruct (crawl_advanced json_load site w)
    as (res & logs & _ & Hlogs & Hcrawl).
  destruct res as [loaded|e].
  - destruct Hcrawl as [_ Hadv].
    destruct (crawl _ _ _ _ _ _ _ w) as [[st|e] w2]; cbn [advanced snd] in *.
    + destruct Hadv as [_ Hp].
      apply (proceeds_trans paths ∅ (seen_pages st)
               (fun t => t ∈ seen_pages st) (fun _ => False) _ w w2).
      * apply empty_subseteq.
      * auto.
      * auto.
      * tauto.
      * exact Hp.
      * apply flush_proceeds.
    + exact Hadv.
  - rewrite Hcrawl. cbn [snd]. now apply proceeds_logs.
Qed.

Lemma new_events_trace (w w' : world) (evs : list event) :
  trace w' = trace w ++ evs -> new_events w w' = evs.
Proof.
  intros H. unfold new_events. rewrite H. apply drop_app_length.
Qed.

Lemma visit_seen_pages (idx : nat) (page : Page) (s s' : crawl_state)
    (w w' : world) :
  a_round (idx, page) s w = (Return s', w') ->
  seen_pages s' = {[title page]} ∪ seen_pages s.
Proof.
  intros Hrun.
  destruct (decide (title page ∈ seen_pages s)) as [Hseen|Hfresh].
  - rewrite (visit_seen _ _ _ _ _ _ _ _ _ Hseen) in Hrun.
    injection Hrun as <- _. set_solver.
  - rewrite (visit_fresh _ _ _ _ _ _ _ _ _ Hfresh) in Hrun.
    destruct (consult_cache _ _ _ w) as [[[registry|]|e] w1];
      [now injection Hrun as <- _ | | discriminate].
    rewrite try_extract in Hrun.
    destruct (parsed_page page) as [[]|doc]; try discriminate;
      try (now injection Hrun as <- _).
    destruct (links_parse urlparse_query doc); [|discriminate].
    now injection Hrun as <- _.
Qed.

Lemma for_each_visit_seen_pages (items : list (nat * Page))
    (s s' : crawl_state) (w w' : world) :
  for_each a_round items s w = (Return s', w') ->
  seen_pages s' = seen_pages s ∪ list_to_set (titles items).
Proof.
  revert s w. induction items as [|[idx page] items IH]; intros s w;
    cbn [for_each titles map list_to_set snd].
  - intros [= <- _]. set_solver.
  - unfold bind.
    destruct (a_round (idx, page) s w) as [[s1|e] w1] eqn:Hround;
      [|discriminate].
    intros Hrest. rewrite (IH _ _ Hrest), (visit_seen_pages _ _ _ _ _ _ Hround).
    unfold titles. set_solver.
Qed.

Lemma titles_enumerate (pages : list Page) :
  titles (Py.enumerate pages) = map title pages.
Proof.
  unfold titles, Py.enumerate. generalize 0%nat.
  induction pages as [|page pages IH]; intros start; cbn; [reflexivity|].
  now rewrite IH.
Qed.

Lemma for_each_template_seen_pages (site : string -> list Page)
    (templates : list string) (s s' : crawl_state) (w w' : world) :
  for_each (a_template site) templates s w = (Return s', w') ->
  seen_pages s'
  = seen_pages s
    ∪ list_to_set (flat_map (fun template => map title (site template))
                            templates).
Proof.
  revert s w. induction templates as [|template templates IH]; intros s w;
    cbn [for_each flat_map].
  - intros [= <- _]. set_solver.
  - unfold bind.
    destruct (a_template site template s w) as [[s1|e] w1] eqn:Hone;
      [|discriminate].
    intros Hrest. rewrite (IH _ _ Hrest).
    unfold crawl_template, bind, info, emit in Hone.
    rewrite (for_each_visit_seen_pages _ _ _ _ _ Hone), titles_enumerate.
    rewrite list_to_set_app_L. set_solver.
Qed.

End run.

(** In a run of [main], however it ends, the rendered content of a page is
    requested at most once, whatever the templates list and whatever the
    cache holds. *)
Theorem main_fetches_each_page_at_most_once
    (urlparse_query : string -> option string)
    (parse_qs : string -> pydict (string * list string))
    (with_suffix : string -> string -> string)
    (json_load : string -> outcome json) (site : string -> list Page)
    (output_file revision_cache_path : string) (w : world)
    (page_title : string) :
  (fetch_count page_title
     (new_events w
        (snd (main urlparse_query parse_qs with_suffix json_load site
                   output_file revision_cache_path w))) <= 1)%nat.
Proof.
  destruct (main_proceeds urlparse_query parse_qs with_suffix output_file
              revision_cache_path json_load site w)
    as (evs & Htrace & Honce & _).
  rewrite (new_events_trace _ _ _ Htrace). apply Honce.
Qed.

(** A run of [main], however it ends, writes to the output file, to its
    [.map] sibling and to the revision cache and to nothing else: no other
    path is written, and every other file is as it was. *)
Theorem main_touches_only_its_files
    (urlparse_query : string -> option string)
    (parse_qs : string -> pydict (string * list string))
    (with_suffix : string -> string -> string)
    (json_load : string -> outcome json) (site : string -> list Page)
    (output_file revision_cache_path : string) (w : world) (p : string) :
  p ∉ crawl_files with_suffix output_file revision_cache_path ->
  files (snd (main urlparse_query parse_qs with_suffix json_load site
                   output_file revision_cache_path w)) !! p
  = files w !! p
  /\ p ∉ written_paths
           (new_events w
              (snd (main urlparse_query parse_qs with_suffix json_load site
                         output_file revision_cache_path w))).
Proof.
  intros Hp.
  destruct (main_proceeds urlparse_query parse_qs with_suffix output_file
              revision_cache_path json_load site w)
    as (evs & Htrace & _ & _ & _ & Hwritten & Hfiles).
  rewrite (new_events_trace _ _ _ Htrace). split.
  - now apply Hfiles.
  - intros Hin. apply Hp, Hwritten, Hin.
Qed.

Lemma main_touches_only_its_files_witness :
  files (snd (main Lib.urlparse_query Lib.parse_qs Lib.with_suffix Json.loads
                   one_page_site queries_path cache_path later_world))
    !! "notes.txt"
  = files later_world !! "notes.txt"
  /\ "notes.txt"
     ∉ written_paths
         (new_events later_world
            (snd (main Lib.urlparse_query Lib.parse_qs Lib.with_suffix
                       Json.loads one_page_site queries_path cache_path
                       later_world))).
Proof.
  apply (main_touches_only_its_files Lib.urlparse_query Lib.parse_qs
           Lib.with_suffix Json.loads one_page_site queries_path cache_path
           later_world "notes.txt").
  apply (bool_decide_unpack _). vm_compute. exact I.
Defined.

(** When the crawl returns, the pages it has marked as seen are the pages
    that the site lists under the templates. *)
Theorem crawl_seen_pages
    (urlparse_query : string -> option string)
    (parse_qs : string -> pydict (string * list string))
    (with_suffix : string -> string -> string)
    (json_load : string -> outcome json) (site : string -> list Page)
    (output_file revision_cache_path : string) (w w' : world)
    (st : crawl_state) :
  crawl urlparse_query parse_qs with_suffix json_load site output_file
        revision_cache_path w = (Return st, w') ->
  seen_pages st
  = list_to_set (flat_map (fun template => map title (site template))
                          TEMPLATES_TO_CHECK).
Proof.
  intros Hrun. unfold crawl, bind in Hrun.
  destruct (load_revision_cache json_load revision_cache_path w)
    as [[loaded|e] w1]; [|discriminate].
  rewrite (for_each_template_seen_pages _ _ _ _ _ _ _ _ _ _ _ Hrun).
  cbn [seen_pages]. set_solver.
Qed.

Lemma crawl_seen_pages_witness :
  seen_pages
    (mkState ({["Dragon"]} ∪ ∅) [("a:b", ["Dragon"])] one_page_cache)
  = list_to_set (flat_map (fun template => map title (one_page_site template))
                          TEMPLATES_TO_CHECK).
Proof.
  apply (crawl_seen_pages Lib.urlparse_query Lib.parse_qs Lib.with_suffix
           Json.loads one_page_site queries_path cache_path later_world
           (snd (crawl Lib.urlparse_query Lib.parse_qs Lib.with_suffix
                       Json.loads one_page_site queries_path cache_path
                       later_world))).
  vm_compute. reflexivity.
Defined.

(** When the crawl returns, the revision cache holds the keys of the cache
    that was loaded, in their order, and then the keys it has added; and
    the entry of every page that the run has not met is the one loaded. *)
Theorem crawl_keeps_cache_entries
    (urlparse_query : string -> option string)
    (parse_qs : string -> pydict (string * list string))
    (with_suffix : string -> string -> string)
    (json_load : string -> outcome json) (site : string -> list Page)
    (output_file revision_cache_path : string) (w w' : world)
    (st : crawl_state) :
  crawl urlparse_query parse_qs with_suffix json_load site output_file
        revision_cache_path w = (Return st, w') ->
  exists loaded added,
    fst (load_revision_cache json_load revision_cache_path w) = Return loaded
    /\ Dict.keys (revision_cache st) = Dict.keys loaded ++ added
    /\ forall t, t ∉ seen_pages st ->
                 Dict.get t (revision_cache st) = Dict.get t loaded.
Proof.
  intros Hrun.
  destruct (crawl_advanced urlparse_query parse_qs with_suffix output_file
              revision_cache_path json_load site w)
    as (res & logs & Hload & _ & Hcrawl).
  destruct res as [loaded|e]; [|rewrite Hrun in Hcrawl; discriminate].
  destruct Hcrawl as [_ Hadv]. rewrite Hrun in Hadv.
  destruct Hadv as [(_ & (added & Hkeys) & Hentries & _) _].
  exists loaded, added. rewrite Hload. split; [reflexivity|].
  split; [exact Hkeys|].
  intros t Ht. destruct (Hentries t) as [E|[Hin _]]; [exact E|].
  contradiction.
Qed.

Lemma crawl_keeps_cache_entries_witness :
  exists loaded added,
    fst (load_revision_cache Json.loads cache_path later_world)
    = Return loaded
    /\ Dict.keys
         (revision_cache
            (mkState ({["Wyvern"]} ∪ ∅)
               [("c:r", ["Wyvern"]); ("t:creature", ["Wyvern"])]
               (Dict.set "Wyvern"
                  (fresh_record Lib.urlparse_query Lib.parse_qs renamed_page
                                sample_doc)
                  one_page_cache)))
       = Dict.keys loaded ++ added
    /\ forall t,
         t ∉ seen_pages
               (mkState ({["Wyvern"]} ∪ ∅)
                  [("c:r", ["Wyvern"]); ("t:creature", ["Wyvern"])]
                  (Dict.set "Wyvern"
                     (fresh_record Lib.urlparse_query Lib.parse_qs
                                   renamed_page sample_doc)
                     one_page_cache)) ->
         Dict.get t
           (revision_cache
              (mkState ({["Wyvern"]} ∪ ∅)
                 [("c:r", ["Wyvern"]); ("t:creature", ["Wyvern"])]
                 (Dict.set "Wyvern"
                    (fresh_record Lib.urlparse_query Lib.parse_qs
                                  renamed_page sample_doc)
                    one_page_cache)))
         = Dict.get t loaded.
Proof.
  apply (crawl_keeps_cache_entries Lib.urlparse_query Lib.parse_qs
           Lib.with_suffix Json.loads renamed_site queries_path cache_path
           later_world
           (snd (crawl Lib.urlparse_query Lib.parse_qs Lib.with_suffix
                       Json.loads renamed_site queries_path cache_path
                       later_world))).
  vm_compute. reflexivity.
Defined.

(** The cache entry that an extraction stores is one that lets the page be
    skipped: when the cache holds under the title of a page the record of
    an extraction of the content [doc] at the revision the page still has,
    the round requests nothing, logs that the page is skipped, leaves the
    cache as it is, and registers for the page the queries that processing
    [doc] again would register. *)
Theorem visit_reuses_recorded_queries
    (urlparse_query : string -> option string)
    (parse_qs : string -> pydict (string * list string))
    (with_suffix : string -> string -> string)
    (output_file revision_cache_path : string)
    (idx : nat) (page earlier : Page) (doc : html)
    (st : crawl_state) (w : world) :
  title page ∉ seen_pages st ->
  latest_revision_id earlier = latest_revision_id page ->
  Dict.get (title page) (revision_cache st)
  = Some (fresh_record urlparse_query parse_qs earlier doc) ->
  visit urlparse_query parse_qs with_suffix output_file revision_cache_path
        (idx, page) st w
  = (Return (mkState ({[title page]} ∪ seen_pages st)
               (queries (processed_state urlparse_query parse_qs page doc st))
               (revision_cache st)),
     mkWorld (files w)
       (trace w
        ++ [EvLog (LogInfo ("  Skipping unchanged page: " +:+ title page
                            +:+ " (rev "
                            +:+ Str.of_Z (latest_revision_id page)
                            +:+ ")"))])).
Proof.
  intros Hfresh Hrev Hentry.
  rewrite (visit_fresh _ _ _ _ _ _ _ _ _ Hfresh).
  rewrite (consult_cache_hit (title page) (latest_revision_id page)
             (mark_seen (title page) st) w
             [("rev_id", JInt (latest_revision_id earlier));
              ("timestamp", match latest_revision earlier with
                            | Some iso => JStr iso
                            | None => JNull
                            end);
              ("queries",
               JList (map JStr (page_queries_of urlparse_query parse_qs doc)))]
             (page_queries_of urlparse_query parse_qs doc)).
  - reflexivity.
  - exact Hentry.
  - now rewrite Hrev.
  - reflexivity.
Qed.

Lemma visit_reuses_recorded_queries_witness :
  visit Lib.urlparse_query Lib.parse_qs Lib.with_suffix queries_path
        cache_path (0%nat, sample_page) recorded_state empty_world
  = (Return (mkState ({[title sample_page]} ∪ seen_pages recorded_state)
               (queries (processed_state Lib.urlparse_query Lib.parse_qs
                                         sample_page sample_doc
                                         recorded_state))
               (revision_cache recorded_state)),
     mkWorld (files empty_world)
       (trace empty_world
        ++ [EvLog (LogInfo ("  Skipping unchanged page: " +:+ title sample_page
                            +:+ " (rev "
                            +:+ Str.of_Z (latest_revision_id sample_page)
                            +:+ ")"))])).
Proof.
  apply (visit_reuses_recorded_queries Lib.urlparse_query Lib.parse_qs
           Lib.with_suffix queries_path cache_path 0%nat sample_page
           sample_page sample_doc recorded_state empty_world).
  - apply not_elem_of_empty.
  - reflexivity.
  - reflexivity.
Defined.

(** ** What the decoder returns *)

Lemma dict_of_pairs_wf {A} (pairs : list (string * A)) :
  Dict.wf (Dict.of_pairs pairs).
Proof.
  unfold Dict.of_pairs.
  assert (G : forall d : pydict A, Dict.wf d ->
          Dict.wf (fold_left (fun d kv => Dict.set (fst kv) (snd kv) d)
                             pairs d)).
  { induction pairs as [|kv pairs IH]; intros d Hd; cbn [fold_left];
      [exact Hd|].
    apply IH. now apply dict_wf_set. }
  apply G. apply NoDup_nil_2.
Qed.

Lemma dict_of_pairs_forall {A} (P : A -> Prop) (pairs : list (string * A)) :
  Forall (fun kv => P (snd kv)) pairs ->
  Forall (fun kv => P (snd kv)) (Dict.of_pairs pairs).
Proof.
  unfold Dict.of_pairs.
  assert (G : forall d : pydict A,
            Forall (fun kv => P (snd kv)) d ->
            Forall (fun kv => P (snd kv)) pairs ->
            Forall (fun kv => P (snd kv))
              (fold_left (fun d kv => Dict.set (fst kv) (snd kv) d) pairs d)).
  { induction pairs as [|kv pairs IH]; intros d Hd Hps; cbn [fold_left];
      [exact Hd|].
    apply Forall_cons in Hps as [Hkv Hps].
    apply IH; [|exact Hps]. now apply dict_set_forall. }
  intros H. apply G; [constructor | exact H].
Qed.

Module JsonDecoder.
Import Json.

Lemma scan_number_wf (s : string) (v : json) (rest : string) :
  scan_number s = Some (Return (v, rest)) -> wf v.
Proof.
  unfold scan_number, float_literal.
  destruct (match s with
            | String c s' => if Ascii.eqb c "-" then (true, s') else (false, s)
            | EmptyString => (false, s)
            end) as [negative digits].
  destruct (scan_natural digits) as [[u r]|]; [|discriminate].
  destruct (continues_as_float r); [discriminate|].
  now intros [= <- _].
Qed.

Lemma scan_literal_wf (s : string) (v : json) (rest : string) :
  scan_literal s = Return (v, rest) -> wf v.
Proof.
  unfold scan_literal, float_literal, fail.
  destruct (drop_prefix "null" s); [now intros [= <- _]|].
  destruct (drop_prefix "true" s); [now intros [= <- _]|].
  destruct (drop_prefix "false" s); [now intros [= <- _]|].
  destruct (scan_number s) as [r|] eqn:E.
  - intros ->. exact (scan_number_wf _ _ _ E).
  - destruct (_ || _)%bool; discriminate.
Qed.

Lemma wf_list (items : list json) : Forall wf items -> wf (JList items).
Proof.
  intros H. unfold wf. cbn [wfb]. apply forallb_forall.
  intros x Hx. rewrite Forall_forall in H. apply H.
  now apply list_elem_of_In.
Qed.

(** Every value that the scanner returns has distinct keys in each of its
    objects. *)
Lemma scan_wf (fuel : nat) :
  (forall s v rest, scan_once fuel s = Return (v, rest) -> wf v)
  /\ (forall s acc v rest,
        Forall wf acc -> scan_items fuel s acc = Return (v, rest) -> wf v)
  /\ (forall s acc v rest,
        Forall (fun kv => wf (snd kv)) acc ->
        scan_members fuel s acc = Return (v, rest) -> wf v).
Proof.
  induction fuel as [|fuel (IHonce & IHitems & IHmembers)].
  - repeat split; intros; discriminate.
  - split; [|split].
    + intros s v rest. cbn [scan_once].
      destruct s as [|c s']; [discriminate|].
      destruct (Ascii.eqb c dquote).
      { destruct (scanstring s') as [[content r]|e]; [|discriminate].
        now intros [= <- _]. }
      destruct (Ascii.eqb c "{").
      { destruct (skip_ws s') as [|c1 s1]; [discriminate|].
        destruct (Ascii.eqb c1 "}"); [now intros [= <- _]|].
        destruct (Ascii.eqb c1 dquote); [|discriminate].
        apply IHmembers. constructor. }
      destruct (Ascii.eqb c "[").
      { destruct (skip_ws s') as [|c1 s1]; [discriminate|].
        destruct (Ascii.eqb c1 "]"); [now intros [= <- _]|].
        apply IHitems. constructor. }
      apply scan_literal_wf.
    + intros s acc v rest Hacc. cbn [scan_items].
      destruct (scan_once fuel s) as [[x r]|e] eqn:Hx; [|discriminate].
      apply IHonce in Hx.
      destruct (skip_ws r) as [|c r1]; [discriminate|].
      destruct (Ascii.eqb c "]").
      { intros [= <- _]. apply wf_list.
        change (Forall wf (rev (x :: acc))). apply Forall_rev.
        now constructor. }
      destruct (Ascii.eqb c ","); [|discriminate].
      apply IHitems. now constructor.
    + intros s acc v rest Hacc. cbn [scan_members].
      destruct (scanstring s) as [[key r]|e]; [|discriminate].
      destruct (skip_ws r) as [|c r1]; [discriminate|].
      destruct (Ascii.eqb c ":"); [|discriminate].
      destruct (scan_once fuel (skip_ws r1)) as [[x r']|e] eqn:Hx;
        [|discriminate].
      apply IHonce in Hx.
      destruct (skip_ws r') as [|c2 r2]; [discriminate|].
      destruct (Ascii.eqb c2 "}").
      { intros [= <- _]. apply json_wf_dict. split.
        - apply dict_of_pairs_wf.
        - apply dict_of_pairs_forall.
          change (Forall (fun kv => wf (snd kv)) (rev ((key, x) :: acc))).
          apply Forall_rev. now constructor. }
      destruct (Ascii.eqb c2 ","); [|discriminate].
      destruct (skip_ws r2) as [|c3 r3]; [discriminate|].
      destruct (Ascii.eqb c3 dquote); [|discriminate].
      apply IHmembers. now constructor.
Qed.

Lemma loads_wf (s : string) (v : json) : loads s = Return v -> wf v.
Proof.
  unfold loads.
  destruct (scan_once _ _) as [[x rest]|e] eqn:Hx; [|discriminate].
  destruct (skip_ws rest); [|discriminate].
  intros [= <-]. exact (proj1 (scan_wf _) _ _ _ Hx).
Qed.

End JsonDecoder.

(** ** What the encoder writes is UTF-8 *)

Module Utf8Facts.
Import Json.

Lemma utf8_run_app (st : list (N * N)) (a b : string) :
  utf8_run st (a +:+ b)
  = match utf8_run st a with
    | Some st' => utf8_run st' b
    | None => None
    end.
Proof.
  revert st. induction a as [|c a IH]; intros st; [reflexivity|].
  rewrite str_app_cons. cbn [utf8_run].
  destruct (utf8_step st c); [apply IH | reflexivity].
Qed.

Lemma whole_app (a b : string) : whole a -> whole b -> whole (a +:+ b).
Proof. unfold whole. intros Ha Hb. now rewrite utf8_run_app, Ha. Qed.

Lemma escape_char_low (c : ascii) :
  (N_of_ascii c <? 128)%N = true -> whole (escape_char c).
Proof.
  destruct c as [[] [] [] [] [] [] [] []]; intros H;
    try discriminate H; reflexivity.
Qed.

Lemma escape_char_high (c : ascii) :
  (N_of_ascii c <? 128)%N = false -> escape_char c = String c EmptyString.
Proof.
  destruct c as [[] [] [] [] [] [] [] []]; intros H;
    try discriminate H; reflexivity.
Qed.

Lemma utf8_step_low (c : ascii) :
  (N_of_ascii c <? 128)%N = true -> utf8_step [] c = Some [].
Proof.
  intros H. cbn [utf8_step]. unfold utf8_expected. now rewrite H.
Qed.

Lemma utf8_expected_pending (c : ascii) (st : list (N * N)) :
  utf8_expected c = Some st -> pending st.
Proof.
  unfold utf8_expected, pending.
  repeat match goal with
         | |- context [if ?b then _ else _] => destruct b
         end;
    intros [= <-]; repeat constructor; cbn; lia.
Qed.

Lemma utf8_step_pending (st st' : list (N * N)) (c : ascii) :
  pending st -> utf8_step st c = Some st' -> pending st'.
Proof.
  destruct st as [|[lo hi] rest]; cbn [utf8_step].
  - intros _. apply utf8_expected_pending.
  - intros Hst. destruct (_ && _)%bool; [|discriminate].
    intros [= <-]. now apply Forall_cons in Hst as [_ Hst].
Qed.

Lemma utf8_step_low_pending (st st' : list (N * N)) (c : ascii) :
  pending st -> (N_of_ascii c <? 128)%N = true ->
  utf8_step st c = Some st' -> st = [] /\ st' = [].
Proof.
  destruct st as [|[lo hi] rest]; intros Hst Hc.
  - rewrite (utf8_step_low c Hc). now intros [= <-].
  - cbn [utf8_step]. apply Forall_cons in Hst as [Hlo _]. cbn in Hlo.
    apply N.ltb_lt in Hc.
    destruct (lo <=? N_of_ascii c)%N eqn:E; [|discriminate].
    apply N.leb_le in E. lia.
Qed.

Lemma escape_whole (s : string) (st : list (N * N)) :
  pending st -> utf8_run st s = Some [] -> utf8_run st (escape s) = Some [].
Proof.
  revert st. induction s as [|c s IH]; intros st Hst; [auto|].
  cbn [utf8_run escape].
  destruct (utf8_step st c) as [st'|] eqn:Hstep; [|discriminate].
  intros Hrest. pose proof (utf8_step_pending _ _ _ Hst Hstep) as Hst'.
  destruct (N_of_ascii c <? 128)%N eqn:Hc.
  - destruct (utf8_step_low_pending _ _ _ Hst Hc Hstep) as [-> ->].
    rewrite utf8_run_app, (escape_char_low c Hc). now apply IH.
  - rewrite (escape_char_high c Hc), str_app_cons. cbn [utf8_run].
    rewrite Hstep. change (EmptyString +:+ escape s) with (escape s).
    now apply IH.
Qed.

Lemma encode_basestring_whole (s : string) :
  whole s -> whole (encode_basestring s).
Proof.
  intros Hs. unfold encode_basestring, whole. cbn [utf8_run].
  rewrite (utf8_step_low dquote eq_refl), utf8_run_app.
  rewrite (escape_whole s [] ltac:(constructor) Hs). reflexivity.
Qed.

Lemma indent_whole (level : nat) : whole (indent level).
Proof. induction level as [|l IH]; [reflexivity | exact IH]. Qed.

Lemma newline_indent_whole (level : nat) : whole (newline_indent level).
Proof. apply indent_whole. Qed.

Lemma of_uint_whole (u : Decimal.uint) : whole (NilEmpty.string_of_uint u).
Proof. induction u; cbn; auto; reflexivity. Qed.

Lemma of_Z_whole (n : Z) : whole (Str.of_Z n).
Proof.
  unfold Str.of_Z, NilZero.string_of_int, NilZero.string_of_uint.
  destruct (Z.to_int n) as [u|u]; destruct u; try reflexivity;
    try apply (of_uint_whole (_ u));
    unfold whole; cbn [utf8_run]; apply of_uint_whole.
Qed.

Lemma separated_whole (sep : string) (chunks : list string) :
  whole sep -> Forall whole chunks -> whole (separated sep chunks).
Proof.
  intros Hsep. induction chunks as [|x chunks IH]; intros Hall;
    [reflexivity|].
  apply Forall_cons in Hall as [Hx Hall].
  destruct chunks as [|y chunks]; [exact Hx|].
  change (separated sep (x :: y :: chunks))
    with (x +:+ sep +:+ separated sep (y :: chunks)).
  apply whole_app; [exact Hx|]. apply whole_app; [exact Hsep|]. now apply IH.
Qed.

Lemma separator_whole (level : nat) :
  whole ("," +:+ newline_indent level).
Proof. apply whole_app; [reflexivity | apply newline_indent_whole]. Qed.

(** The encoder writes bytes that are UTF-8 when the texts of the value
    are. *)
Lemma encode_whole (v : json) :
  encodable v = true -> forall level, whole (encode level v).
Proof.
  induction v as [| b | n | s | items IH | members IH] using JsonFacts.json_induction;
    intros Hv level.
  - reflexivity.
  - destruct b; reflexivity.
  - apply of_Z_whole.
  - apply encode_basestring_whole. cbn [encodable] in Hv.
    unfold utf8_valid in Hv. unfold whole.
    destruct (utf8_run [] s) as [[|]|]; try discriminate. reflexivity.
  - destruct items as [|x items]; [reflexivity|].
    change (encode level (JList (x :: items)))
      with ("[" +:+ newline_indent (S level)
            +:+ separated ("," +:+ newline_indent (S level))
                  (map (encode (S level)) (x :: items))
            +:+ newline_indent level +:+ "]").
    apply whole_app; [reflexivity|].
    apply whole_app; [apply newline_indent_whole|].
    apply whole_app; [|apply whole_app;
                        [apply newline_indent_whole | reflexivity]].
    apply separated_whole; [apply separator_whole|].
    cbn [encodable] in Hv. rewrite forallb_forall in Hv.
    apply Forall_forall. intros chunk Hchunk.
    apply list_elem_of_In, in_map_iff in Hchunk as (y & <- & Hy).
    rewrite Forall_forall in IH.
    apply (IH y (proj2 (list_elem_of_In _ _) Hy)). now apply Hv.
  - destruct members as [|kv members]; [reflexivity|].
    change (encode level (JDict (kv :: members)))
      with ("{" +:+ newline_indent (S level)
            +:+ separated ("," +:+ newline_indent (S level))
                  (map (fun kv => encode_basestring (fst kv) +:+ ": "
                                  +:+ encode (S level) (snd kv))
                       (kv :: members))
            +:+ newline_indent level +:+ "}").
    apply whole_app; [reflexivity|].
    apply whole_app; [apply newline_indent_whole|].
    apply whole_app; [|apply whole_app;
                        [apply newline_indent_whole | reflexivity]].
    apply separated_whole; [apply separator_whole|].
    cbn [encodable] in Hv. rewrite forallb_forall in Hv.
    apply Forall_forall. intros chunk Hchunk.
    apply list_elem_of_In, in_map_iff in Hchunk as (y & <- & Hy).
    specialize (Hv y Hy). apply andb_true_iff in Hv as [Hkey Hval].
    rewrite Forall_forall in IH.
    apply whole_app.
    + apply encode_basestring_whole. unfold utf8_valid in Hkey. unfold whole.
      destruct (utf8_run [] (fst y)) as [[|]|]; try discriminate. reflexivity.
    + apply whole_app; [reflexivity|].
      apply (IH y (proj2 (list_elem_of_In _ _) Hy)). exact Hval.
Qed.

Lemma within_encodable (v : json) :
  forall depth, within depth v = true -> encodable v = true.
Proof.
  induction v as [| b | n | s | items IH | members IH] using JsonFacts.json_induction;
    intros depth Hv; try reflexivity.
  - exact Hv.
  - destruct depth as [|depth]; [discriminate|].
    cbn [within] in Hv. cbn [encodable].
    rewrite forallb_forall in Hv. apply forallb_forall. intros x Hx.
    rewrite Forall_forall in IH.
    exact (IH x (proj2 (list_elem_of_In _ _) Hx) depth (Hv x Hx)).
  - destruct depth as [|depth]; [discriminate|].
    cbn [within] in Hv. cbn [encodable].
    rewrite forallb_forall in Hv. apply forallb_forall. intros kv Hkv.
    specialize (Hv kv Hkv). apply andb_true_iff in Hv as [Hkey Hval].
    rewrite Forall_forall in IH.
    rewrite Hkey. cbn [andb].
    exact (IH kv (proj2 (list_elem_of_In _ _) Hkv) depth Hval).
Qed.

(** What the encoder writes of a value that the loader covers is read
    back as that value. *)
Lemma load_dumps (v : json) :
  within covered_nesting v = true -> wf v -> load (dumps v) = Return v.
Proof.
  intros Hv Hwf. unfold load, utf8_valid.
  rewrite (encode_whole v (within_encodable v _ Hv) 0%nat).
  rewrite (JsonFacts.loads_dumps _ Hwf). now rewrite Hv.
Qed.

Lemma load_wf (bytes : string) (v : json) : load bytes = Return v -> wf v.
Proof.
  unfold load. destruct (utf8_valid bytes); [|discriminate].
  destruct (loads bytes) as [v'|e] eqn:Hv.
  - destruct (within covered_nesting v'); [|discriminate].
    intros [= <-]. now apply (JsonDecoder.loads_wf bytes).
  - now destruct (unlimited bytes).
Qed.

(** The loader returns only values that it covers. *)
Lemma load_within (bytes : string) (v : json) :
  load bytes = Return v -> within covered_nesting v = true.
Proof.
  unfold load. destruct (utf8_valid bytes); [|discriminate].
  destruct (loads bytes) as [v'|e].
  - destruct (within covered_nesting v') eqn:Hv; [|discriminate].
    now intros [= <-].
  - now destruct (unlimited bytes).
Qed.

End Utf8Facts.

(** ** What a run leaves for the next *)

Lemma load_revision_cache_wf (json_load : string -> outcome json)
    (path : string) (w : world) (loaded : pydict json) :
  (forall content v, json_load content = Return v -> Json.wf v) ->
  fst (load_revision_cache json_load path w) = Return loaded ->
  Json.wf (JDict loaded).
Proof.
  intros Hwf.
  unfold load_revision_cache, bind, read_text, ret, raise, warning, emit.
  cbn [fst]. destruct (files w !! path) as [content|];
    [|now intros [= <-]].
  destruct (json_load content) as [v|e] eqn:Hv.
  - apply Hwf in Hv.
    destruct v; intros [= <-]; try reflexivity. exact Hv.
  - destruct e; try discriminate. now intros [= <-].
Qed.

Lemma sorted_sorted (xs : list string) :
  NoDup xs ->
  Py.sorted (elements (list_to_set (Py.sorted xs) : gset string))
  = Py.sorted xs.
Proof.
  intros Hnd. destruct (sorted_properties xs Hnd) as (Hsorted & Hnd' & _).
  apply (StronglySorted_unique String.le).
  - unfold Py.sorted. apply StronglySorted_merge_sort; apply _.
  - exact Hsorted.
  - unfold Py.sorted at 1. rewrite merge_sort_Permutation.
    now apply elements_list_to_set.
Qed.

Section persistence.

Variable urlparse_query : string -> option string.
Variable parse_qs : string -> pydict (string * list string).
Variable with_suffix : string -> string -> string.
Variables output_file revision_cache_path : string.
Variable site : string -> list Page.

Local Abbreviation the_crawl :=
  (crawl urlparse_query parse_qs with_suffix Json.load site output_file
         revision_cache_path).
Local Abbreviation the_run :=
  (main urlparse_query parse_qs with_suffix Json.load site output_file
        revision_cache_path).

(** The state in which the crawl returns holds dictionaries. *)
Lemma crawl_state_wf (w w' : world) (st : crawl_state) :
  the_crawl w = (Return st, w') ->
  Json.wf (JDict (revision_cache st)) /\ Dict.wf (queries st).
Proof.
  intros Hrun.
  destruct (crawl_advanced urlparse_query parse_qs with_suffix output_file
              revision_cache_path Json.load site w)
    as (res & logs & Hload & _ & Hcrawl).
  destruct res as [loaded|e]; [|rewrite Hrun in Hcrawl; discriminate].
  destruct Hcrawl as [_ Hadv]. rewrite Hrun in Hadv.
  destruct Hadv as [(_ & _ & _ & Hcache & Hregistry) _].
  split.
  - apply Hcache. cbn [revision_cache].
    apply (load_revision_cache_wf Json.load revision_cache_path w);
      [exact Utf8Facts.load_wf | now rewrite Hload].
  - apply Hregistry. apply NoDup_nil_2.
Qed.

Lemma sorted_keys_within (registry : pydict (list string)) :
  Dict.wf registry ->
  encodable_registry registry = true ->
  Json.within Json.covered_nesting
    (JList (map JStr (Py.sorted (Dict.keys registry)))) = true.
Proof.
  intros Hwf Henc. unfold Json.covered_nesting. cbn [Json.within].
  apply forallb_forall.
  intros x Hx. apply in_map_iff in Hx as (key & <- & Hkey).
  cbn [Json.within].
  apply list_elem_of_In in Hkey.
  apply (proj2 (proj2 (sorted_properties _ Hwf))) in Hkey.
  apply list_elem_of_In, in_map_iff in Hkey as (kv & <- & Hkv).
  unfold encodable_registry in Henc. rewrite forallb_forall in Henc.
  specialize (Henc kv Hkv). now apply andb_true_iff in Henc as [Hk _].
Qed.

(** After a run of [main] whose crawl has returned with a registry and a
    cache that can be stored, [load_revision_cache] reads from the cache
    path the revision cache that the crawl ended with: the next run starts
    from what this one knew.  The run itself has read its cache with
    [Json.load], which returns only what can be stored; the registry and
    the keys of the cache only grow and a page is extracted at most once,
    so that what a checkpoint flushes on the way holds only entries of the
    loaded cache and of the final state. *)
Theorem main_then_load_revision_cache (w w' : world) (st : crawl_state) :
  the_crawl w = (Return st, w') ->
  storable st = true ->
  load_revision_cache Json.load revision_cache_path (snd (the_run w))
  = (Return (revision_cache st), snd (the_run w)).
Proof.
  intros Hrun Hst. rewrite main_after_crawl, Hrun. cbn [snd].
  apply (load_revision_cache_object Json.load revision_cache_path _
           (Json.dumps (JDict (revision_cache st)))).
  - cbn [files]. unfold flushed_files. apply lookup_insert_eq.
  - apply Utf8Facts.load_dumps.
    + unfold storable in Hst.
      now apply andb_true_iff in Hst as [Hst _].
    + exact (proj1 (crawl_state_wf _ _ _ Hrun)).
Qed.

(** After a run of [main] whose crawl has returned with a registry and a
    cache that can be stored, the stats stage reads from the output file
    the searches of the registry, sorted and each once, provided that the
    [.map] sibling and the cache are other files than the output file. *)
Theorem main_then_load_queries (w w' : world) (st : crawl_state) :
  the_crawl w = (Return st, w') ->
  storable st = true ->
  with_suffix output_file ".map" <> output_file ->
  revision_cache_path <> output_file ->
  fst (load_queries Json.load output_file (snd (the_run w)))
  = Return (Py.sorted (Dict.keys (queries st))).
Proof.
  intros Hrun Hst Hmap Hcache. rewrite main_after_crawl, Hrun. cbn [snd].
  unfold load_queries, bind, read_text. cbn [files].
  unfold flushed_files.
  rewrite lookup_insert_ne by exact Hcache.
  rewrite lookup_insert_ne by exact Hmap.
  rewrite lookup_insert_eq.
  destruct (crawl_state_wf _ _ _ Hrun) as [_ Hwf].
  unfold storable in Hst. apply andb_true_iff in Hst as [_ Hreg].
  rewrite (Utf8Facts.load_dumps _ (sorted_keys_within _ Hwf Hreg)
             (json_wf_strings _)).
  rewrite mapM_as_str. unfold info, emit, ret. cbn [fst].
  f_equal. now apply sorted_sorted.
Qed.

End persistence.

Lemma main_then_load_revision_cache_witness :
  load_revision_cache Json.load cache_path
    (snd (main Lib.urlparse_query Lib.parse_qs Lib.with_suffix Json.load
               renamed_site queries_path cache_path later_world))
  = (Return (revision_cache renamed_run_state),
     snd (main Lib.urlparse_query Lib.parse_qs Lib.with_suffix Json.load
               renamed_site queries_path cache_path later_world)).
Proof.
  apply (main_then_load_revision_cache Lib.urlparse_query Lib.parse_qs
           Lib.with_suffix queries_path cache_path renamed_site later_world
           (snd (crawl Lib.urlparse_query Lib.parse_qs Lib.with_suffix
                       Json.load renamed_site queries_path cache_path
                       later_world))
           renamed_run_state).
  - vm_compute. reflexivity.
  - vm_compute. reflexivity.
Defined.

Lemma main_then_load_queries_witness :
  fst (load_queries Json.load queries_path
         (snd (main Lib.urlparse_query Lib.parse_qs Lib.with_suffix Json.load
                    renamed_site queries_path cache_path later_world)))
  = Return (Py.sorted (Dict.keys (queries renamed_run_state))).
Proof.
  apply (main_then_load_queries Lib.urlparse_query Lib.parse_qs
           Lib.with_suffix queries_path cache_path renamed_site later_world
           (snd (crawl Lib.urlparse_query Lib.parse_qs Lib.with_suffix
                       Json.load renamed_site queries_path cache_path
                       later_world))
           renamed_run_state).
  - vm_compute. reflexivity.
  - vm_compute. reflexivity.
  - vm_compute. discriminate.
  - vm_compute. discriminate.
Defined.

(** ** The table of the stats stage and its rendering *)

Lemma update_data_module_fold (session : Session) (queries : list string)
    (results : pydict (pydict string)) (w : world) :
  fst (for_each
         (fun query results =>
            stats <- fetch_scryfall_stats session query ;;
            ret (Dict.set query (stats_as_text stats) results))
         queries results w)
  = Return (fold_left (fun d kv => Dict.set (fst kv) (snd kv) d)
                      (map (rendered_stats session) queries) results).
Proof.
  revert results w.
  induction queries as [|query queries IH]; intros results w;
    [reflexivity|].
  pose proof (fetch_colors_stats session query COLOR_ORDER [] w) as Hstats.
  fold (fetch_scryfall_stats session query) in Hstats.
  fold (recorded_stats session query) in Hstats.
  cbn [for_each map fold_left]. unfold bind.
  destruct (fetch_scryfall_stats session query w) as [[stats|e] w1];
    cbn [fst] in Hstats; [|discriminate].
  injection Hstats as ->.
  exact (IH (Dict.set query
               (stats_as_text (recorded_stats session query)) results) w1).
Qed.

(** [update_data_module] never raises, and its table is the dictionary of
    the rendered entries of the queries. *)
Lemma update_data_module_spec (session : Session) (queries : list string)
    (w : world) :
  fst (update_data_module session queries w)
  = Return (Dict.of_pairs (map (rendered_stats session) queries)).
Proof. apply update_data_module_fold. Qed.

(** When [update_data_module] returns for queries that are all different,
    as the sorted set of [main] is, its table has one entry for each query,
    in the order of the queries, that holds as texts the counts that
    [fetch_scryfall_stats] gives. *)
Theorem update_data_module_entries (session : Session)
    (queries : list string) (w : world) (results : pydict (pydict string)) :
  fst (update_data_module session queries w) = Return results ->
  NoDup queries ->
  Dict.keys results = queries
  /\ forall query,
       query ∈ queries ->
       Dict.get query results
       = Some (stats_as_text (recorded_stats session query)).
Proof.
  rewrite update_data_module_spec. intros [= <-] Hnd.
  rewrite dict_of_pairs_distinct.
  - split.
    + unfold Dict.keys. rewrite map_map. cbn [rendered_stats fst].
      apply map_id.
    + intros query Hin. clear Hnd.
      induction queries as [|q queries IH];
        [now apply not_elem_of_nil in Hin|].
      cbn [map Dict.get rendered_stats].
      destruct (String.eqb query q) eqn:E.
      * apply String.eqb_eq in E. now subst q.
      * apply String.eqb_neq in E.
        apply elem_of_cons in Hin as [->|Hin]; [contradiction|].
        now apply IH.
  - rewrite map_map. cbn [rendered_stats fst]. now rewrite map_id.
Qed.

Lemma update_data_module_entries_witness :
  Dict.keys (Dict.of_pairs (map (rendered_stats fallback_fails) ["t:x"; "c:r"]))
  = ["t:x"; "c:r"]
  /\ forall query,
       query ∈ ["t:x"; "c:r"] ->
       Dict.get query
         (Dict.of_pairs (map (rendered_stats fallback_fails) ["t:x"; "c:r"]))
       = Some (stats_as_text (recorded_stats fallback_fails query)).
Proof.
  apply (update_data_module_entries fallback_fails ["t:x"; "c:r"] empty_world).
  - vm_compute. reflexivity.
  - apply NoDup_cons. split.
    + intros H. apply list_elem_of_singleton in H. discriminate.
    + apply NoDup_singleton.
Defined.

(** ** The rendered module under the Lua scanner *)

Lemma lua_scan_app (m : Lua.mode) (a b : string) :
  Lua.scan m (a +:+ b)
  = match Lua.scan m a with
    | Some m' => Lua.scan m' b
    | None => None
    end.
Proof.
  revert m. induction a as [|c a IH]; intros m; [reflexivity|].
  rewrite str_app_cons. cbn [Lua.scan].
  destruct (Lua.step m c); [apply IH | reflexivity].
Qed.

Lemma quote_free_app (a b : string) :
  quote_free (a +:+ b) = (quote_free a && quote_free b)%bool.
Proof.
  induction a as [|c a IH]; [reflexivity|].
  rewrite str_app_cons. cbn [quote_free]. rewrite IH. apply andb_assoc.
Qed.

(** Text without quotes leaves the scanner outside every string. *)
Lemma lua_scan_quote_free (s : string) (m : Lua.mode) :
  quote_free s = true -> calm m = true ->
  exists m', Lua.scan m s = Some m' /\ calm m' = true.
Proof.
  revert m. induction s as [|c s IH]; intros m Hs Hm; cbn [Lua.scan].
  - now exists m.
  - cbn [quote_free] in Hs. apply andb_true_iff in Hs as [Hc Hs].
    apply negb_true_iff in Hc.
    destruct m; try discriminate; cbn [Lua.step]; unfold Lua.code_step;
      rewrite ?Hc;
      repeat match goal with
             | |- context [if ?b then _ else _] => destruct b
             end;
      apply IH; auto.
Qed.

(** A plain query leaves the scanner inside the string it stands in. *)
Lemma lua_scan_plain (q : string) :
  plain_query q = true ->
  Lua.scan (Lua.Literal "'") q = Some (Lua.Literal "'").
Proof.
  induction q as [|c q IH]; intros Hq; [reflexivity|].
  cbn [plain_query] in Hq. apply andb_true_iff in Hq as [Hc Hq].
  apply negb_true_iff in Hc. apply orb_false_iff in Hc as [Hc Hnl].
  apply orb_false_iff in Hc as [Hquote Hback].
  cbn [Lua.scan Lua.step]. rewrite Hquote, Hback, Hnl. now apply IH.
Qed.

Lemma key_line_closed (q : string) :
  plain_query q = true -> line_closed ("    ['" +:+ q +:+ "'] = {").
Proof.
  intros Hq. exists Lua.Code. split; [|reflexivity].
  rewrite lua_scan_app.
  change (Lua.scan Lua.Code "    ['") with (Some (Lua.Literal "'")).
  cbv beta iota. now rewrite lua_scan_app, (lua_scan_plain q Hq).
Qed.

Lemma quote_free_line_closed (line : string) :
  quote_free line = true -> line_closed line.
Proof. intros H. now apply lua_scan_quote_free. Qed.

Lemma lua_step_newline (m : Lua.mode) :
  calm m = true -> Lua.step m "010" = Some Lua.Code.
Proof. now destruct m. Qed.

(** Lines that are closed, joined by line breaks, are closed as a whole. *)
Lemma joined_lines_closed (lines : list string) :
  Forall line_closed lines ->
  line_closed (Str.join (String "010" "") lines).
Proof.
  unfold Str.join. induction lines as [|line lines IH]; intros Hall.
  - now exists Lua.Code.
  - apply Forall_cons in Hall as [(m & Hm & Hcalm) Hall].
    destruct lines as [|next lines]; [now exists m|].
    destruct (IH Hall) as (m' & Hm' & Hcalm').
    exists m'. split; [|exact Hcalm'].
    change (String.concat (String "010" "") (line :: next :: lines))
      with (line +:+ String "010" ""
            +:+ String.concat (String "010" "") (next :: lines)).
    rewrite lua_scan_app, Hm, str_app_cons. cbn [Lua.scan].
    rewrite (lua_step_newline m Hcalm). exact Hm'.
Qed.

Lemma of_uint_quote_free (u : Decimal.uint) :
  quote_free (NilEmpty.string_of_uint u) = true.
Proof. induction u; cbn; auto. Qed.

Lemma of_Z_quote_free (n : Z) : quote_free (Str.of_Z n) = true.
Proof.
  unfold Str.of_Z, NilZero.string_of_int, NilZero.string_of_uint.
  destruct (Z.to_int n) as [u|u]; destruct u; try reflexivity;
    try apply (of_uint_quote_free (_ u));
    cbn [quote_free]; apply of_uint_quote_free.
Qed.

Lemma quote_free_concat (sep : string) (parts : list string) :
  quote_free sep = true ->
  Forall (fun part => quote_free part = true) parts ->
  quote_free (String.concat sep parts) = true.
Proof.
  intros Hsep. induction parts as [|part parts IH]; intros Hall;
    [reflexivity|].
  apply Forall_cons in Hall as [Hpart Hall].
  destruct parts as [|next parts]; [exact Hpart|].
  change (String.concat sep (part :: next :: parts))
    with (part +:+ sep +:+ String.concat sep (next :: parts)).
  now rewrite !quote_free_app, Hpart, Hsep, (IH Hall).
Qed.

Lemma color_chunk_quote_free (stats : pydict string) (color : string) :
  quiet_values stats -> quote_free color = true ->
  quote_free (color_chunk stats color) = true.
Proof.
  intros Hstats Hcolor. unfold color_chunk.
  rewrite !quote_free_app, Hcolor. specialize (Hstats color).
  destruct (Dict.get color stats); exact Hstats.
Qed.

Lemma lua_entry_closed (item : string * pydict string) :
  plain_query (fst item) = true -> quiet_values (snd item) ->
  Forall line_closed (lua_entry item).
Proof.
  intros Hquery Hstats. unfold lua_entry.
  repeat apply Forall_cons_2; [| | |constructor].
  - now apply key_line_closed.
  - apply quote_free_line_closed. rewrite quote_free_app.
    apply andb_true_iff. split; [reflexivity|].
    apply quote_free_concat; [reflexivity|].
    cbn [COLOR_ORDER map].
    repeat apply Forall_cons_2; try constructor;
      now apply color_chunk_quote_free.
  - now apply quote_free_line_closed.
Qed.

(** A table of plain queries whose fields hold no quotes renders to a
    module whose strings are all closed. *)
Lemma lua_from_mapping_closed (data : pydict (pydict string)) :
  Forall (fun item => plain_query (fst item) = true /\ quiet_values (snd item))
         data ->
  Lua.strings_closed (lua_from_mapping data) = true.
Proof.
  intros Hdata.
  assert (Hlines : line_closed (lua_from_mapping data)).
  { unfold lua_from_mapping. apply joined_lines_closed.
    apply Forall_app. split.
    - repeat apply Forall_cons_2; try constructor;
        now apply quote_free_line_closed.
    - apply Forall_app. split.
      + induction Hdata as [|item data [Hq Hs] _ IH]; cbn [map concat];
          [constructor|].
        apply Forall_app. split; [now apply lua_entry_closed | exact IH].
      + repeat apply Forall_cons_2; try constructor;
          now apply quote_free_line_closed. }
  destruct Hlines as (m & Hm & Hcalm). unfold Lua.strings_closed.
  rewrite Hm. now destruct m.
Qed.

Lemma dict_set_forall_items {A} (P : string * A -> Prop) (k : string) (v : A)
    (d : pydict A) :
  P (k, v) -> Forall P d -> Forall P (Dict.set k v d).
Proof.
  intros Hv. induction d as [|[k' v'] d IH]; intros Hd; cbn [Dict.set].
  - now repeat constructor.
  - apply Forall_cons in Hd as [Hkv Hd].
    destruct (String.eqb k k') eqn:E.
    + apply String.eqb_eq in E. subst k'. now constructor.
    + constructor; [exact Hkv | now apply IH].
Qed.

Lemma dict_of_pairs_forall_items {A} (P : string * A -> Prop)
    (pairs : list (string * A)) :
  Forall P pairs -> Forall P (Dict.of_pairs pairs).
Proof.
  unfold Dict.of_pairs.
  assert (G : forall d : pydict A,
            Forall P d -> Forall P pairs ->
            Forall P (fold_left (fun d kv => Dict.set (fst kv) (snd kv) d)
                                pairs d)).
  { induction pairs as [|[k v] pairs IH]; intros d Hd Hps; cbn [fold_left];
      [exact Hd|].
    apply Forall_cons in Hps as [Hkv Hps].
    apply IH; [|exact Hps]. now apply dict_set_forall_items. }
  intros H. apply G; [constructor | exact H].
Qed.

Lemma stats_as_text_quiet (stats : pydict Z) :
  quiet_values (stats_as_text stats).
Proof.
  intros color. induction stats as [|[k n] stats IH]; [reflexivity|].
  cbn [stats_as_text map Dict.get fst snd].
  destruct (String.eqb color k); [apply of_Z_quote_free | exact IH].
Qed.

(** The stats stage on plain queries: when no query holds a single quote,
    a backslash or a line break, the module that [lua_from_mapping] renders
    from the table of [update_data_module] has all its strings closed,
    whatever the upstream answers. *)
Theorem data_module_strings_closed (session : Session)
    (queries : list string) (w : world) (results : pydict (pydict string)) :
  fst (update_data_module session queries w) = Return results ->
  Forall (fun query => plain_query query = true) queries ->
  Lua.strings_closed (lua_from_mapping results) = true.
Proof.
  intros Hrun Hplain. rewrite update_data_module_spec in Hrun.
  injection Hrun as <-. apply lua_from_mapping_closed.
  apply dict_of_pairs_forall_items.
  induction Hplain as [|query queries Hq _ IH]; cbn [map]; constructor.
  - split; [exact Hq | apply stats_as_text_quiet].
  - exact IH.
Qed.

Lemma data_module_strings_closed_witness :
  Lua.strings_closed
    (lua_from_mapping
       (Dict.of_pairs (map (rendered_stats fallback_fails) ["t:x"; "c:r"])))
  = true.
Proof.
  apply (data_module_strings_closed fallback_fails ["t:x"; "c:r"] empty_world).
  - vm_compute. reflexivity.
  - repeat constructor.
Defined.

(** ** The configured headers *)

Lemma mapM_headers (headers : pydict string) :
  mapM (fun kv : string * json =>
          option_map (pair (fst kv)) (str_of_scalar (snd kv)))
       (map (fun kv : string * string => (fst kv, JStr (snd kv))) headers)
  = Some headers.
Proof.
  induction headers as [|[k v] headers IH]; [reflexivity|].
  cbn [map]. cbn. cbn in IH. now rewrite IH.
Qed.

(** A configuration file whose text decodes to an object with a [headers]
    member that is an object of strings is read by [load_headers] as those
    headers, in their order, however the text is laid out; the other
    members are ignored and nothing is logged or written. *)
Theorem load_headers_reads_string_headers
    (json_loads : string -> outcome json) (config_path : string) (w : world)
    (content : string) (config : pydict json) (headers : pydict string) :
  files w !! config_path = Some content ->
  json_loads content = Return (JDict config) ->
  Dict.get "headers" config = Some (headers_object headers) ->
  load_headers json_loads config_path w = (Return headers, w).
Proof.
  intros Hfile Hload Hheaders.
  unfold load_headers, bind, read_text. rewrite Hfile, Hload.
  unfold Py.get, ret. rewrite Hheaders.
  cbn [default id from_option headers_object].
  now rewrite mapM_headers.
Qed.

Lemma load_headers_reads_string_headers_witness :
  load_headers Json.load "config.json" (world_with "config.json" written_config)
  = (Return [("User-Agent", "OrmosBot/1.0"); ("X-Key", "s3cret")],
     world_with "config.json" written_config).
Proof.
  apply (load_headers_reads_string_headers Json.load "config.json"
           (world_with "config.json" written_config) written_config
           [("retries", JInt 3);
            ("headers",
             headers_object [("User-Agent", "OrmosBot/1.0");
                             ("X-Key", "s3cret")]);
            ("comment", JNull)]
           [("User-Agent", "OrmosBot/1.0"); ("X-Key", "s3cret")]).
  - vm_compute. reflexivity.
  - vm_compute. reflexivity.
  - reflexivity.
Defined.

Lemma headers_keys (members : pydict json) (found : pydict string) :
  mapM (fun kv : string * json =>
          option_map (pair (fst kv)) (str_of_scalar (snd kv))) members
  = Some found ->
  Dict.keys found = Dict.keys members.
Proof.
  revert found. induction members as [|[k v] members IH]; intros found.
  - cbn. intros [= <-]. reflexivity.
  - cbn. destruct (str_of_scalar v) as [text|]; cbn; [|discriminate].
    match goal with
    | |- context [mapM ?f members] =>
        destruct (mapM f members) as [rest|] eqn:Hrest; cbn; [|discriminate]
    end.
    intros [= <-]. cbn. f_equal. now apply IH.
Qed.

(** [load_headers] returns only when the file exists and decodes to an
    object whose [headers] member is an object; the result then has the
    keys of that object, in their order, and the world is as it was.  In
    every other case it raises. *)
Theorem load_headers_returns_only_for_headers_object
    (json_loads : string -> outcome json) (config_path : string) (w w' : world)
    (result : pydict string) :
  load_headers json_loads config_path w = (Return result, w') ->
  exists content config members,
    files w !! config_path = Some content
    /\ json_loads content = Return (JDict config)
    /\ Dict.get "headers" config = Some (JDict members)
    /\ Dict.keys result = Dict.keys members
    /\ w' = w.
Proof.
  unfold load_headers, bind, read_text, raise.
  destruct (files w !! config_path) as [content|]; [|discriminate].
  destruct (json_loads content) as [data|e] eqn:Hload; [|discriminate].
  unfold Py.get, ret, raise.
  destruct data as [| | | | |config]; try discriminate.
  destruct (Dict.get "headers" config) as [headers|] eqn:Hheaders;
    cbn [default id from_option]; [|discriminate].
  destruct headers as [| | | | |members]; try discriminate.
  match goal with
  | |- context [mapM ?f members] =>
      destruct (mapM f members) as [found|] eqn:Hfound; [|discriminate]
  end.
  intros [= <- <-]. exists content, config, members.
  split; [reflexivity|]. split; [exact Hload|]. split; [exact Hheaders|].
  split; [|reflexivity].
  exact (headers_keys members found Hfound).
Qed.

Lemma load_headers_returns_only_for_headers_object_witness :
  exists content config members,
    files (world_with "config.json" (Json.dumps (JDict sample_config)))
      !! "config.json" = Some content
    /\ Json.loads content = Return (JDict config)
    /\ Dict.get "headers" config = Some (JDict members)
    /\ Dict.keys [("User-Agent", "OrmosBot/1.0"); ("X-Key", "s3cret")]
       = Dict.keys members
    /\ world_with "config.json" (Json.dumps (JDict sample_config))
       = world_with "config.json" (Json.dumps (JDict sample_config)).
Proof.
  apply (load_headers_returns_only_for_headers_object Json.loads "config.json").
  vm_compute. reflexivity.
Defined.

(** ** The switch template *)

Lemma dict_get_stats_as_text (color : string) (stats : pydict Z) :
  Dict.get color (stats_as_text stats)
  = option_map Str.of_Z (Dict.get color stats).
Proof.
  induction stats as [|[k n] stats IH]; [reflexivity|].
  cbn [stats_as_text map Dict.get fst snd].
  destruct (String.eqb color k); [reflexivity | exact IH].
Qed.

Lemma color_values_fetched (int_of_str : string -> option Z)
    (stats : pydict Z) (colors : list string) :
  (forall n, int_of_str (Str.of_Z n) = Some n) ->
  color_values int_of_str (stats_as_text stats) colors
  = Return (map (fun color => default 0 (Dict.get color stats)) colors).
Proof.
  intros Hint. induction colors as [|color colors IH]; [reflexivity|].
  cbn [color_values map]. rewrite dict_get_stats_as_text, IH.
  destruct (Dict.get color stats) as [n|]; cbn [option_map default id from_option].
  - now rewrite Hint.
  - change "0"%string with (Str.of_Z 0). now rewrite Hint.
Qed.

Lemma switch_lines_fetched (casefold : string -> string)
    (int_of_str : string -> option Z) (session : Session)
    (data : pydict (pydict string)) :
  (forall n, int_of_str (Str.of_Z n) = Some n) ->
  Forall (fun item =>
            snd item = stats_as_text (recorded_stats session (fst item)))
         data ->
  switch_lines casefold int_of_str data
  = Return (map (fun item => counts_line casefold session (fst item)) data).
Proof.
  intros Hint Hdata. induction Hdata as [|[query stats] data Hitem _ IH];
    [reflexivity|].
  cbn [switch_lines map]. rewrite IH. unfold switch_line.
  cbn [fst snd] in *. subst stats.
  now rewrite (color_values_fetched int_of_str _ COLOR_ORDER Hint).
Qed.

(** On the table of [update_data_module], [switch_from_mapping] raises
    nothing, provided that [int] reads back what [str] writes for an
    integer: it gives one line for each entry, with the seven counts in the
    order of the colours, zero for a colour that was not stored, and their
    sum as the eighth number. *)
Theorem switch_from_mapping_of_fetched_stats
    (casefold : string -> string) (int_of_str : string -> option Z)
    (session : Session) (queries : list string) (w : world)
    (results : pydict (pydict string)) :
  (forall n, int_of_str (Str.of_Z n) = Some n) ->
  fst (update_data_module session queries w) = Return results ->
  switch_from_mapping casefold int_of_str results
  = Return (Str.join (String "010" "")
              (["<noinclude>Auto-generated data. Edit carefully.</noinclude>";
                "{{#switch:{{lc:{{{query|}}}}}"]
                 ++ map (fun item => counts_line casefold session (fst item))
                        results
                 ++ [" | default = "; "}}"])).
Proof.
  intros Hint Hrun. rewrite update_data_module_spec in Hrun.
  injection Hrun as <-. unfold switch_from_mapping.
  rewrite (switch_lines_fetched casefold int_of_str session); auto.
  apply dict_of_pairs_forall_items.
  apply Forall_forall. intros item Hitem.
  apply list_elem_of_In, in_map_iff in Hitem as (query & <- & _).
  reflexivity.
Qed.

Lemma decimal_int_of_Z (n : Z) : decimal_int (Str.of_Z n) = Some n.
Proof.
  unfold decimal_int.
  pose proof (JsonFacts.scan_number_of_Z n EmptyString eq_refl) as H.
  rewrite str_app_nil_r in H. now rewrite H.
Qed.

Lemma switch_from_mapping_of_fetched_stats_witness :
  switch_from_mapping Str.lower decimal_int
    (Dict.of_pairs (map (rendered_stats fallback_fails) ["T:x"]))
  = Return (Str.join (String "010" "")
              (["<noinclude>Auto-generated data. Edit carefully.</noinclude>";
                "{{#switch:{{lc:{{{query|}}}}}"]
                 ++ map (fun item =>
                           counts_line Str.lower fallback_fails (fst item))
                        (Dict.of_pairs
                           (map (rendered_stats fallback_fails) ["T:x"]))
                 ++ [" | default = "; "}}"])).
Proof.
  apply (switch_from_mapping_of_fetched_stats Str.lower decimal_int
           fallback_fails ["T:x"] empty_world).
  - exact decimal_int_of_Z.
  - vm_compute. reflexivity.
Defined.

(** The line of the query whose colourless count was dropped shows a zero
    in its place and the sum of the other six as total. *)
Example switch_line_of_dropped_category :
  counts_line Str.lower fallback_fails "t:x" = " | t:x = 0,3,3,3,3,3,3,18".
Proof. vm_compute. reflexivity. Qed.

(** ** The registry of a run *)

Lemma register_sound (seen : gset string) (t : string) (qs : list string)
    (registry : pydict (list string)) :
  registry_sound seen registry ->
  t ∉ seen ->
  NoDup qs ->
  registry_sound ({[t]} ∪ seen) (register_page_queries t qs registry).
Proof.
  intros Hreg Hfresh Hnd search pages. rewrite register_lookup.
  destruct (decide (search ∈ qs)) as [Hin|Hout].
  - intros [= <-].
    rewrite (proj1 (List.NoDup_count_occ' String.string_dec qs)).
    2:{ now apply NoDup_ListNoDup. }
    2:{ now apply list_elem_of_In. }
    cbn [replicate].
    assert (Hold : NoDup (default [] (Dict.get search registry))
                   /\ forall x, x ∈ default [] (Dict.get search registry) ->
                                x ∈ seen).
    { destruct (Dict.get search registry) as [old|] eqn:E; cbn.
      - exact (Hreg search old E).
      - split; [apply NoDup_nil_2|]. intros x Hx.
        now apply not_elem_of_nil in Hx. }
    destruct Hold as [Hnd' Hsub]. split.
    + apply NoDup_app. split; [exact Hnd'|]. split; [|apply NoDup_singleton].
      intros x Hx Hx'. apply list_elem_of_singleton in Hx'. subst x.
      apply Hfresh, Hsub, Hx.
    + intros x Hx. apply elem_of_app in Hx as [Hx|Hx].
      * apply elem_of_union_r, Hsub, Hx.
      * apply list_elem_of_singleton in Hx. subst x.
        apply elem_of_union_l, elem_of_singleton. reflexivity.
  - intros Hget. destruct (Hreg search pages Hget) as [Hnd' Hsub].
    split; [exact Hnd'|]. intros x Hx. apply elem_of_union_r, Hsub, Hx.
Qed.

Lemma registry_sound_mono (seen seen' : gset string)
    (registry : pydict (list string)) :
  seen ⊆ seen' -> registry_sound seen registry -> registry_sound seen' registry.
Proof.
  intros Hsub Hreg search pages Hget.
  destruct (Hreg search pages Hget) as [Hnd Hin].
  split; [exact Hnd|]. intros t Ht. apply Hsub, Hin, Ht.
Qed.

Lemma consult_cache_source (t : string) (r : Z) (st : crawl_state)
    (w w1 : world) (registry : pydict (list string)) :
  consult_cache t r st w = (Return (Some registry), w1) ->
  exists members cached_queries cached,
    Dict.get t (revision_cache st) = Some (JDict members)
    /\ default JNull (Dict.get "queries" members) = cached_queries
    /\ cached_queries <> JNull
    /\ Py.iterate cached_queries = Return cached
    /\ registry = register_page_queries t cached (queries st).
Proof.
  unfold consult_cache.
  destruct (Dict.get t (revision_cache st)) as [record|] eqn:Hentry;
    cbn [default id from_option]; [|discriminate].
  cbv [bind ret raise info emit Py.get Py.iter_strs].
  destruct record as [| | | | |members];
    try (destruct (Py.truthy _); discriminate).
  destruct (Py.truthy (JDict members)); [|discriminate].
  destruct (Py.eq_int (default JNull (Dict.get "rev_id" members)) r);
    [|discriminate].
  destruct (default JNull (Dict.get "queries" members)) as [| | | | |] eqn:Hq;
    try discriminate;
    match goal with
    | |- context [Py.iterate ?v] =>
        destruct (Py.iterate v) as [cached|e] eqn:Hit; [|discriminate]
    end;
    intros [= <- _]; eexists members, _, cached;
    (split; [reflexivity|]); (split; [exact Hq|]);
    (split; [discriminate|]); (split; [exact Hit | reflexivity]).
Qed.

Lemma page_queries_of_distinct (urlparse_query : string -> option string)
    (parse_qs : string -> pydict (string * list string)) (doc : html) :
  NoDup (page_queries_of urlparse_query parse_qs doc).
Proof.
  unfold page_queries_of. apply sorted_properties. apply NoDup_elements.
Qed.

Lemma fresh_record_distinct (urlparse_query : string -> option string)
    (parse_qs : string -> pydict (string * list string)) (page : Page)
    (doc : html) :
  distinct_queries (fresh_record urlparse_query parse_qs page doc) = true.
Proof.
  unfold fresh_record, current_revision_record.
  change (distinct_queries
            (JDict [("rev_id", JInt (latest_revision_id page));
                    ("timestamp", match latest_revision page with
                                  | Some iso => JStr iso
                                  | None => JNull
                                  end);
                    ("queries",
                     JList (map JStr (page_queries_of urlparse_query parse_qs
                                                      doc)))]) = true).
  cbn [distinct_queries Dict.get String.eqb Ascii.eqb Bool.eqb default id
       from_option].
  rewrite iterate_strings. apply bool_decide_eq_true_2.
  apply page_queries_of_distinct.
Qed.

Lemma for_each_preserves {A S} (body : A -> S -> py S) (I : S -> Prop) :
  (forall a s w s' w', body a s w = (Return s', w') -> I s -> I s') ->
  forall l s w s' w', for_each body l s w = (Return s', w') -> I s -> I s'.
Proof.
  intros Hbody. induction l as [|a l IH]; intros s w s' w'; cbn [for_each].
  - now intros [= <- _].
  - unfold bind. destruct (body a s w) as [[s1|e] w1] eqn:Hstep;
      [|discriminate].
    intros Hrest Hs. apply (IH _ _ _ _ Hrest). exact (Hbody _ _ _ _ _ Hstep Hs).
Qed.

Section sound.

Variable urlparse_query : string -> option string.
Variable parse_qs : string -> pydict (string * list string).
Variable with_suffix : string -> string -> string.
Variables output_file revision_cache_path : string.

Lemma visit_sound (item : nat * Page) (st : crawl_state) (w : world)
    (st' : crawl_state) (w' : world) :
  visit urlparse_query parse_qs with_suffix output_file revision_cache_path
        item st w = (Return st', w') ->
  state_sound st -> state_sound st'.
Proof.
  destruct item as [idx page]. intros Hrun [Hreg Hcache].
  destruct (decide (title page ∈ seen_pages st)) as [Hseen|Hfresh].
  - rewrite (visit_seen _ _ _ _ _ _ _ _ _ Hseen) in Hrun.
    injection Hrun as <- _. now split.
  - rewrite (visit_fresh _ _ _ _ _ _ _ _ _ Hfresh) in Hrun.
    destruct (consult_cache _ _ _ w) as [[[registry|]|e] w1] eqn:Hconsult;
      [| |discriminate].
    + injection Hrun as <- _.
      destruct (consult_cache_source _ _ _ _ _ _ Hconsult)
        as (members & cq & cached & Hentry & Hq & Hnot & Hit & ->).
      cbn [revision_cache queries mark_seen] in *.
      split; cbn [seen_pages queries revision_cache]; [|exact Hcache].
      apply register_sound; auto.
      pose proof (dict_get_forall (fun r => distinct_queries r = true)
                    _ _ _ Hcache Hentry) as Hdistinct.
      cbn [distinct_queries] in Hdistinct. rewrite Hq in Hdistinct.
      destruct cq; try contradiction; rewrite Hit in Hdistinct;
        now apply bool_decide_eq_true in Hdistinct.
    + rewrite try_extract in Hrun.
      destruct (parsed_page page) as [[]|doc]; try discriminate;
        [|destruct (links_parse urlparse_query doc); [|discriminate]];
        injection Hrun as <- _.
      * split; cbn [seen_pages queries revision_cache mark_seen];
          [|exact Hcache].
        apply (registry_sound_mono (seen_pages st)); [set_solver | exact Hreg].
      * split;
          cbn [seen_pages queries revision_cache mark_seen processed_state].
        -- apply register_sound; auto. apply page_queries_of_distinct.
        -- apply (dict_set_forall (fun r => distinct_queries r = true));
             [apply fresh_record_distinct | exact Hcache].
Qed.

Lemma crawl_template_sound (site : string -> list Page)
    (template_title : string) (st : crawl_state) (w : world)
    (st' : crawl_state) (w' : world) :
  crawl_template urlparse_query parse_qs with_suffix site output_file
                 revision_cache_path template_title st w = (Return st', w') ->
  state_sound st -> state_sound st'.
Proof.
  unfold crawl_template, bind, info, emit.
  apply (for_each_preserves _ state_sound). apply visit_sound.
Qed.

End sound.

(** When in the cache that the run loads the iteration of the queries of
    no record yields a value twice (a list without a repeated query, a text
    without a repeated character, an object), the registry in which the
    crawl returns lists under every search pages that the run has seen,
    each of them once: no page is registered twice for a search, whether
    its queries came from the cache or from its content. *)
Theorem crawl_registers_each_page_once
    (urlparse_query : string -> option string)
    (parse_qs : string -> pydict (string * list string))
    (with_suffix : string -> string -> string)
    (json_load : string -> outcome json) (site : string -> list Page)
    (output_file revision_cache_path : string) (w w' : world)
    (loaded : pydict json) (st : crawl_state)
    (search : string) (pages : list string) :
  fst (load_revision_cache json_load revision_cache_path w) = Return loaded ->
  cache_distinct loaded ->
  crawl urlparse_query parse_qs with_suffix json_load site output_file
        revision_cache_path w = (Return st, w') ->
  Dict.get search (queries st) = Some pages ->
  NoDup pages /\ forall t, t ∈ pages -> t ∈ seen_pages st.
Proof.
  intros Hload Hdistinct Hrun. unfold crawl, bind in Hrun.
  destruct (load_revision_cache json_load revision_cache_path w)
    as [[loaded'|e] w1]; [|discriminate].
  cbn [fst] in Hload. injection Hload as ->.
  assert (Hsound : state_sound st).
  { apply (for_each_preserves _ state_sound
             (crawl_template_sound urlparse_query parse_qs with_suffix
                output_file revision_cache_path site)
             _ _ _ _ _ Hrun).
    split; [|exact Hdistinct]. intros s ps. discriminate. }
  apply Hsound.
Qed.

Lemma crawl_registers_each_page_once_witness :
  NoDup ["Wyvern"]
  /\ forall t, t ∈ ["Wyvern"] -> t ∈ seen_pages renamed_run_state.
Proof.
  apply (crawl_registers_each_page_once Lib.urlparse_query Lib.parse_qs
           Lib.with_suffix Json.loads renamed_site queries_path cache_path
           later_world
           (snd (crawl Lib.urlparse_query Lib.parse_qs Lib.with_suffix
                       Json.loads renamed_site queries_path cache_path
                       later_world))
           one_page_cache renamed_run_state "c:r" ["Wyvern"]).
  - vm_compute. reflexivity.
  - repeat constructor.
  - vm_compute. reflexivity.
  - reflexivity.
Defined.

(** The condition on the loaded cache is needed: a record that holds a
    query twice registers its page twice. *)
Example doubled_queries_register_twice :
  fst (visit Lib.urlparse_query Lib.parse_qs Lib.with_suffix queries_path
             cache_path (0%nat, sample_page) doubled_state empty_world)
  = Return (mkState ({["Dragon"]} ∪ ∅) [("a:b", ["Dragon"; "Dragon"])]
                    (revision_cache doubled_state)).
Proof. reflexivity. Qed.

(** A queries field that is the text [a:a] does not pass that condition:
    its iteration yields the letter [a] twice. *)
Example text_queries_are_not_distinct :
  distinct_queries (JDict [("rev_id", JInt 42); ("queries", JStr "a:a")])
  = false.
Proof. reflexivity. Qed.
